(** * ExcelFileHandler (src/process_data_sigitm.py): a shallow embedding

    The handler locates the most recent spreadsheet with a given prefix,
    reads it with pandas and normalises its columns.  The Python code is
    embedded as Rocq functions:

    - the file system and the logger are an explicit [World] threaded
      through a state-and-exception monad [M];
    - a [DataFrame] is a list of labelled, typed arrays, as pandas
      stores it (one array per column, the dtype deciding which values
      the array can hold);
    - [Path.glob] follows the selectors of [pathlib] on POSIX: the
      pattern is cut into parts at the separators, a part without
      wildcard is looked up, a part with wildcards is matched against
      the entries of the directory reached so far;
    - the library calls whose behaviour depends on the data format, on
      the library version or on path resolution ([pd.read_excel],
      [pd.to_datetime], the text of a float, the coercion of
      non-numeric objects to Int64, the matching of a bracket
      expression, a glob pattern with a part [..] or with [**]) are
      parameters of a Section; instances of them are defined before
      the Section and used to run the examples at the end.

    Text is modelled as byte strings: file names and cells are taken to
    be ASCII where digits or wildcards matter.  A path is the list of
    its components; the file system keeps its entries under paths
    without [.] and [..] components. *)

From Stdlib Require Import String Ascii List ZArith Lia Bool Arith.
From Stdlib Require Import QArith.
From Stdlib Require Import DecimalString DecimalPos.
Import ListNotations.

Local Open Scope string_scope.
Local Open Scope Z_scope.

(* ------------------------------------------------------------------ *)
(** ** Exceptions, the world and the monad *)
(* ------------------------------------------------------------------ *)

(** Python exception classes that the code raises or that the modelled
    library calls raise.  All of them derive from [Exception]:
    [KeyboardInterrupt] and [SystemExit] are outside the model. *)
Inductive exn_class :=
| FileNotFoundError
| FileExistsError
| NotADirectoryError
| ValueError
| TypeError
| AttributeError
| OverflowError
| NotImplementedError
| OtherError.

Record exn := Exn { exn_cls : exn_class; exn_msg : string }.

(** [str(e)] *)
Definition str_exn (e : exn) : string := exn_msg e.

Inductive level := INFO | WARNING | ERROR.

Definition Path := list string.

(** What [os.stat] tells about a directory entry; [st_mtime] is the
    modification time as the code compares it. *)
Record node := mkNode { is_dir : bool; st_mtime : Z }.

(** The file system lists its entries in the order [os.scandir] yields
    them. *)
Record World := mkWorld {
  fs : list (Path * node);
  log : list (level * string)
}.

Definition M (A : Type) : Type := World -> World * (exn + A).

Definition ret {A} (a : A) : M A := fun w => (w, inr a).

Definition bind {A B} (m : M A) (k : A -> M B) : M B :=
  fun w => match m w with
           | (w', inl e) => (w', inl e)
           | (w', inr a) => k a w'
           end.

Definition raise {A} (e : exn) : M A := fun w => (w, inl e).

(** [try: m except Exception as e: h e] *)
Definition try_except {A} (m : M A) (h : exn -> M A) : M A :=
  fun w => match m w with
           | (w', inl e) => h e w'
           | r => r
           end.

Definition lift {A} (r : exn + A) : M A := fun w => (w, r).

Declare Scope py_scope.
Delimit Scope py_scope with py.
Notation "x <- m ;; k" := (bind m (fun x => k))
  (at level 61, m at next level, right associativity) : py_scope.
Notation "m ;;; k" := (bind m (fun _ => k))
  (at level 61, right associativity) : py_scope.
Local Open Scope py_scope.

(** [self.logger.<lvl>(msg)] *)
Definition logger (lvl : level) (msg : string) : M unit :=
  fun w => (mkWorld (fs w) (log w ++ [(lvl, msg)])%list, inr tt).

Definition get_fs : M (list (Path * node)) := fun w => (w, inr (fs w)).

Definition set_fs (f : list (Path * node)) : M unit :=
  fun w => (mkWorld f (log w), inr tt).

(* ------------------------------------------------------------------ *)
(** ** Paths *)
(* ------------------------------------------------------------------ *)

Definition path_eqb (p q : Path) : bool :=
  if list_eq_dec string_dec p q then true else false.

(** [Path.name]: the final component. *)
Definition name (p : Path) : string := last p EmptyString.

Fixpoint rfind_dot (l : list ascii) (i : nat) (acc : option nat) : option nat :=
  match l with
  | [] => acc
  | c :: l' => rfind_dot l' (S i) (if Ascii.eqb c "." then Some i else acc)
  end.

(** [PurePath.stem]: the name without its last suffix;
    [i = name.rfind('.')], and the name is cut at [i] when
    [0 < i < len(name) - 1]. *)
Definition stem_of_name (n : string) : string :=
  match rfind_dot (list_ascii_of_string n) 0%nat None with
  | Some i =>
      if ((0 <? i) && (i <? String.length n - 1))%nat
      then substring 0 i n else n
  | None => n
  end.

Definition stem (p : Path) : string := stem_of_name (name p).

(** [str(path)] *)
Fixpoint str_path (p : Path) : string :=
  match p with
  | [] => "."
  | [c] => c
  | c :: p' => c ++ "/" ++ str_path p'
  end.

(* ------------------------------------------------------------------ *)
(** ** The time stamp in the file name *)
(* ------------------------------------------------------------------ *)

Record datetime := mkDatetime {
  year : nat; month : nat; day : nat;
  hour : nat; minute : nat; second : nat
}.

Definition is_digit (c : ascii) : bool :=
  ((48 <=? nat_of_ascii c) && (nat_of_ascii c <=? 57))%nat.

Definition digit_val (c : ascii) : nat := (nat_of_ascii c - 48)%nat.

(** [re.match(r'(\d{6}_\d{4})', s)] at the head of [l]. *)
Definition match_token (l : list ascii) : option (list ascii) :=
  match l with
  | d1 :: d2 :: d3 :: d4 :: d5 :: d6 :: u :: h1 :: h2 :: m1 :: m2 :: _ =>
      if forallb is_digit [d1; d2; d3; d4; d5; d6; h1; h2; m1; m2]
         && Ascii.eqb u "_"
      then Some [d1; d2; d3; d4; d5; d6; u; h1; h2; m1; m2]
      else None
  | _ => None
  end.

(** [re.search(r'(\d{6}_\d{4})', s)]: the leftmost match. *)
Fixpoint re_search (l : list ascii) : option (list ascii) :=
  match match_token l with
  | Some t => Some t
  | None => match l with
            | [] => None
            | _ :: l' => re_search l'
            end
  end.

Definition is_leap (y : nat) : bool :=
  ((y mod 4 =? 0) && (negb (y mod 100 =? 0) || (y mod 400 =? 0)))%nat.

Definition days_in_month (y m : nat) : nat :=
  match m with
  | 2 => if is_leap y then 29 else 28
  | 4 | 6 | 9 | 11 => 30
  | _ => 31
  end%nat.

Definition two (a b : ascii) : nat := (10 * digit_val a + digit_val b)%nat.

(** [datetime.strptime(s, "%d%m%y_%H%M")] on a string of the shape
    found by [re_search].  Every directive has to take two digits for
    the whole string to be consumed: the day is 01..31, the month
    01..12, the hour 00..23, the minute 00..59; [%y] below 69 is in
    2000, otherwise in 1900; the [datetime] constructor then rejects a
    day beyond the month's length. *)
Definition strptime (t : list ascii) : exn + datetime :=
  match t with
  | [d1; d2; m1; m2; y1; y2; _; h1; h2; n1; n2] =>
      let d := two d1 d2 in
      let m := two m1 m2 in
      let yy := two y1 y2 in
      let h := two h1 h2 in
      let n := two n1 n2 in
      let y := (if yy <=? 68 then 2000 + yy else 1900 + yy)%nat in
      if ((1 <=? d) && (d <=? 31) && (1 <=? m) && (m <=? 12)
          && (h <=? 23) && (n <=? 59))%nat
      then if (d <=? days_in_month y m)%nat
           then inr (mkDatetime y m d h n 0)
           else inl (Exn ValueError "day is out of range for month")
      else inl (Exn ValueError
                  ("time data '" ++ string_of_list_ascii t
                   ++ "' does not match format '%d%m%y_%H%M'"))
  | _ => inl (Exn ValueError
                ("time data '" ++ string_of_list_ascii t
                 ++ "' does not match format '%d%m%y_%H%M'"))
  end.

Definition digit_char (n : nat) : ascii := ascii_of_nat (48 + n mod 10).

Definition pad2 (n : nat) : string :=
  String (digit_char (n / 10)) (String (digit_char n) EmptyString).

Definition pad4 (n : nat) : string :=
  String (digit_char (n / 1000)) (String (digit_char (n / 100)) (pad2 n)).

(** [dt.strftime("%Y-%m-%d")] *)
Definition DISPLAY_DATE_FORMAT (t : datetime) : string :=
  pad4 (year t) ++ "-" ++ pad2 (month t) ++ "-" ++ pad2 (day t).

(** [dt.strftime("%Y-%m-%d %H:%M")] *)
Definition DISPLAY_DATETIME_FORMAT (t : datetime) : string :=
  DISPLAY_DATE_FORMAT t ++ " " ++ pad2 (hour t) ++ ":" ++ pad2 (minute t).

(** [dt.strftime('%Y-%m-%d %H:%M:%S')] *)
Definition DATETIME_FORMAT_ISO (t : datetime) : string :=
  DISPLAY_DATETIME_FORMAT t ++ ":" ++ pad2 (second t).

(** The body of the [try] of [_extract_datetime_from_filename]. *)
Definition extract_body (file_path : Path) : exn + (string * string) :=
  let file_name := stem file_path in
  match re_search (list_ascii_of_string file_name) with
  | None =>
      inl (Exn ValueError
             ("Padrão de data não encontrado em: " ++ file_name))
  | Some datetime_str =>
      match strptime datetime_str with
      | inl e => inl e
      | inr dt_obj =>
          inr (DISPLAY_DATE_FORMAT dt_obj, DISPLAY_DATETIME_FORMAT dt_obj)
      end
  end.

(** [_extract_datetime_from_filename]: the error is logged and raised
    again. *)
Definition _extract_datetime_from_filename (file_path : Path)
  : M (string * string) :=
  try_except (lift (extract_body file_path))
    (fun e => logger ERROR ("Erro na extração: " ++ str_exn e) ;;; raise e).

(* ------------------------------------------------------------------ *)
(** ** The file system *)
(* ------------------------------------------------------------------ *)

Definition lookup_path (f : list (Path * node)) (p : Path) : option node :=
  match find (fun e => path_eqb (fst e) p) f with
  | Some e => Some (snd e)
  | None => None
  end.

(** [Path.exists()]; the root always exists. *)
Definition exists_ (f : list (Path * node)) (p : Path) : bool :=
  match p with
  | [] => true
  | _ => match lookup_path f p with Some _ => true | None => false end
  end.

(** The non-empty prefixes of a path, shortest first: its ancestors and
    the path itself. *)
Fixpoint ancestors_and_self (pre p : Path) : list Path :=
  match p with
  | [] => []
  | c :: p' => (pre ++ [c])%list :: ancestors_and_self (pre ++ [c])%list p'
  end.

(** One level of [mkdir(parents=True, exist_ok=True)]: an existing
    directory is kept, a missing one is created (with the given
    modification time), an existing regular file makes the call fail. *)
Definition mkdir_one (now : Z) (acc : exn + list (Path * node)) (q : Path)
  : exn + list (Path * node) :=
  match acc with
  | inl e => inl e
  | inr f =>
      match lookup_path f q with
      | None => inr (f ++ [(q, mkNode true now)])%list
      | Some n =>
          if is_dir n then inr f
          else inl (Exn NotADirectoryError ("Not a directory: " ++ str_path q))
      end
  end.

(** [Path.mkdir(parents=True, exist_ok=True)] *)
Definition mkdir_parents (now : Z) (f : list (Path * node)) (p : Path)
  : exn + list (Path * node) :=
  fold_left (mkdir_one now) (ancestors_and_self [] p) (inr f).

Definition mkdir (now : Z) (p : Path) : M unit :=
  f <- get_fs ;;
  match mkdir_parents now f p with
  | inl e => raise e
  | inr f' => set_fs f'
  end.

(** [Path.unlink()]: the entry is removed; a missing path is refused
    with [FileNotFoundError], a directory with an [OSError] whose class
    depends on the platform. *)
Definition unlink (p : Path) : M unit :=
  f <- get_fs ;;
  match lookup_path f p with
  | None =>
      raise (Exn FileNotFoundError ("No such file or directory: " ++ str_path p))
  | Some n =>
      if is_dir n
      then raise (Exn OtherError ("Is a directory: " ++ str_path p))
      else set_fs (filter (fun e => negb (path_eqb (fst e) p)) f)
  end.

(** The entries directly inside [d]. *)
Definition is_child (d : Path) (p : Path) : bool :=
  match p with
  | [] => false
  | _ => path_eqb (removelast p) d
  end.

(** [Path.is_dir()]; the root is a directory. *)
Definition is_directory (f : list (Path * node)) (p : Path) : bool :=
  match p with
  | [] => true
  | _ => match lookup_path f p with Some n => is_dir n | None => false end
  end.

(** [os.scandir(d)]: the entries directly inside [d], in listing
    order. *)
Definition scandir (f : list (Path * node)) (d : Path) : list (Path * node) :=
  filter (fun e => is_child d (fst e)) f.

(** [p.stat()] *)
Definition stat (f : list (Path * node)) (p : Path) : exn + node :=
  match lookup_path f p with
  | Some n => inr n
  | None =>
      inl (Exn FileNotFoundError ("No such file or directory: " ++ str_path p))
  end.

(** The key that [max(files, key=lambda f: f.stat().st_mtime)]
    computes for one path. *)
Definition with_mtime (f : list (Path * node)) (p : Path) : exn + (Path * Z) :=
  match stat f p with
  | inl e => inl e
  | inr n => inr (p, st_mtime n)
  end.

(** [max(files, key=...)]: the first element whose key is maximal. *)
Fixpoint py_max {A} (key : A -> Z) (best : A) (l : list A) : A :=
  match l with
  | [] => best
  | x :: l' => py_max key (if key best <? key x then x else best) l'
  end.

(* ------------------------------------------------------------------ *)
(** ** Glob patterns

    [Path.glob(pattern)] on POSIX, after [pathlib]: [parse_parts] cuts
    the pattern at the separators and drops the empty parts and the
    parts [.]; a pattern that begins with a separator is refused; each
    remaining part becomes a selector. *)
(* ------------------------------------------------------------------ *)

(** [c in s] *)
Definition has_char (c : ascii) (s : string) : bool :=
  existsb (Ascii.eqb c) (list_ascii_of_string s).

(** [pattern.split('/')] *)
Fixpoint split_sep (s : string) : list string :=
  match s with
  | EmptyString => [EmptyString]
  | String c s' =>
      if Ascii.eqb c "/" then EmptyString :: split_sep s'
      else match split_sep s' with
           | x :: xs => String c x :: xs
           | [] => [String c EmptyString]
           end
  end.

(** The parts that [parse_parts] keeps. *)
Definition pattern_parts (pattern : string) : list string :=
  filter (fun x => negb (String.eqb x EmptyString || String.eqb x "."))
    (split_sep pattern).

(** A pattern with a root: it begins with a separator. *)
Definition is_absolute (pattern : string) : bool :=
  match pattern with
  | String c _ => Ascii.eqb c "/"
  | EmptyString => false
  end.

(** [pattern[-1] == '/'] *)
Fixpoint ends_with_sep (pattern : string) : bool :=
  match pattern with
  | EmptyString => false
  | String c EmptyString => Ascii.eqb c "/"
  | String _ s' => ends_with_sep s'
  end.

(** ['**' in pat] *)
Fixpoint has_double_star (pat : string) : bool :=
  match pat with
  | EmptyString => false
  | String a s' =>
      match s' with
      | String b _ => (Ascii.eqb a "*" && Ascii.eqb b "*") || has_double_star s'
      | EmptyString => false
      end
  end.

(** [_is_wildcard_pattern] *)
Definition is_wildcard_pattern (pat : string) : bool :=
  has_char "*" pat || has_char "?" pat || has_char "[" pat.

(** [re.fullmatch(fnmatch.translate(pat), name)] for a part without
    bracket: a star stands for any characters, a question mark for
    one character, any other character for itself. *)
Fixpoint wildcard (pat : string) : string -> bool :=
  match pat with
  | EmptyString =>
      fun name => match name with EmptyString => true | _ => false end
  | String c pat' =>
      if Ascii.eqb c "*" then
        fix star (name : string) : bool :=
          wildcard pat' name
          || match name with
             | EmptyString => false
             | String _ name' => star name'
             end
      else if Ascii.eqb c "?" then
        fun name => match name with
                    | EmptyString => false
                    | String _ name' => wildcard pat' name'
                    end
      else
        fun name => match name with
                    | EmptyString => false
                    | String x name' => Ascii.eqb x c && wildcard pat' name'
                    end
  end.

(** A part that the selectors below do not cover: [..], which the
    operating system resolves, and a part that holds [**], which
    walks the tree or is refused, depending on the version of Python. *)
Definition beyond (pat : string) : bool :=
  String.eqb pat ".." || has_double_star pat.

(* ------------------------------------------------------------------ *)
(** ** Cells, arrays and data frames *)
(* ------------------------------------------------------------------ *)

(** The Python objects a cell can hold. *)
Inductive cell :=
| PyNone
| NaN
| NA
| NaT
| PyInt (z : Z)
| PyFloat (q : Q)
| PyStr (s : string)
| PyBool (b : bool)
| PyDatetime (t : datetime) (utcoffset : option Z).

Inductive dtype := object | float64 | int64 | bool_ | datetime64 | Int64.

(** A column's values, typed by its dtype.  [None] stands for the
    array's own missing value: NaN in a float array, NaT in a datetime
    array, [pd.NA] in a masked integer array. *)
Inductive array :=
| ObjectArray (l : list cell)
| Float64Array (l : list (option Q))
| Int64Array (l : list Z)
| BoolArray (l : list bool)
| Datetime64Array (l : list (option datetime))
| MaskedInt64Array (l : list (option Z)).

Definition dtype_of (a : array) : dtype :=
  match a with
  | ObjectArray _ => object
  | Float64Array _ => float64
  | Int64Array _ => int64
  | BoolArray _ => bool_
  | Datetime64Array _ => datetime64
  | MaskedInt64Array _ => Int64
  end.

(** The elements of an array as Python objects. *)
Definition cells_of (a : array) : list cell :=
  match a with
  | ObjectArray l => l
  | Float64Array l =>
      map (fun o => match o with Some q => PyFloat q | None => NaN end) l
  | Int64Array l => map PyInt l
  | BoolArray l => map PyBool l
  | Datetime64Array l =>
      map (fun o => match o with Some t => PyDatetime t None | None => NaT end) l
  | MaskedInt64Array l =>
      map (fun o => match o with Some z => PyInt z | None => NA end) l
  end.

Record DataFrame := mkDataFrame {
  nrows : nat;
  columns : list (string * array)
}.

Definition labels (df : DataFrame) : list string := map fst (columns df).

(** [col in df.columns] *)
Definition has_column (df : DataFrame) (col : string) : bool :=
  existsb (String.eqb col) (labels df).

(** The arrays stored under a label. *)
Definition get_columns (df : DataFrame) (col : string) : list array :=
  map snd (filter (fun c => String.eqb (fst c) col) (columns df)).

(** [df[col] = a] for an existing label. *)
Definition set_column (df : DataFrame) (col : string) (a : array) : DataFrame :=
  mkDataFrame (nrows df)
    (map (fun c => if String.eqb (fst c) col then (fst c, a) else c)
       (columns df)).

(** [isna] on one object. *)
Definition isna (c : cell) : bool :=
  match c with
  | PyNone | NaN | NA | NaT => true
  | _ => false
  end.

(** [Series.notnull()] *)
Definition notnull (a : array) : list bool :=
  map (fun c => negb (isna c)) (cells_of a).

Definition COLUMN_MAPPING : list (string * string) :=
  [ ("Data Criacao", "data_criacao");
    ("VTA PK", "vta_pk");
    ("Raiz", "raiz");
    ("Tíquete Referência", "tiquete_referencia");
    ("Tipo de Bilhete", "tipo_de_bilhete");
    ("Tipo de Alarme", "tipo_de_alarme");
    ("Tipo de Afetação", "tipo_de_afetacao");
    ("Tipo TA", "tipo_ta");
    ("Tipo de Planta", "tipo_de_planta");
    ("Código Localidade", "codigo_localidade");
    ("Sigla Estado", "sigla_estado");
    ("Sigla Município", "sigla_municipio");
    ("Nome Município", "nome_municipio");
    ("Bairro", "bairro");
    ("Código Site", "codigo_site");
    ("Sigla Site V2", "sigla_site_v2");
    ("Empresa Manutenção", "empresa_manutencao");
    ("Grupo Responsavel", "grupo_responsavel");
    ("Status", "status");
    ("Data de Baixa", "data_de_baixa");
    ("Data Encerramento", "data_encerramento");
    ("Observação Histórico", "observacao_historico") ].

Definition PREFIX : string := "CONSULTA_TLP_PCP_CS".

Definition DATE_COLUMNS : list string :=
  ["data_criacao"; "data_de_baixa"; "data_encerramento"].

Definition id_cols : list string := ["vta_pk"; "raiz"; "codigo_localidade"].

(** [mapping.get(label, label)] *)
Definition rename_label (mapping : list (string * string)) (l : string) : string :=
  match find (fun kv => String.eqb (fst kv) l) mapping with
  | Some kv => snd kv
  | None => l
  end.

(** [df.rename(columns=mapping)] *)
Definition rename (mapping : list (string * string)) (df : DataFrame) : DataFrame :=
  mkDataFrame (nrows df)
    (map (fun c => (rename_label mapping (fst c), snd c)) (columns df)).

(** [df.insert(loc, column, value)] with a scalar string: the value is
    broadcast over the rows; a label already present is refused. *)
Definition insert (loc : nat) (column : string) (value : string) (df : DataFrame)
  : exn + DataFrame :=
  if has_column df column
  then inl (Exn ValueError ("cannot insert " ++ column ++ ", already exists"))
  else inr (mkDataFrame (nrows df)
              (firstn loc (columns df)
               ++ [(column, ObjectArray (repeat (PyStr value) (nrows df)))]
               ++ skipn loc (columns df))%list).

(* ------------------------------------------------------------------ *)
(** ** Array operations of pandas *)
(* ------------------------------------------------------------------ *)

(** [str(int)] *)
Definition string_of_Z (z : Z) : string := NilZero.string_of_int (Z.to_int z).

(** The UTC offset, in minutes, as [str(datetime)] prints it. *)
Definition str_offset (o : option Z) : string :=
  match o with
  | None => EmptyString
  | Some m =>
      (if m <? 0 then "-" else "+")
      ++ pad2 (Z.to_nat (Z.abs m / 60)) ++ ":" ++ pad2 (Z.to_nat (Z.abs m mod 60))
  end.

(** The literal strings that the cleanup pass replaces. *)
Definition is_sentinel (s : string) : bool :=
  existsb (String.eqb s) ["nan"; "None"; EmptyString; "NaT"].

(** One cell under [replace({pd.NA: None, 'nan': None, 'None': None,
    '': None, 'NaT': None})] in an object array: the key [pd.NA]
    selects every missing value, a string key the equal strings. *)
Definition cleanup_cell (c : cell) : cell :=
  match c with
  | PyStr s => if is_sentinel s then PyNone else c
  | _ => if isna c then PyNone else c
  end.

(** [Series.replace(to_replace, None)] with a string [to_replace]. *)
Definition replace_scalar (to_replace : string) (a : array) : array :=
  match a with
  | ObjectArray l =>
      ObjectArray
        (map (fun c => match c with
                       | PyStr s => if String.eqb s to_replace then PyNone else c
                       | _ => c
                       end) l)
  | _ => a
  end.

(** [Series.fillna(0)] *)
Definition fillna0 (a : array) : array :=
  match a with
  | ObjectArray l => ObjectArray (map (fun c => if isna c then PyInt 0 else c) l)
  | Float64Array l =>
      Float64Array (map (fun o => match o with Some q => Some q | None => Some (0 # 1) end) l)
  | MaskedInt64Array l =>
      MaskedInt64Array (map (fun o => match o with Some z => Some z | None => Some 0 end) l)
  | Datetime64Array l =>
      if forallb (fun o => match o with Some _ => true | None => false end) l
      then a
      else ObjectArray (map (fun c => if isna c then PyInt 0 else c) (cells_of a))
  | Int64Array _ | BoolArray _ => a
  end.

Definition in_int64 (z : Z) : bool := (- 2 ^ 63 <=? z) && (z <? 2 ^ 63).

Definition is_integral (q : Q) : bool := Qnum q mod Zpos (Qden q) =? 0.

Definition int_of_float (q : Q) : Z := Qnum q / Zpos (Qden q).

(** A float that [astype('Int64')] casts without loss. *)
Definition safe_float (o : option Q) : bool :=
  match o with
  | Some q => is_integral q && in_int64 (int_of_float q)
  | None => true
  end.

Definition is_numeric_cell (c : cell) : bool :=
  match c with
  | PyInt _ | PyFloat _ => true
  | _ => isna c
  end.

(** One integer or float object under [astype('Int64')]. *)
Definition Int64_of_numeric (c : cell) : exn + option Z :=
  match c with
  | PyInt z =>
      if in_int64 z then inr (Some z)
      else inl (Exn OverflowError "Python int too large to convert to C long")
  | PyFloat q =>
      if safe_float (Some q) then inr (Some (int_of_float q))
      else inl (Exn TypeError "cannot safely cast non-equivalent object to int64")
  | _ => inr None
  end.

(** Run [f] over a list, stopping at the first exception. *)
Fixpoint traverse {A B} (f : A -> exn + B) (l : list A) : exn + list B :=
  match l with
  | [] => inr []
  | x :: l' =>
      match f x with
      | inl e => inl e
      | inr y => match traverse f l' with
                 | inl e => inl e
                 | inr ys => inr (y :: ys)
                 end
      end
  end.

(** [Series.dt.strftime('%Y-%m-%d %H:%M:%S')]: the accessor exists on
    datetime arrays only; NaT is rendered as NaN. *)
Definition dt_strftime (a : array) : exn + array :=
  match a with
  | Datetime64Array l =>
      inr (ObjectArray
             (map (fun o => match o with
                            | Some t => PyStr (DATETIME_FORMAT_ISO t)
                            | None => NaN
                            end) l))
  | _ => inl (Exn AttributeError
                "Can only use .dt accessor with datetimelike values")
  end.

(** [Series.where(cond, other)] on an object array. *)
Definition where_ (a : array) (cond : list bool) (other : cell) : array :=
  ObjectArray
    (map (fun cb : cell * bool => if snd cb then fst cb else other)
       (combine (cells_of a) cond)).

(** Apply [f] to every column stored under [col]; the first exception
    aborts. *)
Fixpoint update_columns (f : array -> exn + array) (col : string)
    (cs : list (string * array)) : exn + list (string * array) :=
  match cs with
  | [] => inr []
  | c :: cs' =>
      match (if String.eqb (fst c) col
             then match f (snd c) with
                  | inl e => inl e
                  | inr a => inr (fst c, a)
                  end
             else inr c) with
      | inl e => inl e
      | inr c' => match update_columns f col cs' with
                  | inl e => inl e
                  | inr r => inr (c' :: r)
                  end
      end
  end.

(* ------------------------------------------------------------------ *)
(** ** A date parser for ISO text

    An instance of [pd.to_datetime(..., errors='coerce')] for arrays of
    text in the form [YYYY-MM-DD[ HH:MM[:SS]][ +HHMM]] and missing
    values, used to run the examples; text of any other form is taken
    not to parse.  It follows pandas 2.x: the format is guessed from
    the first value that is not missing, and text in another format,
    or that does not parse, becomes NaT; when no format can be guessed
    every text is parsed on its own; equal UTC offsets give a datetime
    array; different offsets give an object array of [datetime]
    objects. *)
(* ------------------------------------------------------------------ *)

Definition num2 (a b : ascii) : option nat :=
  if is_digit a && is_digit b then Some (two a b) else None.

Definition is_char (c : ascii) (s : string) : bool :=
  match s with
  | String d EmptyString => Ascii.eqb c d
  | _ => false
  end.

(** [+HHMM] or [+HH:MM], possibly after a blank: the offset in minutes. *)
Definition parse_offset (l : list ascii) : option (option Z) :=
  let l := match l with
           | c :: r => if is_char c " " then r else l
           | [] => l
           end in
  match l with
  | [] => Some None
  | s :: h1 :: h2 :: r =>
      let r := match r with
               | c :: r' => if is_char c ":" then r' else r
               | [] => r
               end in
      match r, num2 h1 h2 with
      | [m1; m2], Some h =>
          match num2 m1 m2 with
          | Some m =>
              let v := Z.of_nat (60 * h + m) in
              if is_char s "+" then Some (Some v)
              else if is_char s "-" then Some (Some (- v))
              else None
          | None => None
          end
      | _, _ => None
      end
  | _ => None
  end.

(** [ HH:MM] or [ HH:MM:SS], then the offset. *)
Definition parse_clock (l : list ascii) : option (nat * nat * nat * option Z) :=
  match l with
  | b :: h1 :: h2 :: c1 :: m1 :: m2 :: r =>
      if is_char b " " && is_char c1 ":" then
        match num2 h1 h2, num2 m1 m2 with
        | Some h, Some m =>
            if ((h <=? 23) && (m <=? 59))%nat then
              match r with
              | c2 :: s1 :: s2 :: r' =>
                  if is_char c2 ":" then
                    match num2 s1 s2, parse_offset r' with
                    | Some s, Some o =>
                        if (s <=? 59)%nat then Some (h, m, s, o) else None
                    | _, _ => None
                    end
                  else match parse_offset r with
                       | Some o => Some (h, m, 0%nat, o)
                       | None => None
                       end
              | _ => match parse_offset r with
                     | Some o => Some (h, m, 0%nat, o)
                     | None => None
                     end
              end
            else None
        | _, _ => None
        end
      else None
  | _ => None
  end.

Definition parse_iso (s : string) : option (datetime * option Z) :=
  match list_ascii_of_string s with
  | y1 :: y2 :: y3 :: y4 :: s1 :: m1 :: m2 :: s2 :: d1 :: d2 :: r =>
      if is_char s1 "-" && is_char s2 "-" then
        match num2 y1 y2, num2 y3 y4, num2 m1 m2, num2 d1 d2 with
        | Some yh, Some yl, Some m, Some d =>
            let y := (100 * yh + yl)%nat in
            if ((1 <=? m) && (m <=? 12) && (1 <=? d)
                && (d <=? days_in_month y m))%nat then
              match r with
              | [] => Some (mkDatetime y m d 0 0 0, None)
              | _ => match parse_clock r with
                     | Some (h, n, sec, o) => Some (mkDatetime y m d h n sec, o)
                     | None => None
                     end
              end
            else None
        | _, _, _, _ => None
        end
      else None
  | _ => None
  end.

(** The format of a text that parses: whether it has a clock, with
    seconds or not, and whether it has an offset, after a blank or
    not. *)
Definition text_format (s : string) : nat * nat :=
  let r := skipn 10 (list_ascii_of_string s) in
  let clock :=
    match r with
    | [] => 0%nat
    | _ => match skipn 6 r with
           | c :: _ => if is_char c ":" then 2%nat else 1%nat
           | [] => 1%nat
           end
    end in
  let rest := skipn (match clock with 0 => 0 | 1 => 6 | _ => 9 end)%nat r in
  (clock, match rest with
          | [] => 0%nat
          | c :: _ => if is_char c " " then 2%nat else 1%nat
          end).

Definition format_eqb (f g : nat * nat) : bool :=
  ((fst f =? fst g) && (snd f =? snd g))%nat.

(** The format guessed from the first value that is not missing. *)
Definition guess_format (l : list cell) : option (nat * nat) :=
  match find (fun c => negb (isna c)) l with
  | Some (PyStr s) =>
      match parse_iso s with
      | Some _ => Some (text_format s)
      | None => None
      end
  | _ => None
  end.

(** One object of the array: [inr None] is NaT. *)
Definition parse_cell (fmt : option (nat * nat)) (c : cell)
  : exn + option (datetime * option Z) :=
  match c with
  | PyStr s =>
      inr (match fmt with
           | Some f => if format_eqb (text_format s) f then parse_iso s else None
           | None => parse_iso s
           end)
  | PyDatetime t o => inr (Some (t, o))
  | PyBool _ => inl (Exn TypeError "<class 'bool'> is not convertible to datetime")
  | PyInt _ | PyFloat _ =>
      inl (Exn OtherError "numeric epochs are not covered by this instance")
  | _ => inr None
  end.

Definition offsets_of (l : list (option (datetime * option Z))) : list (option Z) :=
  map snd (fold_right (fun o acc => match o with Some p => p :: acc | None => acc end) [] l).

Definition offset_eqb (a b : option Z) : bool :=
  match a, b with
  | None, None => true
  | Some x, Some y => x =? y
  | _, _ => false
  end.

Definition is_some {A} (o : option A) : bool :=
  match o with Some _ => true | None => false end.

Definition to_datetime_iso (a : array) : exn + array :=
  match a with
  | Datetime64Array _ => inr a
  | ObjectArray l =>
      match traverse (parse_cell (guess_format l)) l with
      | inl e => inl e
      | inr ps =>
          match offsets_of ps with
          | [] => inr (Datetime64Array (map (option_map fst) ps))
          | o :: os =>
              if forallb (offset_eqb o) os
              then inr (Datetime64Array (map (option_map fst) ps))
              else if existsb (fun x => negb (is_some x)) (o :: os)
              then inl (Exn ValueError "Cannot mix tz-aware with tz-naive values")
              else inr (ObjectArray
                          (map (fun p => match p with
                                         | Some (t, off) => PyDatetime t off
                                         | None => NaT
                                         end) ps))
          end
      end
  | _ => inl (Exn OtherError "numeric epochs are not covered by this instance")
  end.

(* ------------------------------------------------------------------ *)
(** ** Instances of the other library calls, for the examples *)
(* ------------------------------------------------------------------ *)

(** [strftime("%d%m%y_%H%M")]: the token that [strptime] reads back. *)
Definition DATETIME_FORMAT (t : datetime) : string :=
  pad2 (day t) ++ pad2 (month t) ++ pad2 (year t mod 100) ++ "_"
  ++ pad2 (hour t) ++ pad2 (minute t).

(** An answer for the bracket expressions of glob patterns, for runs
    whose patterns hold none. *)
Definition no_bracket (pattern name : string) : bool := false.

(** An answer for the glob patterns with a part [..] or with [**], for
    runs whose patterns are not of that kind. *)
Definition no_beyond (f : list (Path * node)) (d : Path) (pattern : string)
  : exn + list Path :=
  inl (Exn OtherError ("pattern outside the examples: " ++ pattern)).

(** [str(x)] of a float with at most one decimal digit. *)
Definition float_str_short (q : Q) : string :=
  let n := Qnum q * 10 / Zpos (Qden q) in
  (if n <? 0 then "-" else EmptyString)
  ++ string_of_Z (Z.abs n / 10) ++ "." ++ string_of_Z (Z.abs n mod 10).

(** An [astype('Int64')] that refuses every non-numeric array. *)
Definition astype_Int64_refuse (l : list cell) : exn + list Z :=
  inl (Exn TypeError "object cannot be converted to an IntegerDtype").

(** Datetime and masked blocks hold [pd.NA]; numpy blocks do not. *)
Definition holds_NA_extension (d : dtype) : bool :=
  match d with
  | datetime64 | Int64 => true
  | _ => false
  end.

(** A sheet reader over a fixed set of workbooks. *)
Definition read_excel_from (books : list (Path * DataFrame)) (p : Path)
  : M DataFrame :=
  match find (fun b => path_eqb (fst b) p) books with
  | Some b => ret (snd b)
  | None => raise (Exn FileNotFoundError ("No such file: " ++ str_path p))
  end.

(* ------------------------------------------------------------------ *)
(** ** The handler *)
(* ------------------------------------------------------------------ *)

Record FileProcessingResult := mkResult {
  success : bool;
  message : string;
  dataframe : option DataFrame
}.

Record ExcelFileHandler := mkHandler {
  directory : Path;
  prefix : string
}.

(** Distinctness of a list of literal strings. *)
Ltac solve_nodup :=
  repeat (constructor;
          [ simpl; let H := fresh in
            intros H; repeat (destruct H as [H|H]; [discriminate|]); exact H
          | ]);
  constructor.

Section Handler.

Set Default Proof Using "Type".

(** [platformdirs.user_downloads_dir()] *)
Variable user_downloads_dir : Path.

(** The modification time a directory gets when it is created. *)
Variable mkdir_time : Z.

(** [re.fullmatch(fnmatch.translate(pat), name)] for a part [pat]
    that holds a bracket. *)
Variable fnmatch_bracket : string -> string -> bool.

(** [list(d.glob(pattern))] for a relative pattern that has a part
    [..] or a part with [**]. *)
Variable glob_beyond : list (Path * node) -> Path -> string -> exn + list Path.

(** [pd.read_excel(path, engine='calamine')] *)
Variable read_excel : Path -> M DataFrame.

(** [pd.to_datetime(series, errors='coerce')] *)
Variable to_datetime : array -> exn + array.

(** [str(x)] of a float that is not NaN. *)
Variable float_str : Q -> string.

(** [astype('Int64')] of an array that holds something else than
    integers, floats and missing values: the integers of its cells. *)
Variable astype_Int64_other : list cell -> exn + list Z.

(** Whether a block of the given dtype accepts the key [pd.NA] in
    [DataFrame.replace]. *)
Variable block_holds_NA : dtype -> bool.

(** [__init__] *)
Definition __init__ (dir : option Path) (pfx : string) : M ExcelFileHandler :=
  let d := match dir with Some d => d | None => user_downloads_dir end in
  f <- get_fs ;;
  (if exists_ f d then ret tt
   else
     logger WARNING ("Diretório não encontrado: " ++ str_path d) ;;;
     mkdir mkdir_time d ;;;
     logger INFO ("Diretório criado: " ++ str_path d)) ;;;
  ret (mkHandler d pfx).

(** The match of a name against one part of a pattern. *)
Definition fnmatch (pat name : string) : bool :=
  if has_char "[" pat then fnmatch_bracket pat name else wildcard pat name.

(** One selector on one directory.  A part with a wildcard is matched
    against the entries of the directory ([_WildcardSelector]); any
    other part is looked up ([_PreciseSelector]).  Where more parts
    follow, or the pattern ends in a separator, only directories are
    kept. *)
Definition select_part (f : list (Path * node)) (dironly : bool) (pat : string)
    (parent : Path) : list Path :=
  if is_wildcard_pattern pat then
    map fst
      (filter (fun e => (negb dironly || is_dir (snd e))
                        && fnmatch pat (name (fst e)))
         (scandir f parent))
  else
    match lookup_path f (parent ++ [pat])%list with
    | Some n => if negb dironly || is_dir n then [(parent ++ [pat])%list] else []
    | None => []
    end.

(** The chain of selectors of a pattern, from one directory. *)
Fixpoint select_from (f : list (Path * node)) (dironly : bool)
    (parts : list string) (parent : Path) : list Path :=
  match parts with
  | [] => []
  | pat :: rest =>
      match rest with
      | [] => select_part f dironly pat parent
      | _ :: _ =>
          flat_map (select_from f dironly rest) (select_part f true pat parent)
      end
  end.

(** [list(d.glob(pattern))].  Nothing is selected from a path that is
    no directory.  A pattern without parts is refused, with an
    exception whose class depends on the version of Python. *)
Definition glob (f : list (Path * node)) (d : Path) (pattern : string)
  : exn + list Path :=
  if String.eqb pattern EmptyString
  then inl (Exn ValueError "Unacceptable pattern: ''")
  else if is_absolute pattern
  then inl (Exn NotImplementedError "Non-relative patterns are unsupported")
  else if existsb beyond (pattern_parts pattern)
  then glob_beyond f d pattern
  else
    match pattern_parts pattern with
    | [] => inl (Exn OtherError ("Unacceptable pattern: " ++ pattern))
    | parts =>
        inr (if is_directory f d
             then select_from f (ends_with_sep pattern) parts d
             else [])
    end.

Definition not_found_message (self : ExcelFileHandler) : string :=
  "Nenhum arquivo com prefixo " ++ prefix self ++ " encontrado em "
  ++ str_path (directory self).

(** [_find_most_recent_file] *)
Definition _find_most_recent_file (self : ExcelFileHandler) : M Path :=
  f <- get_fs ;;
  files <- lift (glob f (directory self) (prefix self ++ "*")) ;;
  match files with
  | [] =>
      logger ERROR ("Nenhum arquivo encontrado com o prefixo: " ++ prefix self) ;;;
      raise (Exn FileNotFoundError (not_found_message self))
  | x :: files' =>
      x <- lift (with_mtime f x) ;;
      files' <- lift (traverse (with_mtime f) files') ;;
      ret (fst (py_max snd x files'))
  end.

(** [str(x)] of one object. *)
Definition str_cell (c : cell) : string :=
  match c with
  | PyNone => "None"
  | NaN => "nan"
  | NA => "<NA>"
  | NaT => "NaT"
  | PyInt z => string_of_Z z
  | PyFloat q => float_str q
  | PyStr s => s
  | PyBool b => if b then "True" else "False"
  | PyDatetime t o => DATETIME_FORMAT_ISO t ++ str_offset o
  end.

(** [astype(str)] *)
Definition astype_str (a : array) : array :=
  ObjectArray (map (fun c => PyStr (str_cell c)) (cells_of a)).

(** The mask of a masked array: [pd.NA] stands where the cell was
    missing. *)
Definition mask_missing (l : list cell) (zs : list Z) : list (option Z) :=
  map (fun cz : cell * Z => if isna (fst cz) then None else Some (snd cz))
    (combine l zs).

(** [astype('Int64')] *)
Definition astype_Int64 (a : array) : exn + array :=
  match a with
  | Int64Array l => inr (MaskedInt64Array (map Some l))
  | MaskedInt64Array _ => inr a
  | Float64Array l =>
      if forallb safe_float l
      then inr (MaskedInt64Array (map (option_map int_of_float) l))
      else inl (Exn TypeError "cannot safely cast non-equivalent float64 to int64")
  | ObjectArray l =>
      if forallb is_numeric_cell l
      then match traverse Int64_of_numeric l with
           | inl e => inl e
           | inr r => inr (MaskedInt64Array r)
           end
      else match astype_Int64_other l with
           | inl e => inl e
           | inr r => inr (MaskedInt64Array (mask_missing l r))
           end
  | BoolArray _ | Datetime64Array _ =>
      match astype_Int64_other (cells_of a) with
      | inl e => inl e
      | inr r => inr (MaskedInt64Array (mask_missing (cells_of a) r))
      end
  end.

(** [df[col].fillna(0).astype('Int64').astype(str).replace('0', None)] *)
Definition normalize_id (a : array) : exn + array :=
  match astype_Int64 (fillna0 a) with
  | inl e => inl e
  | inr b => inr (replace_scalar "0" (astype_str b))
  end.

(** The [try] block of the date loop for one column: the frame as the
    block leaves it, and the exception that ended it, if any. *)
Definition convert_date_column (df : DataFrame) (col : string)
  : DataFrame * option exn :=
  match get_columns df col with
  | [a] =>
      match to_datetime a with
      | inl e => (df, Some e)
      | inr a1 =>
          let df1 := set_column df col a1 in
          match dt_strftime a1 with
          | inl e => (df1, Some e)
          | inr s => (set_column df1 col (where_ s (notnull a1) PyNone), None)
          end
      end
  | _ => (df, Some (Exn ValueError "cannot assemble with duplicate keys"))
  end.

(** One turn of [for col in self.DATE_COLUMNS]. *)
Definition process_date_column (df : DataFrame) (col : string) : M DataFrame :=
  if has_column df col then
    match convert_date_column df col with
    | (df', None) => ret df'
    | (df', Some e) =>
        logger WARNING
          ("⚠️ Erro no processamento da coluna " ++ col ++ ": " ++ str_exn e) ;;;
        ret df'
    end
  else ret df.

Fixpoint process_date_columns (cols : list string) (df : DataFrame) : M DataFrame :=
  match cols with
  | [] => ret df
  | col :: cols' =>
      df' <- process_date_column df col ;;
      process_date_columns cols' df'
  end.

(** One turn of [for col in id_cols]. *)
Definition process_id_column (df : DataFrame) (col : string) : exn + DataFrame :=
  if has_column df col then
    match update_columns normalize_id col (columns df) with
    | inl e => inl e
    | inr cs => inr (mkDataFrame (nrows df) cs)
    end
  else inr df.

Fixpoint process_id_columns (cols : list string) (df : DataFrame) : exn + DataFrame :=
  match cols with
  | [] => inr df
  | col :: cols' =>
      match process_id_column df col with
      | inl e => inl e
      | inr df' => process_id_columns cols' df'
      end
  end.

(** One column under
    [df.replace({pd.NA: None, 'nan': None, 'None': None, '': None, 'NaT': None})]:
    an object array is searched for every key; any other array cannot
    hold the string keys, and where it holds [pd.NA] and has a missing
    value it becomes an object array with [None] in its place. *)
Definition cleanup_array (a : array) : array :=
  match a with
  | ObjectArray l => ObjectArray (map cleanup_cell l)
  | _ =>
      if block_holds_NA (dtype_of a) && existsb isna (cells_of a)
      then ObjectArray (map cleanup_cell (cells_of a))
      else a
  end.

Definition cleanup (df : DataFrame) : DataFrame :=
  mkDataFrame (nrows df) (map (fun c => (fst c, cleanup_array (snd c))) (columns df)).

(** [select_dtypes(include=['object'])] *)
Definition is_object (a : array) : bool :=
  match a with ObjectArray _ => true | _ => false end.

(** [df[text_cols] = df[text_cols].astype(str).replace("None", None)] *)
Definition normalize_text_array (a : array) : array :=
  if is_object a then replace_scalar "None" (astype_str a) else a.

Definition normalize_text (df : DataFrame) : DataFrame :=
  mkDataFrame (nrows df)
    (map (fun c => (fst c, normalize_text_array (snd c))) (columns df)).

(** [_process_dataframe] *)
Definition _process_dataframe (df : DataFrame) (file_path : Path) : M DataFrame :=
  let df := rename COLUMN_MAPPING df in
  p <- _extract_datetime_from_filename file_path ;;
  df <- lift (insert 0 "dt_carga" (fst p) df) ;;
  df <- lift (insert 1 "dthr_carga" (snd p) df) ;;
  df <- process_date_columns DATE_COLUMNS df ;;
  df <- lift (process_id_columns id_cols df) ;;
  let df := cleanup df in
  ret (normalize_text df).

(** [_load_to_dataframe] *)
Definition _load_to_dataframe (file_path : Path) : M FileProcessingResult :=
  try_except
    (df <- read_excel file_path ;;
     processed_df <- _process_dataframe df file_path ;;
     logger INFO "Arquivo Excel processado com sucesso." ;;;
     ret (mkResult true "Arquivo processado com sucesso" (Some processed_df)))
    (fun e =>
       ret (mkResult false ("Erro ao processar arquivo: " ++ str_exn e) None)).

(** [process_most_recent_file] *)
Definition process_most_recent_file (self : ExcelFileHandler)
    (file_path : option Path) : M FileProcessingResult :=
  try_except
    (target_path <- match file_path with
                    | Some p => ret p
                    | None => _find_most_recent_file self
                    end ;;
     logger INFO ("🎯 Alvo de processamento: " ++ name target_path) ;;;
     _load_to_dataframe target_path)
    (fun e =>
       logger ERROR ("Erro ao processar arquivo mais recente: " ++ str_exn e) ;;;
       ret (mkResult false
              ("Erro ao processar arquivo mais recente: " ++ str_exn e) None)).

(** [delete_most_recent_file]; the success message formats the
    argument [file_path], which is [None] when the path was searched. *)
Definition delete_most_recent_file (self : ExcelFileHandler)
    (file_path : option Path) : M bool :=
  try_except
    (target_path <- match file_path with
                    | Some p => ret p
                    | None => _find_most_recent_file self
                    end ;;
     unlink target_path ;;;
     logger INFO ("Arquivo removido com sucesso: "
                  ++ match file_path with
                     | Some p => str_path p
                     | None => "None"
                     end) ;;;
     ret true)
    (fun e =>
       logger ERROR ("Erro ao remover arquivo: " ++ str_exn e) ;;;
       ret false).

(* ------------------------------------------------------------------ *)
(** ** Notions and inputs used in the statements *)
(* ------------------------------------------------------------------ *)

(** Two digits written by [pad2] are digits and read back as [n]. *)
Definition check2 (n : nat) : bool :=
  is_digit (digit_char (n / 10)) && is_digit (digit_char n)
  && (two (digit_char (n / 10)) (digit_char n) =? n)%nat.

(** A time stamp that the two-digit year of the token can express. *)
Definition valid_stamp (t : datetime) : Prop :=
  (1969 <= year t <= 2068 /\ 1 <= month t <= 12
   /\ 1 <= day t <= days_in_month (year t) (month t)
   /\ hour t <= 23 /\ minute t <= 59)%nat.

(** What [_load_to_dataframe] returns, by the outcome of its [try]. *)
Definition load_outcome (file_path : Path) (w : World) (r : FileProcessingResult)
  : Prop :=
  (success r = true
   /\ exists raw w1 df w2,
       read_excel file_path w = (w1, inr raw)
       /\ _process_dataframe raw file_path w1 = (w2, inr df)
       /\ dataframe r = Some df)
  \/ (success r = false /\ dataframe r = None
      /\ exists e,
          message r = "Erro ao processar arquivo: " ++ str_exn e
          /\ (snd (read_excel file_path w) = inl e
              \/ exists raw w1,
                  read_excel file_path w = (w1, inr raw)
                  /\ snd (_process_dataframe raw file_path w1) = inl e)).

(** The world after [process_most_recent_file] logged its target. *)
Definition announce (target : Path) (w : World) : World :=
  mkWorld (fs w)
    (log w ++ [(INFO, "🎯 Alvo de processamento: " ++ name target)]).

(** What [process_most_recent_file] returns and the world it leaves:
    either the path was given or found and the result is the one of
    [_load_to_dataframe] on it, or no path was given, the search
    raised, and the result is the failure built from its exception. *)
Definition process_outcome (self : ExcelFileHandler) (file_path : option Path)
    (w w' : World) (r : FileProcessingResult) : Prop :=
  (exists target w1,
      match file_path with
      | Some p => p = target /\ w1 = w
      | None => _find_most_recent_file self w = (w1, inr target)
      end
      /\ _load_to_dataframe target (announce target w1) = (w', inr r)
      /\ load_outcome target (announce target w1) r)
  \/ (file_path = None
      /\ exists w1 e,
          _find_most_recent_file self w = (w1, inl e)
          /\ w' = mkWorld (fs w1)
                    (log w1 ++ [(ERROR, "Erro ao processar arquivo mais recente: "
                                        ++ str_exn e)])
          /\ r = mkResult false
                   ("Erro ao processar arquivo mais recente: " ++ str_exn e) None).

(** A prefix of ordinary characters: it holds no path separator and
    none of the characters that a glob pattern reads as wildcards. *)
Definition literal_prefix (pfx : string) : bool :=
  negb (has_char "/" pfx || has_char "*" pfx || has_char "?" pfx
        || has_char "[" pfx).


(** The directory entries that the search is about: the paths directly
    inside the configured directory whose name starts with the
    prefix, in listing order; there is none when the configured path
    is no directory. *)
Definition prefix_matches (self : ExcelFileHandler) (w : World) : list Path :=
  if is_directory (fs w) (directory self)
  then map fst
         (filter (fun e => is_child (directory self) (fst e)
                           && String.prefix (prefix self) (name (fst e)))
            (fs w))
  else [].

(** The modification time that [stat] reports for a path. *)
Definition mtime (w : World) (p : Path) : Z :=
  match lookup_path (fs w) p with
  | Some n => st_mtime n
  | None => 0
  end.

(** What the search compares: the paths that [glob] lists, each with
    the modification time that [stat] reports for it. *)
Definition listed (self : ExcelFileHandler) (w : World) : exn + list (Path * Z) :=
  match glob (fs w) (directory self) (prefix self ++ "*") with
  | inl e => inl e
  | inr files => traverse (with_mtime (fs w)) files
  end.


(** Only the characters 0 to 9. *)
Definition all_digits (s : string) : bool :=
  forallb is_digit (list_ascii_of_string s).

(** Decimal digits with an optional leading minus sign: no point, no
    exponent. *)
Definition integer_text (s : string) : bool :=
  match s with
  | EmptyString => false
  | String c r =>
      if Ascii.eqb c "-" then negb (String.eqb r EmptyString) && all_digits r
      else all_digits s
  end.







(** The file name of the example in the specification. *)
Definition example_path : Path := ["CONSULTA_TLP_PCP_CS_040126_1212.xlsx"].

(** A sheet whose identifier column holds 123, an empty cell, 0 and
    456, as the reader delivers it (a float column), and its
    normalised form. *)
Definition id_example : DataFrame :=
  mkDataFrame 4
    [("VTA PK", Float64Array [Some (123 # 1); None; Some (0 # 1); Some (456 # 1)])].



(** A parsed cell as the returned table shows it. *)
Definition iso_cell (o : option datetime) : cell :=
  match o with
  | Some t => PyStr (DATETIME_FORMAT_ISO t)
  | None => PyNone
  end.

(** A sheet whose date column holds a date, a text that is no date
    and an empty cell, and its normalised form. *)
Definition date_example : DataFrame :=
  mkDataFrame 3
    [("Data Criacao", ObjectArray [PyStr "2024-01-01"; PyStr "not a date"; NaN])].

Definition date_example_normalized : DataFrame :=
  mkDataFrame 3
    [("dt_carga", ObjectArray (repeat (PyStr "2026-01-04") 3));
     ("dthr_carga", ObjectArray (repeat (PyStr "2026-01-04 12:12") 3));
     ("data_criacao",
      ObjectArray [PyStr "2024-01-01 00:00:00"; PyNone; PyNone])].

(** The record that the date loop logs for a column it could not
    convert. *)
Definition date_warning (col : string) (e : exn) : level * string :=
  (WARNING, "⚠️ Erro no processamento da coluna " ++ col ++ ": " ++ str_exn e).

(** Step 7 in the words of the specification: the values of a text
    column are coerced to their string form, then the substitution of
    the cleanup pass is applied again. *)
Definition normalize_text_array_spec (a : array) : array :=
  if is_object a then cleanup_array (astype_str a) else a.

(** The missing marker, or a string that is none of the literals of
    the cleanup pass. *)
Definition is_clean (c : cell) : Prop :=
  c = PyNone \/ exists s, c = PyStr s /\ is_sentinel s = false.

(** A sheet with one column outside [COLUMN_MAPPING] and one inside. *)
Definition rename_example : DataFrame :=
  mkDataFrame 1 [("Foo", ObjectArray [PyStr "x"]); ("Raiz", Int64Array [7])].

(** A downloads directory with three exports and another file; two
    exports share the greatest modification time. *)
Definition downloads_world : World :=
  mkWorld
    [ (["downloads"], mkNode true 0);
      (["downloads"; "CONSULTA_TLP_PCP_CS_010126_0900.xlsx"], mkNode false 100);
      (["downloads"; "other.xlsx"], mkNode false 500);
      (["downloads"; "CONSULTA_TLP_PCP_CS_040126_1212.xlsx"], mkNode false 300);
      (["downloads"; "CONSULTA_TLP_PCP_CS_030126_1000.xlsx"], mkNode false 300) ]
    [].

(** A downloads directory whose only export lies in a subdirectory. *)
Definition nested_world : World :=
  mkWorld
    [ (["downloads"], mkNode true 0);
      (["downloads"; "sub"], mkNode true 0);
      (["downloads"; "sub"; "CONSULTA_TLP_PCP_CS_040126_1212.xlsx"], mkNode false 300);
      (["downloads"; "notes.txt"], mkNode false 900) ]
    [].

(** A file system in which the downloads directory does not exist. *)
Definition home_world : World := mkWorld [(["home"], mkNode true 0)] [].

(** A date column of booleans, which [pd.to_datetime] refuses. *)
Definition bool_dates : DataFrame :=
  mkDataFrame 1 [("data_criacao", ObjectArray [PyBool true]);
                 ("status", ObjectArray [PyStr "ABERTO"])].

(** A date column of text with two different UTC offsets. *)
Definition mixed_offsets : DataFrame :=
  mkDataFrame 2
    [("data_criacao",
      ObjectArray [PyStr "2020-10-25 02:00 +0200"; PyStr "2020-10-25 04:00 +0100"])].

(** Text columns holding literals of the cleanup pass, and the
    normalised table. *)
Definition text_example : DataFrame :=
  mkDataFrame 3
    [("Status", ObjectArray [PyStr "nan"; PyStr "ABERTO"; NaN]);
     ("Bairro", ObjectArray [PyStr EmptyString; PyInt 12; PyStr "None"]);
     ("Valor", Float64Array [Some (3 # 2); None; Some (2 # 1)])].

Definition text_example_normalized : DataFrame :=
  mkDataFrame 3
    [("dt_carga", ObjectArray (repeat (PyStr "2026-01-04") 3));
     ("dthr_carga", ObjectArray (repeat (PyStr "2026-01-04 12:12") 3));
     ("status", ObjectArray [PyNone; PyStr "ABERTO"; PyNone]);
     ("bairro", ObjectArray [PyNone; PyStr "12"; PyNone]);
     ("Valor", Float64Array [Some (3 # 2); None; Some (2 # 1)])].

(** [rename_example] after normalisation. *)
Definition rename_example_normalized : DataFrame :=
  mkDataFrame 1
    [("dt_carga", ObjectArray [PyStr "2026-01-04"]);
     ("dthr_carga", ObjectArray [PyStr "2026-01-04 12:12"]);
     ("Foo", ObjectArray [PyStr "x"]);
     ("raiz", ObjectArray [PyStr "7"])].

(** Two digit characters are the ones [pad2] writes for the number
    they read as, which is below 100. *)
Definition check_pair (m n : nat) : bool :=
  let a := ascii_of_nat (48 + m) in
  let b := ascii_of_nat (48 + n) in
  Ascii.eqb (digit_char (two a b / 10)) a
  && Ascii.eqb (digit_char (two a b)) b
  && (two a b <? 100)%nat.

(** The path that [delete_most_recent_file] and
    [process_most_recent_file] work on: the argument when it is given,
    the result of the search otherwise. *)
Definition resolves_to (self : ExcelFileHandler) (file_path : option Path)
    (w : World) (p : Path) : Prop :=
  match file_path with
  | Some q => q = p
  | None => _find_most_recent_file self w = (w, inr p)
  end.

(** A downloads directory in which one export is strictly the newest. *)
Definition exports_world : World :=
  mkWorld
    [ (["downloads"], mkNode true 0);
      (["downloads"; "CONSULTA_TLP_PCP_CS_050126_0800.xlsx"], mkNode false 400);
      (["downloads"; "CONSULTA_TLP_PCP_CS_010126_0900.xlsx"], mkNode false 100);
      (["downloads"; "notes.txt"], mkNode false 900) ]
    [].

(** [exports_world] after its newest export was deleted. *)
Definition exports_world_after_delete : World :=
  mkWorld
    [ (["downloads"], mkNode true 0);
      (["downloads"; "CONSULTA_TLP_PCP_CS_010126_0900.xlsx"], mkNode false 100);
      (["downloads"; "notes.txt"], mkNode false 900) ]
    [(INFO, "Arquivo removido com sucesso: None")].

(** A file system in which [home] is a regular file. *)
Definition blocked_world : World := mkWorld [(["home"], mkNode false 0)] [].

(** [home_world] after the downloads directory was created. *)
Definition home_world_after_init : World :=
  mkWorld
    [ (["home"], mkNode true 0);
      (["home"; "user"], mkNode true 7);
      (["home"; "user"; "Downloads"], mkNode true 7) ]
    [ (WARNING, "Diretório não encontrado: home/user/Downloads");
      (INFO, "Diretório criado: home/user/Downloads") ].

(** A sheet that brings a column called [dt_carga]. *)
Definition reserved_example : DataFrame :=
  mkDataFrame 1 [("dt_carga", ObjectArray [PyStr "x"])].

(** A sheet whose identifier column holds a value that is no integer. *)
Definition fraction_example : DataFrame :=
  mkDataFrame 1 [("Raiz", Float64Array [Some (3 # 2)])].

(** A sheet with a text, an integer and a boolean column, and its
    normalised form. *)
Definition counts_example : DataFrame :=
  mkDataFrame 2
    [("Status", ObjectArray [PyStr "A"; NaN]);
     ("Qtd", Int64Array [3; 0]);
     ("Ativo", BoolArray [true; false])].

Definition counts_example_normalized : DataFrame :=
  mkDataFrame 2
    [("dt_carga", ObjectArray (repeat (PyStr "2026-01-04") 2));
     ("dthr_carga", ObjectArray (repeat (PyStr "2026-01-04 12:12") 2));
     ("status", ObjectArray [PyStr "A"; PyNone]);
     ("Qtd", Int64Array [3; 0]);
     ("Ativo", BoolArray [true; false])].

(* ------------------------------------------------------------------ *)
(** ** Properties: the time stamp in the file name *)
(* ------------------------------------------------------------------ *)

Lemma check2_all : forallb check2 (seq 0 100) = true.
Proof. vm_compute. reflexivity. Qed.

Lemma check2_lt (n : nat) : (n < 100)%nat -> check2 n = true.
Proof.
  intros H. pose proof check2_all as A.
  rewrite forallb_forall in A. apply A. apply in_seq. lia.
Qed.

Lemma two_digits (n : nat) :
  (n < 100)%nat ->
  is_digit (digit_char (n / 10)) = true
  /\ is_digit (digit_char n) = true
  /\ two (digit_char (n / 10)) (digit_char n) = n.
Proof.
  intros H. apply check2_lt in H. unfold check2 in H.
  apply andb_prop in H. destruct H as [H H3].
  apply andb_prop in H. destruct H as [H1 H2].
  apply Nat.eqb_eq in H3. auto.
Qed.

Lemma list_ascii_app (s1 s2 : string) :
  list_ascii_of_string (s1 ++ s2)
  = (list_ascii_of_string s1 ++ list_ascii_of_string s2)%list.
Proof. induction s1 as [|c s1 IH]; simpl; [reflexivity | now rewrite IH]. Qed.

Lemma days_in_month_le (y m : nat) : (days_in_month y m <= 31)%nat.
Proof.
  unfold days_in_month.
  do 12 (destruct m as [|m]; [try lia; destruct (is_leap y); lia|]).
  lia.
Qed.

Lemma token_chars (t : datetime) :
  list_ascii_of_string (DATETIME_FORMAT t)
  = [digit_char (day t / 10); digit_char (day t);
     digit_char (month t / 10); digit_char (month t);
     digit_char (year t mod 100 / 10); digit_char (year t mod 100);
     "_"%char;
     digit_char (hour t / 10); digit_char (hour t);
     digit_char (minute t / 10); digit_char (minute t)].
Proof. reflexivity. Qed.

Lemma match_token_stamp (t : datetime) (post : list ascii) :
  valid_stamp t ->
  match_token (list_ascii_of_string (DATETIME_FORMAT t) ++ post)
  = Some (list_ascii_of_string (DATETIME_FORMAT t)).
Proof.
  intros (Hy & Hm & Hd & Hh & Hn).
  pose proof (days_in_month_le (year t) (month t)) as Hdm.
  rewrite token_chars. cbn [app match_token forallb].
  destruct (two_digits (day t)) as (a1 & a2 & _); [lia|].
  destruct (two_digits (month t)) as (b1 & b2 & _); [lia|].
  destruct (two_digits (year t mod 100)) as (c1 & c2 & _).
  { apply Nat.mod_upper_bound. lia. }
  destruct (two_digits (hour t)) as (d1 & d2 & _); [lia|].
  destruct (two_digits (minute t)) as (e1 & e2 & _); [lia|].
  rewrite a1, a2, b1, b2, c1, c2, d1, d2, e1, e2. reflexivity.
Qed.

Lemma strptime_stamp (t : datetime) :
  valid_stamp t ->
  strptime (list_ascii_of_string (DATETIME_FORMAT t))
  = inr (mkDatetime (year t) (month t) (day t) (hour t) (minute t) 0).
Proof.
  intros (Hy & Hm & Hd & Hh & Hn).
  pose proof (days_in_month_le (year t) (month t)) as Hdm.
  rewrite token_chars. cbv beta iota zeta delta [strptime].
  destruct (two_digits (day t)) as (_ & _ & a); [lia|].
  destruct (two_digits (month t)) as (_ & _ & b); [lia|].
  destruct (two_digits (year t mod 100)) as (_ & _ & c).
  { apply Nat.mod_upper_bound. lia. }
  destruct (two_digits (hour t)) as (_ & _ & d); [lia|].
  destruct (two_digits (minute t)) as (_ & _ & e); [lia|].
  rewrite a, b, c, d, e.
  assert (Hyear : (if (year t mod 100 <=? 68)%nat
                   then (2000 + year t mod 100)%nat
                   else (1900 + year t mod 100)%nat) = year t).
  { pose proof (Nat.div_mod_eq (year t) 100) as E.
    destruct (Nat.leb_spec (year t mod 100) 68) as [L|L].
    - assert (year t / 100 = 20)%nat by
        (pose proof (Nat.mod_upper_bound (year t) 100); lia). lia.
    - assert (year t / 100 = 19)%nat by
        (pose proof (Nat.mod_upper_bound (year t) 100); lia). lia. }
  rewrite Hyear.
  replace ((1 <=? day t)%nat) with true by (symmetry; apply Nat.leb_le; lia).
  replace ((day t <=? 31)%nat) with true by (symmetry; apply Nat.leb_le; lia).
  replace ((1 <=? month t)%nat) with true by (symmetry; apply Nat.leb_le; lia).
  replace ((month t <=? 12)%nat) with true by (symmetry; apply Nat.leb_le; lia).
  replace ((hour t <=? 23)%nat) with true by (symmetry; apply Nat.leb_le; lia).
  replace ((minute t <=? 59)%nat) with true by (symmetry; apply Nat.leb_le; lia).
  replace ((day t <=? days_in_month (year t) (month t))%nat) with true
    by (symmetry; apply Nat.leb_le; lia).
  reflexivity.
Qed.

Lemma re_search_cons (c : ascii) (l : list ascii) :
  re_search (c :: l)
  = match match_token (c :: l) with
    | Some t => Some t
    | None => re_search l
    end.
Proof. reflexivity. Qed.

Lemma re_search_skip (pre rest : list ascii) :
  (forall k, (k < length pre)%nat -> match_token (skipn k (pre ++ rest)) = None) ->
  re_search (pre ++ rest) = re_search rest.
Proof.
  induction pre as [|c pre IH]; intros H; [reflexivity|].
  pose proof (H 0%nat ltac:(simpl; lia)) as H0. simpl skipn in H0.
  change ((c :: pre) ++ rest)%list with (c :: (pre ++ rest))%list in *.
  rewrite re_search_cons, H0. apply IH. intros k Hk.
  apply (H (S k)). simpl. lia.
Qed.

Lemma re_search_none (l : list ascii) :
  (forall k, match_token (skipn k l) = None) -> re_search l = None.
Proof.
  induction l as [|c l IH]; intros H.
  - reflexivity.
  - rewrite re_search_cons. pose proof (H 0%nat) as H0.
    change (skipn 0 (c :: l)) with (c :: l) in H0.
    rewrite H0. apply IH. intros k. apply (H (S k)).
Qed.

Lemma length_list_ascii (s : string) :
  length (list_ascii_of_string s) = String.length s.
Proof. induction s as [|c s IH]; simpl; [reflexivity | now rewrite IH]. Qed.

Lemma extract_ok (p : Path) (w : World) (r : string * string) :
  extract_body p = inr r ->
  _extract_datetime_from_filename p w = (w, inr r).
Proof.
  intros H. unfold _extract_datetime_from_filename, try_except, lift.
  rewrite H. reflexivity.
Qed.

Lemma extract_raises (p : Path) (w : World) (e : exn) :
  extract_body p = inl e ->
  _extract_datetime_from_filename p w
  = (mkWorld (fs w) (log w ++ [(ERROR, "Erro na extração: " ++ str_exn e)]),
     inl e).
Proof.
  intros H. unfold _extract_datetime_from_filename, try_except, lift.
  rewrite H. reflexivity.
Qed.

(** C4, as amended.  The token is looked for in the stem of the file
    name (the name without its last suffix).  When the first
    six-digit, underscore, four-digit token of the stem is the
    [%d%m%y_%H%M] text of a time stamp [t] (years 1969 to 2068),
    [_extract_datetime_from_filename] returns the pair of [t] shown as
    [YYYY-MM-DD] and as [YYYY-MM-DD HH:MM]; when the stem contains no
    such token it logs the error and raises [ValueError] with the
    pattern-not-found message.  For
    [CONSULTA_TLP_PCP_CS_040126_1212.xlsx] the pair is
    ("2026-01-04", "2026-01-04 12:12"), and [no_timestamp_here.xlsx]
    has no token. *)
Theorem extract_load_timestamp_of_stem (p : Path) (w : World) :
  (forall (pre post : string) (t : datetime),
      valid_stamp t ->
      stem p = pre ++ DATETIME_FORMAT t ++ post ->
      (forall k, (k < String.length pre)%nat ->
                 match_token (skipn k (list_ascii_of_string (stem p))) = None) ->
      _extract_datetime_from_filename p w
      = (w, inr (DISPLAY_DATE_FORMAT t, DISPLAY_DATETIME_FORMAT t)))
  /\ ((forall k, match_token (skipn k (list_ascii_of_string (stem p))) = None) ->
      _extract_datetime_from_filename p w
      = (mkWorld (fs w)
           (log w ++ [(ERROR, "Erro na extração: "
                              ++ "Padrão de data não encontrado em: " ++ stem p)]),
         inl (Exn ValueError ("Padrão de data não encontrado em: " ++ stem p))))
  /\ _extract_datetime_from_filename
       ["CONSULTA_TLP_PCP_CS_040126_1212.xlsx"] w
     = (w, inr ("2026-01-04", "2026-01-04 12:12"))
  /\ (forall k, match_token
                  (skipn k (list_ascii_of_string (stem ["no_timestamp_here.xlsx"])))
                = None).
Proof.
  split; [|split; [|split]].
  - intros pre post t Hv Hs Hfirst.
    apply extract_ok. unfold extract_body.
    rewrite Hs in *. rewrite !list_ascii_app in *.
    rewrite re_search_skip.
    + destruct (list_ascii_of_string (DATETIME_FORMAT t) ++ list_ascii_of_string post)%list
        as [|c l] eqn:E.
      * rewrite token_chars in E. discriminate.
      * rewrite re_search_cons, <- E, (match_token_stamp t _ Hv).
        rewrite (strptime_stamp t Hv). reflexivity.
    + intros k Hk. apply Hfirst. now rewrite <- length_list_ascii.
  - intros Hnone. apply re_search_none in Hnone.
    rewrite (extract_raises p w
               (Exn ValueError ("Padrão de data não encontrado em: " ++ stem p))).
    + reflexivity.
    + unfold extract_body. rewrite Hnone. reflexivity.
  - apply extract_ok. vm_compute. reflexivity.
  - intros k.
    do 18 (destruct k as [|k]; [vm_compute; reflexivity|]).
    vm_compute skipn. destruct k; reflexivity.
Qed.

(* ------------------------------------------------------------------ *)
(** ** Properties: the public operations return a result *)
(* ------------------------------------------------------------------ *)

Lemma load_returns (file_path : Path) (w : World) :
  exists w' r,
    _load_to_dataframe file_path w = (w', inr r) /\ load_outcome file_path w r.
Proof.
  unfold _load_to_dataframe, try_except, bind, load_outcome.
  destruct (read_excel file_path w) as [w1 [e|raw]] eqn:R.
  - eexists _, _. split; [reflexivity|]. right. simpl.
    repeat split. exists e. split; [reflexivity|]. left. reflexivity.
  - destruct (_process_dataframe raw file_path w1) as [w2 [e|df]] eqn:P.
    + eexists _, _. split; [reflexivity|]. right. simpl.
      repeat split. exists e. split; [reflexivity|]. right.
      exists raw, w1. rewrite P. split; reflexivity.
    + eexists _, _. split; [reflexivity|]. left. simpl.
      split; [reflexivity|]. exists raw, w1, df, w2. repeat split. exact P.
Qed.

(** C1.  [_load_to_dataframe] and [process_most_recent_file] never
    raise, whatever the path and the state of the world: they return a
    [FileProcessingResult].  For [_load_to_dataframe]: when reading
    and normalising succeed the result has [success = true] and
    carries the normalised table; when the reader, the time stamp
    extraction or a transformation step raises, the result has
    [success = false], a message built from the exception and no
    table.  [process_most_recent_file] logs its target and returns
    what [_load_to_dataframe] returns for the path it was given, or
    for the path that the search found; when the search raises, it
    logs the error and returns the failure result built from that
    exception. *)
Theorem public_operations_never_raise
    (self : ExcelFileHandler) (file_path : Path) (explicit_path : option Path)
    (w : World) :
  (exists w' r,
      _load_to_dataframe file_path w = (w', inr r)
      /\ load_outcome file_path w r)
  /\ (exists w' r,
         process_most_recent_file self explicit_path w = (w', inr r)
         /\ process_outcome self explicit_path w w' r).
Proof.
  split; [apply load_returns|].
  unfold process_most_recent_file, process_outcome, try_except, bind.
  destruct explicit_path as [p|].
  - unfold ret at 1, logger at 1.
    destruct (load_returns p (announce p w)) as (w2 & r & L & O).
    unfold announce in L. rewrite L.
    exists w2, r. split; [reflexivity|]. left.
    exists p, w. split; [split; reflexivity|]. split; [exact L | exact O].
  - destruct (_find_most_recent_file self w) as [w1 [e|target]] eqn:T.
    + eexists _, _. split; [reflexivity|]. right. split; [reflexivity|].
      exists w1, e. split; [reflexivity|]. split; reflexivity.
    + unfold logger at 1.
      destruct (load_returns target (announce target w1)) as (w2 & r & L & O).
      unfold announce in L. rewrite L.
      exists w2, r. split; [reflexivity|]. left.
      exists target, w1. split; [reflexivity|]. split; [exact L | exact O].
Qed.

(* ------------------------------------------------------------------ *)
(** ** Properties: the most recent file *)
(* ------------------------------------------------------------------ *)

Lemma py_max_split {A} (key : A -> Z) (l pre mid : list A) (best : A) :
  (forall x, In x pre -> key x < key best) ->
  (forall x, In x mid -> key x <= key best) ->
  exists before after,
    (pre ++ best :: mid ++ l)%list = (before ++ py_max key best l :: after)%list
    /\ (forall x, In x before -> key x < key (py_max key best l))
    /\ (forall x, In x after -> key x <= key (py_max key best l)).
Proof.
  revert pre mid best.
  induction l as [|x l IH]; intros pre mid best Hpre Hmid.
  - exists pre, mid. rewrite app_nil_r. simpl. auto.
  - simpl py_max. destruct (Z.ltb_spec (key best) (key x)) as [Lt|Ge].
    + destruct (IH (pre ++ best :: mid)%list [] x) as (b & a & E & Hb & Ha).
      * intros y Hy. apply in_app_or in Hy. destruct Hy as [Hy|[Hy|Hy]].
        -- apply Hpre in Hy. lia.
        -- subst y. lia.
        -- apply Hmid in Hy. lia.
      * intros y [].
      * exists b, a. split; [|auto].
        rewrite <- E. rewrite <- app_assoc. reflexivity.
    + destruct (IH pre (mid ++ [x])%list best) as (b & a & E & Hb & Ha).
      * exact Hpre.
      * intros y Hy. apply in_app_or in Hy. destruct Hy as [Hy|[Hy|[]]].
        -- apply Hmid in Hy. lia.
        -- subst y. lia.
      * exists b, a. split; [|auto].
        rewrite <- E. rewrite <- app_assoc. reflexivity.
Qed.

Lemma py_max_keyed {A} (key : A -> Z) (best : A) (l : list A) :
  py_max snd (best, key best) (map (fun x => (x, key x)) l)
  = (py_max key best l, key (py_max key best l)).
Proof.
  revert best. induction l as [|x l IH]; intros best; [reflexivity|].
  cbn [map py_max snd]. destruct (key best <? key x); apply IH.
Qed.

Lemma path_eqb_eq (p q : Path) : path_eqb p q = true <-> p = q.
Proof.
  unfold path_eqb. destruct (list_eq_dec string_dec p q); split; congruence.
Qed.

Lemma in_lookup_path (f : list (Path * node)) (q : Path) (n : node) :
  In (q, n) f -> lookup_path f q <> None.
Proof.
  intros I. unfold lookup_path.
  destruct (find (fun e => path_eqb (fst e) q) f) as [e|] eqn:F; [discriminate|].
  pose proof (find_none _ _ F (q, n) I) as X. cbn [fst] in X.
  assert (path_eqb q q = true) by (apply path_eqb_eq; reflexivity). congruence.
Qed.


(** The search, by what it lists: an exception of [glob] or of [stat]
    goes through; an empty listing gives the error of the code; of the
    listed paths the first with the greatest modification time is
    returned. *)
Lemma find_by_listed (self : ExcelFileHandler) (w : World) :
  _find_most_recent_file self w
  = match listed self w with
    | inl e => (w, inl e)
    | inr [] =>
        (mkWorld (fs w)
           (log w ++ [(ERROR, "Nenhum arquivo encontrado com o prefixo: "
                              ++ prefix self)]),
         inl (Exn FileNotFoundError (not_found_message self)))
    | inr (x :: l) => (w, inr (fst (py_max snd x l)))
    end.
Proof.
  unfold _find_most_recent_file, listed, bind, get_fs, lift.
  destruct (glob (fs w) (directory self) (prefix self ++ "*")) as [e|[|x files]];
    [reflexivity | reflexivity |].
  cbn [traverse]. destruct (with_mtime (fs w) x) as [e|kx]; [reflexivity|].
  destruct (traverse (with_mtime (fs w)) files) as [e|ks]; reflexivity.
Qed.

Lemma listed_entries (w : World) (files : list Path) :
  (forall p, In p files -> lookup_path (fs w) p <> None) ->
  traverse (with_mtime (fs w)) files = inr (map (fun p => (p, mtime w p)) files).
Proof.
  induction files as [|p files IH]; intros H; [reflexivity|].
  cbn [traverse map]. unfold with_mtime at 1, stat, mtime at 1.
  destruct (lookup_path (fs w) p) as [n|] eqn:L.
  - rewrite IH; [reflexivity|]. intros q I. apply H. right. exact I.
  - exfalso. apply (H p); [left; reflexivity | exact L].
Qed.

(* ------------------------------------------------------------------ *)
(** ** Properties: the pattern of a literal prefix *)
(* ------------------------------------------------------------------ *)

Lemma has_char_app (c : ascii) (s1 s2 : string) :
  has_char c (s1 ++ s2) = has_char c s1 || has_char c s2.
Proof. unfold has_char. rewrite list_ascii_app. apply existsb_app. Qed.

Lemma has_char_cons (c x : ascii) (s : string) :
  has_char c (String x s) = Ascii.eqb c x || has_char c s.
Proof. reflexivity. Qed.

Lemma split_sep_literal (s : string) :
  has_char "/" s = false -> split_sep s = [s].
Proof.
  induction s as [|c s IH]; intros H; [reflexivity|].
  rewrite has_char_cons in H. apply orb_false_elim in H. destruct H as [H1 H2].
  cbn [split_sep]. rewrite Ascii.eqb_sym, H1, (IH H2). reflexivity.
Qed.

Lemma wildcard_star (pat name : string) :
  wildcard (String "*" pat) name
  = wildcard pat name
    || match name with
       | EmptyString => false
       | String _ name' => wildcard (String "*" pat) name'
       end.
Proof. destruct name; reflexivity. Qed.

Lemma wildcard_last_star (name : string) : wildcard "*" name = true.
Proof.
  induction name as [|x name IH]; [reflexivity|].
  rewrite wildcard_star, IH. apply orb_true_r.
Qed.

Lemma prefix_nil (name : string) : String.prefix EmptyString name = true.
Proof. destruct name; reflexivity. Qed.

(** The pattern [pfx*] of a prefix without wildcard matches the names
    that start with the prefix. *)
Lemma wildcard_literal (pfx name : string) :
  has_char "*" pfx = false ->
  has_char "?" pfx = false ->
  wildcard (pfx ++ "*") name = String.prefix pfx name.
Proof.
  revert name. induction pfx as [|c pfx IH]; intros name Hs Hq.
  - rewrite prefix_nil. apply wildcard_last_star.
  - rewrite has_char_cons in Hs, Hq.
    apply orb_false_elim in Hs. destruct Hs as [Hs1 Hs2].
    apply orb_false_elim in Hq. destruct Hq as [Hq1 Hq2].
    cbn [append wildcard]. rewrite Ascii.eqb_sym, Hs1, Ascii.eqb_sym, Hq1.
    destruct name as [|x name]; [reflexivity|].
    cbn [String.prefix]. rewrite (IH name Hs2 Hq2).
    destruct (ascii_dec c x) as [->|N].
    + rewrite Ascii.eqb_refl. reflexivity.
    + destruct (Ascii.eqb_spec x c) as [->|_]; [congruence | reflexivity].
Qed.

Lemma append_star_not_nil (pfx : string) :
  String.eqb (pfx ++ "*") EmptyString = false.
Proof. destruct pfx; reflexivity. Qed.

Lemma append_star_not_dot (pfx : string) : String.eqb (pfx ++ "*") "." = false.
Proof. destruct pfx as [|c [|c' pfx]]; cbn; try reflexivity; destruct (Ascii.eqb c "."); reflexivity. Qed.

Lemma append_star_not_dots (pfx : string) : String.eqb (pfx ++ "*") ".." = false.
Proof.
  destruct pfx as [|c [|c' [|c'' pfx]]]; cbn; try reflexivity.
  - destruct (Ascii.eqb c "."); reflexivity.
  - destruct (Ascii.eqb c "."); [|reflexivity].
    destruct (Ascii.eqb c' "."); reflexivity.
  - destruct (Ascii.eqb c "."); [|reflexivity].
    destruct (Ascii.eqb c' "."); reflexivity.
Qed.

Lemma ends_with_sep_star (pfx : string) : ends_with_sep (pfx ++ "*") = false.
Proof.
  induction pfx as [|c pfx IH]; [reflexivity|].
  cbn [append ends_with_sep]. destruct (pfx ++ "*") eqn:E; [|exact IH].
  destruct pfx; discriminate.
Qed.

Lemma no_double_star (pfx : string) :
  has_char "*" pfx = false -> has_double_star (pfx ++ "*") = false.
Proof.
  induction pfx as [|c pfx IH]; intros H; [reflexivity|].
  rewrite has_char_cons in H. apply orb_false_elim in H. destruct H as [H1 H2].
  cbn [append has_double_star]. rewrite (IH H2).
  destruct (pfx ++ "*"); [reflexivity|].
  rewrite Ascii.eqb_sym, H1. reflexivity.
Qed.

Lemma filter_filter {A} (g h : A -> bool) (l : list A) :
  filter g (filter h l) = filter (fun x => h x && g x) l.
Proof.
  induction l as [|x l IH]; [reflexivity|].
  cbn [filter]. destruct (h x); cbn [filter andb]; rewrite IH; reflexivity.
Qed.

(** With a literal prefix, [glob] lists the entries of the directory
    whose names start with the prefix. *)
Lemma glob_literal (pfx : string) (f : list (Path * node)) (d : Path) :
  literal_prefix pfx = true ->
  glob f d (pfx ++ "*")
  = inr (if is_directory f d
         then map fst
                (filter (fun e => is_child d (fst e)
                                  && String.prefix pfx (name (fst e))) f)
         else []).
Proof.
  unfold literal_prefix. intros H. apply negb_true_iff in H.
  apply orb_false_elim in H. destruct H as [H Hb].
  apply orb_false_elim in H. destruct H as [H Hq].
  apply orb_false_elim in H. destruct H as [Hsep Hs].
  assert (Parts : pattern_parts (pfx ++ "*") = [pfx ++ "*"]).
  { unfold pattern_parts. rewrite split_sep_literal.
    - cbn [filter]. rewrite append_star_not_nil, append_star_not_dot. reflexivity.
    - rewrite has_char_app, Hsep. reflexivity. }
  assert (Abs : is_absolute (pfx ++ "*") = false).
  { destruct pfx as [|c pfx]; [reflexivity|].
    rewrite has_char_cons in Hsep. apply orb_false_elim in Hsep.
    cbn [append is_absolute]. rewrite Ascii.eqb_sym. apply Hsep. }
  unfold glob. rewrite append_star_not_nil, Abs, Parts.
  cbn [existsb]. unfold beyond.
  rewrite append_star_not_dots, (no_double_star pfx Hs). cbn [orb].
  destruct (is_directory f d); [|reflexivity].
  cbn [select_from]. unfold select_part, is_wildcard_pattern.
  rewrite !has_char_app. replace (has_char "*" "*") with true by reflexivity.
  rewrite orb_true_r. cbn [orb]. rewrite ends_with_sep_star.
  unfold scandir. rewrite filter_filter. do 2 f_equal.
  apply filter_ext. intros e. unfold fnmatch.
  rewrite has_char_app, Hb. cbn [negb orb has_char list_ascii_of_string existsb].
  replace (Ascii.eqb "[" "*") with false by reflexivity. cbn [orb].
  rewrite (wildcard_literal pfx _ Hs Hq). reflexivity.
Qed.

Lemma listed_literal (self : ExcelFileHandler) (w : World) :
  literal_prefix (prefix self) = true ->
  listed self w = inr (map (fun p => (p, mtime w p)) (prefix_matches self w)).
Proof.
  intros H. unfold listed, prefix_matches.
  rewrite (glob_literal _ _ _ H).
  destruct (is_directory (fs w) (directory self)); [|reflexivity].
  apply listed_entries. intros p I. apply in_map_iff in I.
  destruct I as ([q n] & <- & I). apply filter_In in I. destruct I as [I _].
  apply (in_lookup_path _ _ _ I).
Qed.

(** C7, as amended.  For a prefix of ordinary characters (no path
    separator and none of the glob characters [*], [?] and [[]),
    [_find_most_recent_file] fails with [FileNotFoundError] when no
    entry of the directory has a name that starts with the prefix,
    and otherwise returns the entry with the greatest modification
    time; among entries with that same time it returns the first in
    listing order. *)
Theorem find_most_recent_is_latest (self : ExcelFileHandler) (w : World) :
  literal_prefix (prefix self) = true ->
  (prefix_matches self w = [] ->
   _find_most_recent_file self w
   = (mkWorld (fs w)
        (log w ++ [(ERROR, "Nenhum arquivo encontrado com o prefixo: "
                           ++ prefix self)]),
      inl (Exn FileNotFoundError (not_found_message self))))
  /\ (prefix_matches self w <> [] ->
      exists before latest after,
        prefix_matches self w = (before ++ latest :: after)%list
        /\ _find_most_recent_file self w = (w, inr latest)
        /\ (forall x, In x before -> mtime w x < mtime w latest)
        /\ (forall x, In x after -> mtime w x <= mtime w latest)).
Proof.
  intros Hlit. rewrite find_by_listed, (listed_literal self w Hlit).
  split.
  - intros E. rewrite E. reflexivity.
  - intros NE. destruct (prefix_matches self w) as [|x files]; [congruence|].
    cbn [map]. rewrite py_max_keyed. cbn [fst].
    destruct (py_max_split (mtime w) files [] [] x) as (b & a & E & Hb & Ha).
    + intros y [].
    + intros y [].
    + exists b, (py_max (mtime w) x files), a.
      simpl in E. repeat split; auto.
Qed.

(* ------------------------------------------------------------------ *)
(** ** Properties: the constructor creates a missing directory *)
(* ------------------------------------------------------------------ *)

Lemma lookup_path_app (f g : list (Path * node)) (q : Path) :
  lookup_path (f ++ g) q
  = match lookup_path f q with
    | Some n => Some n
    | None => lookup_path g q
    end.
Proof.
  unfold lookup_path. induction f as [|e f IH]; simpl; [reflexivity|].
  destruct (path_eqb (fst e) q); [reflexivity | exact IH].
Qed.



Lemma ancestors_and_self_last (pre p : Path) :
  p <> [] -> In (pre ++ p)%list (ancestors_and_self pre p).
Proof.
  revert pre. induction p as [|c p IH]; intros pre H; [congruence|].
  simpl. destruct p as [|c' p].
  - left. reflexivity.
  - right. replace (pre ++ c :: c' :: p)%list with ((pre ++ [c]) ++ c' :: p)%list
      by (rewrite <- app_assoc; reflexivity).
    apply IH. discriminate.
Qed.



Lemma filter_none {A} (f : A -> bool) (l : list A) :
  (forall x, In x l -> f x = false) -> filter f l = [].
Proof.
  induction l as [|x l IH]; intros H; [reflexivity|].
  simpl. rewrite (H x (or_introl eq_refl)). apply IH.
  intros y I. apply H. right. exact I.
Qed.










(* ------------------------------------------------------------------ *)
(** ** Properties: the cleanup pass *)
(* ------------------------------------------------------------------ *)

Lemma cleanup_cell_idem (c : cell) : cleanup_cell (cleanup_cell c) = cleanup_cell c.
Proof.
  destruct c; simpl; try reflexivity.
  destruct (is_sentinel s) eqn:E; simpl; [reflexivity | now rewrite E].
Qed.

Lemma cleanup_object_idem (l : list cell) :
  cleanup_array (ObjectArray (map cleanup_cell l)) = ObjectArray (map cleanup_cell l).
Proof.
  simpl. rewrite map_map. f_equal. apply map_ext. intros c. apply cleanup_cell_idem.
Qed.

Lemma cleanup_array_idem (a : array) :
  cleanup_array (cleanup_array a) = cleanup_array a.
Proof.
  destruct a as [l|l|l|l|l|l];
    [ apply cleanup_object_idem
    | unfold cleanup_array at 2;
      match goal with
      | |- context [if ?b then _ else _] => destruct b eqn:E
      end;
      [ unfold cleanup_array at 2; rewrite E; apply cleanup_object_idem
      | unfold cleanup_array; rewrite E; reflexivity ] .. ].
Qed.

(** C8.  The cleanup pass
    [df.replace({pd.NA: None, 'nan': None, 'None': None, '': None, 'NaT': None})]
    is idempotent: on every table a second pass changes nothing. *)
Theorem cleanup_idempotent (df : DataFrame) : cleanup (cleanup df) = cleanup df.
Proof.
  unfold cleanup. cbn [nrows columns]. rewrite map_map. f_equal.
  apply map_ext. intros c. cbn [fst snd]. now rewrite cleanup_array_idem.
Qed.

(* ------------------------------------------------------------------ *)
(** ** Properties: the steps of [_process_dataframe] *)
(* ------------------------------------------------------------------ *)

Lemma process_date_column_returns (df : DataFrame) (col : string) (w : World) :
  exists w' df', process_date_column df col w = (w', inr df').
Proof.
  unfold process_date_column.
  destruct (has_column df col); [|eexists _, _; reflexivity].
  destruct (convert_date_column df col) as [df' [e|]];
    eexists _, _; reflexivity.
Qed.

Lemma process_date_columns_returns (cols : list string) (df : DataFrame) (w : World) :
  exists w' df', process_date_columns cols df w = (w', inr df').
Proof.
  revert df w. induction cols as [|col cols IH]; intros df w.
  - eexists _, _. reflexivity.
  - simpl. unfold bind.
    destruct (process_date_column_returns df col w) as (w1 & df1 & E).
    rewrite E. apply IH.
Qed.

(** The steps of a successful run, in order. *)
Lemma process_dataframe_steps (raw : DataFrame) (p : Path) (w w' : World)
    (df' : DataFrame) :
  _process_dataframe raw p w = (w', inr df') ->
  exists pair df1 df2 df3 df4,
    extract_body p = inr pair
    /\ insert 0 "dt_carga" (fst pair) (rename COLUMN_MAPPING raw) = inr df1
    /\ insert 1 "dthr_carga" (snd pair) df1 = inr df2
    /\ process_date_columns DATE_COLUMNS df2 w = (w', inr df3)
    /\ process_id_columns id_cols df3 = inr df4
    /\ df' = normalize_text (cleanup df4).
Proof.
  unfold _process_dataframe, bind.
  destruct (extract_body p) as [e|pair] eqn:X.
  - rewrite (extract_raises p w e X). discriminate.
  - rewrite (extract_ok p w pair X). unfold lift.
    destruct (insert 0 "dt_carga" (fst pair) (rename COLUMN_MAPPING raw))
      as [e|df1] eqn:I0; [discriminate|].
    destruct (insert 1 "dthr_carga" (snd pair) df1) as [e|df2] eqn:I1;
      [discriminate|].
    destruct (process_date_columns DATE_COLUMNS df2 w) as [w3 [e|df3]] eqn:D;
      [discriminate|].
    destruct (process_id_columns id_cols df3) as [e|df4] eqn:I; [discriminate|].
    unfold ret. intros H. injection H as <- <-.
    exists pair, df1, df2, df3, df4. repeat split; assumption.
Qed.

(** *** Following one label through the steps *)

Lemma eqb_neq_false (a b : string) : a <> b -> String.eqb a b = false.
Proof. intros H. apply String.eqb_neq. exact H. Qed.

Lemma get_columns_insert (loc : nat) (column value : string) (df df' : DataFrame)
    (col : string) :
  insert loc column value df = inr df' ->
  col <> column ->
  get_columns df' col = get_columns df col.
Proof.
  unfold insert. destruct (has_column df column); [discriminate|].
  intros H N. injection H as <-. unfold get_columns. cbn [columns].
  rewrite !filter_app. cbn [filter fst].
  rewrite (eqb_neq_false column col) by congruence. cbn [app].
  rewrite <- filter_app, firstn_skipn. reflexivity.
Qed.

Lemma labels_insert (loc : nat) (column value : string) (df df' : DataFrame)
    (l : string) :
  insert loc column value df = inr df' ->
  In l (labels df) -> In l (labels df').
Proof.
  unfold insert. destruct (has_column df column); [discriminate|].
  intros H I. injection H as <-. unfold labels in *. cbn [columns].
  rewrite <- (firstn_skipn loc (columns df)) in I.
  rewrite map_app in I. rewrite !map_app.
  apply in_app_or in I. apply in_or_app.
  destruct I as [I|I]; [left; exact I | right; right; exact I].
Qed.

Lemma labels_set_column (df : DataFrame) (c : string) (a : array) :
  labels (set_column df c a) = labels df.
Proof.
  unfold labels, set_column. cbn [columns]. rewrite map_map.
  apply map_ext. intros x. destruct (String.eqb (fst x) c); reflexivity.
Qed.

Lemma get_columns_set_other (df : DataFrame) (c col : string) (a : array) :
  col <> c -> get_columns (set_column df c a) col = get_columns df col.
Proof.
  intros N. unfold get_columns, set_column. cbn [columns].
  induction (columns df) as [|x cs IH]; [reflexivity|].
  cbn [map filter]. destruct (String.eqb (fst x) c) eqn:E.
  - apply String.eqb_eq in E. cbn [fst].
    rewrite E, (eqb_neq_false c col) by congruence. exact IH.
  - destruct (String.eqb (fst x) col); cbn [map]; rewrite IH; reflexivity.
Qed.

Lemma get_columns_set_self (df : DataFrame) (c : string) (a : array) :
  get_columns (set_column df c a) c = map (fun _ => a) (get_columns df c).
Proof.
  unfold get_columns, set_column. cbn [columns].
  induction (columns df) as [|x cs IH]; [reflexivity|].
  cbn [map filter]. destruct (String.eqb (fst x) c) eqn:E.
  - cbn [fst]. rewrite E. cbn [map snd]. rewrite IH. reflexivity.
  - rewrite E. exact IH.
Qed.

Lemma has_column_get (df : DataFrame) (col : string) (a : array) (r : list array) :
  get_columns df col = a :: r -> has_column df col = true.
Proof.
  unfold get_columns, has_column, labels.
  induction (columns df) as [|x cs IH]; [discriminate|].
  cbn [map filter existsb]. rewrite (String.eqb_sym col (fst x)).
  destruct (String.eqb (fst x) col); [reflexivity|].
  intros H. rewrite IH by exact H. reflexivity.
Qed.

Lemma convert_date_column_labels (df : DataFrame) (col : string) :
  labels (fst (convert_date_column df col)) = labels df.
Proof.
  unfold convert_date_column.
  destruct (get_columns df col) as [|a [|b r]]; try reflexivity.
  destruct (to_datetime a) as [e|a1]; [reflexivity|].
  destruct (dt_strftime a1) as [e|s]; cbn [fst];
    rewrite ?labels_set_column; reflexivity.
Qed.

Lemma convert_date_column_other (df : DataFrame) (col col' : string) :
  col' <> col ->
  get_columns (fst (convert_date_column df col)) col' = get_columns df col'.
Proof.
  intros N. unfold convert_date_column.
  destruct (get_columns df col) as [|a [|b r]]; try reflexivity.
  destruct (to_datetime a) as [e|a1]; [reflexivity|].
  destruct (dt_strftime a1) as [e|s]; cbn [fst];
    rewrite ?get_columns_set_other by exact N; reflexivity.
Qed.

Lemma process_date_column_frame (df df' : DataFrame) (col : string) (w w' : World) :
  process_date_column df col w = (w', inr df') ->
  df' = df \/ df' = fst (convert_date_column df col).
Proof.
  unfold process_date_column.
  destruct (has_column df col).
  - destruct (convert_date_column df col) as [d [e|]]; unfold bind, logger, ret;
      intros H; injection H as <- <-; right; reflexivity.
  - unfold ret. intros H. injection H as <- <-. left. reflexivity.
Qed.

Lemma process_date_columns_other (cols : list string) (df df' : DataFrame)
    (w w' : World) (col : string) :
  process_date_columns cols df w = (w', inr df') ->
  ~ In col cols ->
  get_columns df' col = get_columns df col.
Proof.
  revert df w. induction cols as [|c cols IH]; intros df w H N.
  - simpl in H. unfold ret in H. injection H as <- <-. reflexivity.
  - simpl in H. unfold bind in H.
    destruct (process_date_column_returns df c w) as (w1 & df1 & E).
    rewrite E in H. rewrite (IH df1 w1 H) by (intros I; apply N; right; exact I).
    apply process_date_column_frame in E. destruct E as [->| ->]; [reflexivity|].
    apply convert_date_column_other. intros ->. apply N. left. reflexivity.
Qed.

Lemma process_date_columns_labels (cols : list string) (df df' : DataFrame)
    (w w' : World) :
  process_date_columns cols df w = (w', inr df') -> labels df' = labels df.
Proof.
  revert df w. induction cols as [|c cols IH]; intros df w H.
  - simpl in H. unfold ret in H. injection H as <- <-. reflexivity.
  - simpl in H. unfold bind in H.
    destruct (process_date_column_returns df c w) as (w1 & df1 & E).
    rewrite E in H. rewrite (IH df1 w1 H).
    apply process_date_column_frame in E. destruct E as [->| ->]; [reflexivity|].
    apply convert_date_column_labels.
Qed.

Lemma update_columns_labels (f : array -> exn + array) (c : string)
    (cs cs' : list (string * array)) :
  update_columns f c cs = inr cs' -> map fst cs' = map fst cs.
Proof.
  revert cs'. induction cs as [|x cs IH]; intros cs' H.
  - simpl in H. injection H as <-. reflexivity.
  - simpl in H.
    destruct (String.eqb (fst x) c).
    + destruct (f (snd x)) as [e|a]; [discriminate|].
      destruct (update_columns f c cs) as [e|r]; [discriminate|].
      injection H as <-. simpl. rewrite (IH r eq_refl). reflexivity.
    + destruct (update_columns f c cs) as [e|r]; [discriminate|].
      injection H as <-. simpl. rewrite (IH r eq_refl). reflexivity.
Qed.

Lemma update_columns_other (f : array -> exn + array) (c col : string) (n n' : nat)
    (cs cs' : list (string * array)) :
  update_columns f c cs = inr cs' ->
  col <> c ->
  get_columns (mkDataFrame n' cs') col = get_columns (mkDataFrame n cs) col.
Proof.
  intros H N. unfold get_columns. cbn [columns].
  revert cs' H. induction cs as [|x cs IH]; intros cs' H.
  - simpl in H. injection H as <-. reflexivity.
  - simpl in H.
    destruct (String.eqb (fst x) c) eqn:E.
    + destruct (f (snd x)) as [e|a]; [discriminate|].
      destruct (update_columns f c cs) as [e|r]; [discriminate|].
      injection H as <-. apply String.eqb_eq in E.
      cbn [filter fst]. rewrite E, (eqb_neq_false c col) by congruence.
      apply IH. reflexivity.
    + destruct (update_columns f c cs) as [e|r]; [discriminate|].
      injection H as <-. cbn [filter].
      destruct (String.eqb (fst x) col); cbn [map]; rewrite (IH r eq_refl);
        reflexivity.
Qed.

Lemma update_columns_self (f : array -> exn + array) (c : string) (n n' : nat)
    (cs cs' : list (string * array)) :
  update_columns f c cs = inr cs' ->
  traverse f (get_columns (mkDataFrame n cs) c)
  = inr (get_columns (mkDataFrame n' cs') c).
Proof.
  unfold get_columns. cbn [columns].
  revert cs'. induction cs as [|x cs IH]; intros cs' H.
  - simpl in H. injection H as <-. reflexivity.
  - simpl in H.
    destruct (String.eqb (fst x) c) eqn:E.
    + destruct (f (snd x)) as [e|a] eqn:F; [discriminate|].
      destruct (update_columns f c cs) as [e|r]; [discriminate|].
      injection H as <-. cbn [filter fst]. rewrite E. cbn [map snd traverse].
      rewrite F, (IH r eq_refl). reflexivity.
    + destruct (update_columns f c cs) as [e|r]; [discriminate|].
      injection H as <-. cbn [filter]. rewrite E. apply IH. reflexivity.
Qed.

Lemma get_columns_absent (df : DataFrame) (col : string) :
  has_column df col = false -> get_columns df col = [].
Proof.
  unfold get_columns, has_column, labels.
  induction (columns df) as [|x cs IH]; [reflexivity|].
  cbn [map filter existsb]. rewrite (String.eqb_sym col (fst x)).
  destruct (String.eqb (fst x) col); [discriminate|].
  intros H. apply IH. exact H.
Qed.

Lemma process_id_column_labels (df df' : DataFrame) (c : string) :
  process_id_column df c = inr df' -> labels df' = labels df.
Proof.
  unfold process_id_column. destruct (has_column df c).
  - destruct (update_columns normalize_id c (columns df)) as [e|cs] eqn:U;
      [discriminate|].
    intros H. injection H as <-. apply update_columns_labels in U. exact U.
  - intros H. injection H as <-. reflexivity.
Qed.

Lemma process_id_column_other (df df' : DataFrame) (c col : string) :
  process_id_column df c = inr df' ->
  col <> c ->
  get_columns df' col = get_columns df col.
Proof.
  unfold process_id_column. destruct (has_column df c).
  - destruct (update_columns normalize_id c (columns df)) as [e|cs] eqn:U;
      [discriminate|].
    intros H N. injection H as <-.
    rewrite (update_columns_other _ _ _ (nrows df) (nrows df) _ _ U N).
    destruct df. reflexivity.
  - intros H _. injection H as <-. reflexivity.
Qed.

Lemma process_id_column_self (df df' : DataFrame) (c : string) :
  process_id_column df c = inr df' ->
  traverse normalize_id (get_columns df c) = inr (get_columns df' c).
Proof.
  unfold process_id_column. destruct (has_column df c) eqn:Hc.
  - destruct (update_columns normalize_id c (columns df)) as [e|cs] eqn:U;
      [discriminate|].
    intros H. injection H as <-.
    rewrite <- (update_columns_self _ _ (nrows df) (nrows df) _ _ U).
    destruct df. reflexivity.
  - intros H. injection H as <-.
    rewrite (get_columns_absent df c Hc). reflexivity.
Qed.

Lemma process_id_columns_labels (cols : list string) (df df' : DataFrame) :
  process_id_columns cols df = inr df' -> labels df' = labels df.
Proof.
  revert df. induction cols as [|c cols IH]; intros df H.
  - simpl in H. injection H as <-. reflexivity.
  - simpl in H. destruct (process_id_column df c) as [e|df1] eqn:E; [discriminate|].
    rewrite (IH df1 H). apply (process_id_column_labels _ _ _ E).
Qed.

Lemma process_id_columns_other (cols : list string) (df df' : DataFrame)
    (col : string) :
  process_id_columns cols df = inr df' ->
  ~ In col cols ->
  get_columns df' col = get_columns df col.
Proof.
  revert df. induction cols as [|c cols IH]; intros df H N.
  - simpl in H. injection H as <-. reflexivity.
  - simpl in H. destruct (process_id_column df c) as [e|df1] eqn:E; [discriminate|].
    rewrite (IH df1 H) by (intros I; apply N; right; exact I).
    apply (process_id_column_other _ _ _ _ E).
    intros ->. apply N. left. reflexivity.
Qed.

Lemma process_id_columns_self (cols : list string) (df df' : DataFrame)
    (col : string) :
  NoDup cols ->
  In col cols ->
  process_id_columns cols df = inr df' ->
  traverse normalize_id (get_columns df col) = inr (get_columns df' col).
Proof.
  revert df. induction cols as [|c cols IH]; intros df ND I H; [destruct I|].
  simpl in H. destruct (process_id_column df c) as [e|df1] eqn:E; [discriminate|].
  inversion ND as [|? ? Nin ND']; subst.
  destruct (string_dec c col) as [->|Ne].
  - rewrite (process_id_columns_other cols df1 df' col H Nin).
    apply (process_id_column_self _ _ _ E).
  - destruct I as [I|I]; [congruence|].
    rewrite <- (process_id_column_other _ _ _ col E) by congruence.
    apply IH; assumption.
Qed.

Lemma get_columns_cleanup (df : DataFrame) (col : string) :
  get_columns (cleanup df) col = map cleanup_array (get_columns df col).
Proof.
  unfold get_columns, cleanup. cbn [columns].
  induction (columns df) as [|x cs IH]; [reflexivity|].
  cbn [map filter fst]. destruct (String.eqb (fst x) col); cbn [map snd];
    rewrite IH; reflexivity.
Qed.

Lemma get_columns_normalize_text (df : DataFrame) (col : string) :
  get_columns (normalize_text df) col = map normalize_text_array (get_columns df col).
Proof.
  unfold get_columns, normalize_text. cbn [columns].
  induction (columns df) as [|x cs IH]; [reflexivity|].
  cbn [map filter fst]. destruct (String.eqb (fst x) col); cbn [map snd];
    rewrite IH; reflexivity.
Qed.

Lemma labels_cleanup (df : DataFrame) : labels (cleanup df) = labels df.
Proof.
  unfold labels, cleanup. cbn [columns]. rewrite map_map. reflexivity.
Qed.

Lemma labels_normalize_text (df : DataFrame) : labels (normalize_text df) = labels df.
Proof.
  unfold labels, normalize_text. cbn [columns]. rewrite map_map. reflexivity.
Qed.

(** With distinct labels, the array stored under a label is alone. *)
Lemma get_columns_unique (cs : list (string * array)) (n : nat)
    (col : string) (a : array) :
  NoDup (map fst cs) ->
  In (col, a) cs ->
  get_columns (mkDataFrame n cs) col = [a].
Proof.
  unfold get_columns. cbn [columns].
  induction cs as [|x cs IH]; intros ND I; [destruct I|].
  inversion ND as [|? ? Nin ND']; subst.
  cbn [filter map]. destruct I as [->|I].
  - cbn [fst]. rewrite String.eqb_refl. cbn [map snd]. f_equal.
    assert (F : filter (fun c : string * array => String.eqb (fst c) col) cs = []).
    { apply filter_none. intros y Iy. apply eqb_neq_false. intros E.
      apply Nin. cbn [fst]. rewrite <- E. apply in_map. exact Iy. }
    rewrite F. reflexivity.
  - destruct (String.eqb (fst x) col) eqn:E.
    + apply String.eqb_eq in E. exfalso. apply Nin. rewrite E.
      change col with (fst (col, a)). apply in_map. exact I.
    + apply IH; assumption.
Qed.

(* ------------------------------------------------------------------ *)
(** ** Properties: the text of integers and time stamps *)
(* ------------------------------------------------------------------ *)

Lemma uint_all_digits (d : Decimal.uint) :
  all_digits (NilEmpty.string_of_uint d) = true.
Proof. induction d; simpl; auto. Qed.

Lemma nonnil_uint_text (d : Decimal.uint) :
  d <> Decimal.Nil ->
  integer_text (NilZero.string_of_uint d) = true
  /\ all_digits (NilZero.string_of_uint d) = true
  /\ NilZero.string_of_uint d <> EmptyString.
Proof.
  intros H. pose proof (uint_all_digits d) as A.
  destruct d; try congruence; simpl in *; repeat split; auto; discriminate.
Qed.

Lemma integer_text_Z (z : Z) : integer_text (string_of_Z z) = true.
Proof.
  unfold string_of_Z. destruct z as [|p|p]; [reflexivity| |].
  - apply (nonnil_uint_text _ (DecimalPos.Unsigned.to_uint_nonnil p)).
  - destruct (nonnil_uint_text _ (DecimalPos.Unsigned.to_uint_nonnil p))
      as (_ & A & N).
    cbn [Z.to_int NilZero.string_of_int integer_text].
    replace (Ascii.eqb "-" "-") with true by reflexivity.
    rewrite A. apply String.eqb_neq in N. rewrite N. reflexivity.
Qed.

Lemma is_sentinel_cases (s : string) :
  is_sentinel s = true -> s = "nan" \/ s = "None" \/ s = EmptyString \/ s = "NaT".
Proof.
  unfold is_sentinel. cbn [existsb].
  destruct (String.eqb_spec s "nan"); [auto|].
  destruct (String.eqb_spec s "None"); [auto|].
  destruct (String.eqb_spec s EmptyString); [auto|].
  destruct (String.eqb_spec s "NaT"); [auto|].
  discriminate.
Qed.

Lemma sentinel_not_integer (s : string) :
  is_sentinel s = true -> integer_text s = false.
Proof.
  intros H. apply is_sentinel_cases in H.
  destruct H as [->|[->|[->| ->]]]; reflexivity.
Qed.

Lemma sentinel_short (s : string) :
  is_sentinel s = true -> (String.length s <= 4)%nat.
Proof.
  intros H. apply is_sentinel_cases in H.
  destruct H as [->|[->|[->| ->]]]; simpl; lia.
Qed.

Lemma string_of_Z_not_sentinel (z : Z) : is_sentinel (string_of_Z z) = false.
Proof.
  destruct (is_sentinel (string_of_Z z)) eqn:E; [|reflexivity].
  apply sentinel_not_integer in E. rewrite integer_text_Z in E. discriminate.
Qed.


Lemma length_append (s1 s2 : string) :
  String.length (s1 ++ s2) = (String.length s1 + String.length s2)%nat.
Proof. induction s1 as [|c s1 IH]; simpl; [reflexivity | now rewrite IH]. Qed.

Lemma iso_length (t : datetime) : String.length (DATETIME_FORMAT_ISO t) = 19%nat.
Proof. reflexivity. Qed.

Lemma iso_not_sentinel (t : datetime) (tail : string) :
  is_sentinel (DATETIME_FORMAT_ISO t ++ tail) = false.
Proof.
  destruct (is_sentinel (DATETIME_FORMAT_ISO t ++ tail)) eqn:E; [|reflexivity].
  apply sentinel_short in E. rewrite length_append, iso_length in E. lia.
Qed.

Lemma not_sentinel_not_None (s : string) :
  is_sentinel s = false -> String.eqb s "None" = false.
Proof.
  intros H. destruct (String.eqb s "None") eqn:E; [|reflexivity].
  apply String.eqb_eq in E. subst s. discriminate.
Qed.

(* ------------------------------------------------------------------ *)
(** ** Properties: identifier columns *)
(* ------------------------------------------------------------------ *)











Lemma safe_filled (l : list (option Q)) :
  forallb safe_float
    (map (fun o => match o with Some q => Some q | None => Some (0 # 1) end) l)
  = forallb safe_float l.
Proof.
  induction l as [|[q|] l IH]; [reflexivity| |]; cbn [map forallb]; rewrite IH;
    reflexivity.
Qed.


(** A float column whose values are integers: missing and zero both
    end as the missing marker, every other value as the text of its
    integer. *)
Lemma float_id_column (l : list (option Q)) :
  forallb safe_float l = true ->
  astype_Int64 (fillna0 (Float64Array l))
  = inr (MaskedInt64Array
           (map (fun o => match o with
                          | Some q => Some (int_of_float q)
                          | None => Some 0
                          end) l)).
Proof.
  intros H. cbn [fillna0 astype_Int64]. rewrite safe_filled, H, map_map.
  do 2 f_equal. apply map_ext. intros [q|]; reflexivity.
Qed.


(* ------------------------------------------------------------------ *)
(** ** Properties: date columns *)
(* ------------------------------------------------------------------ *)

Lemma where_strftime (l : list (option datetime)) :
  where_
    (ObjectArray
       (map (fun o => match o with
                      | Some t => PyStr (DATETIME_FORMAT_ISO t)
                      | None => NaN
                      end) l))
    (notnull (Datetime64Array l)) PyNone
  = ObjectArray (map iso_cell l).
Proof.
  unfold where_, notnull. cbn [cells_of]. f_equal.
  induction l as [|[t|] l IH]; cbn [map combine fst snd]; [reflexivity| |];
    cbn [isna negb iso_cell]; f_equal; exact IH.
Qed.

Lemma convert_date_column_ok (df : DataFrame) (col : string) (a : array)
    (l : list (option datetime)) :
  get_columns df col = [a] ->
  to_datetime a = inr (Datetime64Array l) ->
  snd (convert_date_column df col) = None
  /\ get_columns (fst (convert_date_column df col)) col
     = [ObjectArray (map iso_cell l)].
Proof.
  intros G T. unfold convert_date_column. rewrite G, T.
  cbn [dt_strftime fst snd]. split; [reflexivity|].
  rewrite !get_columns_set_self, G. cbn [map].
  rewrite where_strftime. reflexivity.
Qed.

Lemma process_date_column_self (df df' : DataFrame) (col : string) (a : array)
    (l : list (option datetime)) (w w' : World) :
  get_columns df col = [a] ->
  to_datetime a = inr (Datetime64Array l) ->
  process_date_column df col w = (w', inr df') ->
  get_columns df' col = [ObjectArray (map iso_cell l)].
Proof.
  intros G T. unfold process_date_column.
  rewrite (has_column_get df col a [] G).
  destruct (convert_date_column_ok df col a l G T) as [S F].
  destruct (convert_date_column df col) as [d o]. cbn [fst snd] in *. subst o.
  unfold ret. intros H. injection H as <- <-. exact F.
Qed.

Lemma process_date_columns_self (cols : list string) (df df' : DataFrame)
    (col : string) (a : array) (l : list (option datetime)) (w w' : World) :
  NoDup cols ->
  In col cols ->
  get_columns df col = [a] ->
  to_datetime a = inr (Datetime64Array l) ->
  process_date_columns cols df w = (w', inr df') ->
  get_columns df' col = [ObjectArray (map iso_cell l)].
Proof.
  revert df w. induction cols as [|c cols IH]; intros df w ND I G T H;
    [destruct I|].
  simpl in H. unfold bind in H.
  destruct (process_date_column_returns df c w) as (w1 & df1 & E).
  rewrite E in H. inversion ND as [|? ? Nin ND']; subst.
  destruct (string_dec c col) as [->|Ne].
  - rewrite (process_date_columns_other cols df1 df' w1 w' col H Nin).
    apply (process_date_column_self df df1 col a l w w1 G T E).
  - destruct I as [I|I]; [congruence|].
    apply (IH df1 w1 ND' I); [|exact T|exact H].
    apply process_date_column_frame in E. destruct E as [->| ->]; [exact G|].
    rewrite convert_date_column_other by congruence. exact G.
Qed.

Lemma final_date_array (l : list (option datetime)) :
  normalize_text_array (cleanup_array (ObjectArray (map iso_cell l)))
  = ObjectArray (map iso_cell l).
Proof.
  unfold normalize_text_array, cleanup_array. cbn [is_object].
  unfold astype_str, replace_scalar. cbn [cells_of].
  rewrite !map_map. f_equal. apply map_ext. intros [t|]; [|reflexivity].
  cbn [iso_cell cleanup_cell].
  pose proof (iso_not_sentinel t EmptyString) as S.
  assert (E : DATETIME_FORMAT_ISO t ++ EmptyString = DATETIME_FORMAT_ISO t) by reflexivity.
  rewrite E in S. rewrite S. cbn [str_cell].
  rewrite (not_sentinel_not_None _ S). reflexivity.
Qed.

(** C3, as amended.  The date loop never raises.  In a successful run
    over a table with distinct labels, a date column ([data_criacao],
    [data_de_baixa], [data_encerramento]) that [pd.to_datetime] turns
    into a datetime array holds, for every parsed cell, its text in the
    format [%Y-%m-%d %H:%M:%S] and, for every cell that did not parse
    or was missing (NaT), the missing marker.  With the cells
    ["2024-01-01", "not a date", missing] parsed as
    [2024-01-01 00:00:00, NaT, NaT] the column becomes
    ["2024-01-01 00:00:00", missing, missing]. *)
Theorem date_columns_normalized :
  (forall (cols : list string) (df : DataFrame) (w : World),
      exists w' df', process_date_columns cols df w = (w', inr df'))
  /\ (forall (raw : DataFrame) (p : Path) (w w' : World) (df' : DataFrame)
             (col : string) (a : array) (l : list (option datetime)),
         NoDup (labels (rename COLUMN_MAPPING raw)) ->
         In col DATE_COLUMNS ->
         In (col, a) (columns (rename COLUMN_MAPPING raw)) ->
         to_datetime a = inr (Datetime64Array l) ->
         _process_dataframe raw p w = (w', inr df') ->
         get_columns df' col = [ObjectArray (map iso_cell l)])
  /\ (to_datetime (ObjectArray [PyStr "2024-01-01"; PyStr "not a date"; NaN])
      = inr (Datetime64Array [Some (mkDatetime 2024 1 1 0 0 0); None; None]) ->
      forall w, _process_dataframe date_example example_path w
                = (w, inr date_example_normalized)).
Proof.
  split; [exact process_date_columns_returns|]. split.
  - intros raw p w w' df' col a l ND Hd Hin T Hrun.
    apply process_dataframe_steps in Hrun.
    destruct Hrun as (pair & df1 & df2 & df3 & df4 & _ & I0 & I1 & D & I & ->).
    assert (G0 : get_columns (rename COLUMN_MAPPING raw) col = [a]).
    { pose proof (get_columns_unique (columns (rename COLUMN_MAPPING raw))
                    (nrows (rename COLUMN_MAPPING raw)) col a ND Hin) as G.
      destruct (rename COLUMN_MAPPING raw). exact G. }
    assert (Ncol : col <> "dt_carga" /\ col <> "dthr_carga" /\ ~ In col id_cols).
    { simpl in Hd. destruct Hd as [<-|[<-|[<-|[]]]];
        (split; [discriminate|split; [discriminate|]]);
        simpl; intros [X|[X|[X|[]]]]; discriminate. }
    destruct Ncol as (N0 & N1 & Ni).
    assert (G2 : get_columns df2 col = [a]).
    { rewrite (get_columns_insert _ _ _ _ _ col I1 N1).
      rewrite (get_columns_insert _ _ _ _ _ col I0 N0). exact G0. }
    assert (NDd : NoDup DATE_COLUMNS).
    { solve_nodup. }
    pose proof (process_date_columns_self DATE_COLUMNS df2 df3 col a l w w'
                  NDd Hd G2 T D) as G3.
    rewrite get_columns_normalize_text, get_columns_cleanup.
    rewrite (process_id_columns_other id_cols df3 df4 col I Ni), G3.
    cbn [map]. rewrite final_date_array. reflexivity.
  - intros T w. unfold _process_dataframe, bind.
    rewrite (extract_ok example_path w ("2026-01-04", "2026-01-04 12:12"))
      by (vm_compute; reflexivity).
    unfold lift. cbn [fst snd].
    replace (insert 0 "dt_carga" "2026-01-04" (rename COLUMN_MAPPING date_example))
      with (inr (mkDataFrame 3
                   [("dt_carga", ObjectArray (repeat (PyStr "2026-01-04") 3));
                    ("data_criacao",
                     ObjectArray [PyStr "2024-01-01"; PyStr "not a date"; NaN])])
            : exn + DataFrame)
      by (vm_compute; reflexivity).
    replace (insert 1 "dthr_carga" "2026-01-04 12:12"
               (mkDataFrame 3
                  [("dt_carga", ObjectArray (repeat (PyStr "2026-01-04") 3));
                   ("data_criacao",
                    ObjectArray [PyStr "2024-01-01"; PyStr "not a date"; NaN])]))
      with (inr (mkDataFrame 3
                   [("dt_carga", ObjectArray (repeat (PyStr "2026-01-04") 3));
                    ("dthr_carga", ObjectArray (repeat (PyStr "2026-01-04 12:12") 3));
                    ("data_criacao",
                     ObjectArray [PyStr "2024-01-01"; PyStr "not a date"; NaN])])
            : exn + DataFrame)
      by (vm_compute; reflexivity).
    cbn [process_date_columns DATE_COLUMNS]. unfold bind.
    unfold process_date_column at 1.
    replace (has_column _ "data_criacao") with true by (vm_compute; reflexivity).
    unfold convert_date_column.
    cbn [get_columns columns filter map fst snd String.eqb Ascii.eqb Bool.eqb].
    rewrite T. vm_compute. reflexivity.
Qed.

(** C5, as amended.  An exception raised while a date column is
    converted is caught: the loop logs a warning and goes on, so it
    never aborts the load; the table keeps its labels and every other
    column is unchanged.  When the exception comes from the parsing
    call ([pd.to_datetime] did not return), the table is left exactly
    as it was. *)
Theorem date_column_failure_is_contained
    (df : DataFrame) (col : string) (w : World) (e : exn) :
  has_column df col = true ->
  snd (convert_date_column df col) = Some e ->
  exists df',
    process_date_column df col w
    = (mkWorld (fs w) (log w ++ [date_warning col e]), inr df')
    /\ labels df' = labels df
    /\ (forall c, c <> col -> get_columns df' c = get_columns df c)
    /\ ((forall a a1, get_columns df col = [a] -> to_datetime a <> inr a1) ->
        df' = df)
    /\ (forall cols w1, exists w2 df2,
           process_date_columns cols df' w1 = (w2, inr df2)).
Proof.
  intros Hc He. exists (fst (convert_date_column df col)).
  split; [|split; [|split; [|split]]].
  - unfold process_date_column. rewrite Hc.
    destruct (convert_date_column df col) as [d o]. cbn [fst snd] in *. subst o.
    reflexivity.
  - apply convert_date_column_labels.
  - intros c N. apply convert_date_column_other. exact N.
  - intros Hparse. unfold convert_date_column in *.
    destruct (get_columns df col) as [|a [|b r]]; try reflexivity.
    destruct (to_datetime a) as [e'|a1] eqn:T; [reflexivity|].
    exfalso. apply (Hparse a a1 eq_refl). exact T.
  - intros cols w1. apply process_date_columns_returns.
Qed.

(* ------------------------------------------------------------------ *)
(** ** Properties: text columns *)
(* ------------------------------------------------------------------ *)

Section TextColumns.

(** The text of a float that is not NaN is none of the four literals. *)
Hypothesis float_str_not_sentinel : forall q, is_sentinel (float_str q) = false.

Lemma str_of_cleaned (c : cell) :
  is_sentinel (str_cell (cleanup_cell c)) = true -> cleanup_cell c = PyNone.
Proof using float_str_not_sentinel.
  destruct c as [| | | |z|q|s|b|t o]; cbn [cleanup_cell isna str_cell];
    try reflexivity.
  - rewrite string_of_Z_not_sentinel. discriminate.
  - rewrite float_str_not_sentinel. discriminate.
  - destruct (is_sentinel s) eqn:E; [reflexivity|].
    cbn [str_cell]. rewrite E. discriminate.
  - destruct b; discriminate.
  - rewrite iso_not_sentinel. discriminate.
Qed.

Lemma normalize_cleaned_cell (c : cell) :
  (if String.eqb (str_cell (cleanup_cell c)) "None"
   then PyNone else PyStr (str_cell (cleanup_cell c)))
  = cleanup_cell (PyStr (str_cell (cleanup_cell c)))
  /\ is_clean (cleanup_cell (PyStr (str_cell (cleanup_cell c)))).
Proof using float_str_not_sentinel.
  cbn [cleanup_cell].
  destruct (is_sentinel (str_cell (cleanup_cell c))) eqn:E.
  - rewrite (str_of_cleaned c E). split; [reflexivity | left; reflexivity].
  - rewrite (not_sentinel_not_None _ E).
    split; [reflexivity|]. right. eexists. split; [reflexivity | exact E].
Qed.

Lemma replace_None_astype_str (l : list cell) :
  replace_scalar "None" (astype_str (ObjectArray l))
  = ObjectArray
      (map (fun c => if String.eqb (str_cell c) "None"
                     then PyNone else PyStr (str_cell c)) l).
Proof.
  unfold replace_scalar, astype_str. cbn [cells_of]. rewrite map_map. reflexivity.
Qed.

Lemma normalize_cleaned_object (l : list cell) :
  normalize_text_array (ObjectArray (map cleanup_cell l))
  = normalize_text_array_spec (ObjectArray (map cleanup_cell l))
  /\ exists cells,
      normalize_text_array (ObjectArray (map cleanup_cell l)) = ObjectArray cells
      /\ Forall is_clean cells.
Proof using float_str_not_sentinel.
  unfold normalize_text_array, normalize_text_array_spec. cbn [is_object].
  rewrite replace_None_astype_str.
  unfold astype_str, cleanup_array. cbn [cells_of]. rewrite !map_map.
  split.
  - f_equal. apply map_ext. intros c. apply normalize_cleaned_cell.
  - eexists. split; [reflexivity|]. apply Forall_forall. intros x I.
    apply in_map_iff in I. destruct I as (c & <- & _).
    destruct (normalize_cleaned_cell c) as [-> C]. exact C.
Qed.

Lemma cleanup_array_cases (a : array) :
  (exists l, cleanup_array a = ObjectArray (map cleanup_cell l))
  \/ (cleanup_array a = a /\ is_object a = false).
Proof.
  destruct a as [l|l|l|l|l|l]; [left; exists l; reflexivity|..];
    unfold cleanup_array;
    match goal with
    | |- context [if ?b then _ else _] => destruct b
    end;
    try (left; eexists; reflexivity); right; split; reflexivity.
Qed.

(** C6.  Given that the text of a float is none of the literals
    "nan", "None", "NaT" and the empty string: on every column that leaves the
    cleanup pass, what the code does to a text column (string form,
    then "None" replaced by the missing marker) is the same as taking
    the string form and applying the whole substitution of the cleanup
    pass again; and in the table returned by a successful run every
    cell of every text column is the missing marker or a string that
    is none of the four literals. *)
Theorem text_columns_hold_no_sentinel :
  (forall a : array,
      normalize_text_array (cleanup_array a)
      = normalize_text_array_spec (cleanup_array a))
  /\ (forall (raw : DataFrame) (p : Path) (w w' : World) (df' : DataFrame)
             (lbl : string) (cells : list cell),
         NoDup (labels (rename COLUMN_MAPPING raw)) ->
         _process_dataframe raw p w = (w', inr df') ->
         In (lbl, ObjectArray cells) (columns df') ->
         Forall is_clean cells).
Proof using float_str_not_sentinel.
  split.
  - intros a. destruct (cleanup_array_cases a) as [(l & ->)|[E O]].
    + apply normalize_cleaned_object.
    + rewrite E. unfold normalize_text_array, normalize_text_array_spec.
      rewrite O. reflexivity.
  - intros raw p w w' df' lbl cells _ Hrun Hin.
    apply process_dataframe_steps in Hrun.
    destruct Hrun as (pair & df1 & df2 & df3 & df4 & _ & _ & _ & _ & _ & ->).
    unfold normalize_text, cleanup in Hin. cbn [columns nrows] in Hin.
    rewrite map_map in Hin. apply in_map_iff in Hin.
    destruct Hin as ([n a] & E & _). cbn [fst snd] in E.
    injection E as _ E.
    destruct (cleanup_array_cases a) as [(l & C)|[C O]]; rewrite C in E.
    + destruct (normalize_cleaned_object l) as [_ (cs & N & F)].
      rewrite N in E. injection E as <-. exact F.
    + unfold normalize_text_array in E. rewrite O in E.
      rewrite E in O. discriminate.
Qed.

End TextColumns.

(* ------------------------------------------------------------------ *)
(** ** Properties: renaming *)
(* ------------------------------------------------------------------ *)

Lemma rename_label_not_key (mapping : list (string * string)) (l : string) :
  (forall v, ~ In (l, v) mapping) -> rename_label mapping l = l.
Proof.
  intros H. unfold rename_label.
  destruct (find (fun kv => String.eqb (fst kv) l) mapping) as [[k v]|] eqn:F;
    [|reflexivity].
  apply find_some in F. destruct F as [I E]. cbn [fst] in E.
  apply String.eqb_eq in E. subst k. exfalso. apply (H v I).
Qed.

(** C9.  Renaming changes labels only: the arrays and their order stay
    as they were, and a column whose label is not a key of
    [COLUMN_MAPPING] keeps its label and its array at its position.
    In a successful run over a table with distinct labels such a label
    is still a label of the returned table.  "Foo" is not a key: in a
    table with the columns "Foo" and "Raiz" renaming gives "Foo" and
    "raiz", and the returned table has the labels [dt_carga],
    [dthr_carga], "Foo" and [raiz]. *)
Theorem rename_is_partial :
  (forall df : DataFrame,
      nrows (rename COLUMN_MAPPING df) = nrows df
      /\ map snd (columns (rename COLUMN_MAPPING df)) = map snd (columns df))
  /\ (forall (df : DataFrame) (i : nat) (l : string) (a : array),
         (forall v, ~ In (l, v) COLUMN_MAPPING) ->
         nth_error (columns df) i = Some (l, a) ->
         nth_error (columns (rename COLUMN_MAPPING df)) i = Some (l, a))
  /\ (forall (raw : DataFrame) (p : Path) (w w' : World) (df' : DataFrame)
             (l : string),
         NoDup (labels (rename COLUMN_MAPPING raw)) ->
         (forall v, ~ In (l, v) COLUMN_MAPPING) ->
         In l (labels raw) ->
         _process_dataframe raw p w = (w', inr df') ->
         In l (labels df'))
  /\ labels (rename COLUMN_MAPPING rename_example) = ["Foo"; "raiz"]
  /\ (forall w, exists df',
         _process_dataframe rename_example example_path w = (w, inr df')
         /\ labels df' = ["dt_carga"; "dthr_carga"; "Foo"; "raiz"]
         /\ get_columns df' "Foo" = [ObjectArray [PyStr "x"]]).
Proof.
  split; [|split; [|split; [|split]]].
  - intros df. split; [reflexivity|].
    unfold rename. cbn [columns]. rewrite map_map. reflexivity.
  - intros df i l a Hk Hn. unfold rename. cbn [columns].
    rewrite nth_error_map, Hn. cbn [option_map fst snd].
    rewrite (rename_label_not_key _ _ Hk). reflexivity.
  - intros raw p w w' df' l _ Hk Hin Hrun.
    apply process_dataframe_steps in Hrun.
    destruct Hrun as (pair & df1 & df2 & df3 & df4 & _ & I0 & I1 & D & I & ->).
    rewrite labels_normalize_text, labels_cleanup.
    rewrite (process_id_columns_labels _ _ _ I).
    rewrite (process_date_columns_labels _ _ _ _ _ D).
    apply (labels_insert _ _ _ _ _ l I1).
    apply (labels_insert _ _ _ _ _ l I0).
    unfold labels, rename in *. cbn [columns]. rewrite map_map.
    apply in_map_iff in Hin. destruct Hin as (c & <- & Ic).
    apply in_map_iff. exists c. split; [|exact Ic].
    cbn [fst]. apply rename_label_not_key. exact Hk.
  - reflexivity.
  - intros w. eexists. split; [vm_compute; reflexivity|].
    split; vm_compute; reflexivity.
Qed.

(* ------------------------------------------------------------------ *)
(** ** Further properties: searching and deleting files *)
(* ------------------------------------------------------------------ *)

Lemma lookup_path_removed (f : list (Path * node)) (p : Path) :
  lookup_path (filter (fun e => negb (path_eqb (fst e) p)) f) p = None.
Proof.
  unfold lookup_path. induction f as [|e f IH]; [reflexivity|].
  cbn [filter]. destruct (path_eqb (fst e) p) eqn:E; cbn [negb]; [exact IH|].
  cbn [find]. rewrite E. exact IH.
Qed.

Lemma lookup_path_kept (f : list (Path * node)) (p q : Path) :
  q <> p ->
  lookup_path (filter (fun e => negb (path_eqb (fst e) p)) f) q = lookup_path f q.
Proof.
  intros N. unfold lookup_path. induction f as [|e f IH]; [reflexivity|].
  cbn [filter find]. destruct (path_eqb (fst e) p) eqn:E; cbn [negb].
  - apply path_eqb_eq in E.
    destruct (path_eqb (fst e) q) eqn:E'; [|exact IH].
    apply path_eqb_eq in E'. congruence.
  - cbn [find]. destruct (path_eqb (fst e) q); [reflexivity | exact IH].
Qed.

Lemma traverse_inv {A B} (f : A -> exn + B) (l : list A) (r : list B) :
  traverse f l = inr r ->
  length r = length l
  /\ forall y, In y r -> exists x, In x l /\ f x = inr y.
Proof.
  revert r. induction l as [|x l IH]; intros r T.
  - injection T as <-. split; [reflexivity | intros y []].
  - cbn [traverse] in T. destruct (f x) as [e|y] eqn:F; [discriminate|].
    destruct (traverse f l) as [e|r'] eqn:T'; [discriminate|].
    injection T as <-. destruct (IH r' eq_refl) as [L I]. split.
    + cbn [length]. rewrite L. reflexivity.
    + intros y' [<-|Y].
      * exists x. split; [left; reflexivity | exact F].
      * destruct (I y' Y) as (x' & X & E). exists x'. split; [right|]; assumption.
Qed.


Lemma with_mtime_inv (f : list (Path * node)) (p : Path) (y : Path * Z) :
  with_mtime f p = inr y ->
  fst y = p /\ exists n, lookup_path f p = Some n /\ snd y = st_mtime n.
Proof.
  unfold with_mtime, stat. destruct (lookup_path f p) as [n|]; [|discriminate].
  intros H. injection H as <-. split; [reflexivity|]. exists n. auto.
Qed.

(** A listed path is one that [glob] yields, and it has an entry. *)
Lemma listed_inv (self : ExcelFileHandler) (w : World) (l : list (Path * Z))
    (y : Path * Z) :
  listed self w = inr l -> In y l ->
  exists files n,
    glob (fs w) (directory self) (prefix self ++ "*") = inr files
    /\ In (fst y) files
    /\ lookup_path (fs w) (fst y) = Some n
    /\ snd y = st_mtime n.
Proof.
  unfold listed.
  destruct (glob (fs w) (directory self) (prefix self ++ "*")) as [e|files];
    [discriminate|].
  intros T I. destruct (traverse_inv _ _ _ T) as [_ X].
  destruct (X y I) as (p & Ip & E). apply with_mtime_inv in E.
  destruct E as [<- (n & L & S)]. exists files, n. auto.
Qed.

Lemma py_max_in {A} (key : A -> Z) (best : A) (l : list A) :
  In (py_max key best l) (best :: l).
Proof.
  revert best. induction l as [|x l IH]; intros best; [left; reflexivity|].
  cbn [py_max]. destruct (key best <? key x).
  - right. apply IH.
  - destruct (IH best) as [E|I]; [left; exact E | right; right; exact I].
Qed.

(** The search returns a path that has an entry and leaves the world
    as it is, or raises and leaves the file system as it is. *)
Lemma find_cases (self : ExcelFileHandler) (w : World) :
  (exists p n,
      _find_most_recent_file self w = (w, inr p)
      /\ lookup_path (fs w) p = Some n)
  \/ (exists w1 e,
         _find_most_recent_file self w = (w1, inl e) /\ fs w1 = fs w).
Proof.
  rewrite find_by_listed.
  destruct (listed self w) as [e|[|x l]] eqn:L.
  - right. eexists _, _. split; reflexivity.
  - right. eexists _, _. split; reflexivity.
  - left. pose proof (py_max_in snd x l) as I.
    destruct (listed_inv self w _ _ L I) as (files & n & _ & _ & Ln & _).
    eexists _, n. split; [reflexivity | exact Ln].
Qed.


(** X2.  When one listed path is strictly newer than every other
    listed path, [_find_most_recent_file] returns it, wherever it
    stands in the listing. *)
Theorem find_most_recent_unique_newest
    (self : ExcelFileHandler) (w : World) (l : list (Path * Z))
    (latest : Path * Z) :
  listed self w = inr l ->
  In latest l ->
  (forall x, In x l -> x = latest \/ snd x < snd latest) ->
  _find_most_recent_file self w = (w, inr (fst latest)).
Proof.
  intros L Hin Hnew. rewrite find_by_listed, L.
  destruct l as [|x files]; [destruct Hin|].
  destruct (py_max_split snd files [] [] x)
    as (b & a & E & Hb & Ha); try (intros y []).
  cbn [app] in E.
  set (m := py_max snd x files) in *.
  assert (Im : In m (x :: files)) by apply py_max_in.
  destruct (Hnew m Im) as [->|Lt]; [reflexivity|].
  exfalso. rewrite E in Hin. apply in_app_or in Hin.
  destruct Hin as [I|[I|I]].
  - apply Hb in I. lia.
  - subst m. rewrite I in Lt. lia.
  - apply Ha in I. lia.
Qed.

Lemma try_except_bind {A B} (m : M A) (k : A -> M B) (h : exn -> M B) (w : World) :
  try_except (bind m k) h w
  = match m w with
    | (w1, inl e) => h e w1
    | (w1, inr a) => try_except (k a) h w1
    end.
Proof.
  unfold try_except, bind. destruct (m w) as [w1 [e|a]]; reflexivity.
Qed.

Lemma unlink_cases (p : Path) (w : World) :
  (exists n,
      lookup_path (fs w) p = Some n /\ is_dir n = false
      /\ unlink p w
         = (mkWorld (filter (fun e => negb (path_eqb (fst e) p)) (fs w)) (log w),
            inr tt))
  \/ ((forall n, lookup_path (fs w) p = Some n -> is_dir n = true)
      /\ exists e, unlink p w = (w, inl e)).
Proof.
  unfold unlink, bind, get_fs.
  destruct (lookup_path (fs w) p) as [n|] eqn:L.
  - destruct (is_dir n) eqn:D.
    + right. split; [intros n' X; congruence | eexists; reflexivity].
    + left. exists n. repeat split; assumption.
  - right. split; [intros n' X; discriminate | eexists; reflexivity].
Qed.

(** The removal of a resolved path, inside the [try] of
    [delete_most_recent_file]. *)
Lemma removal_outcome (msg : string) (p : Path) (w : World) :
  exists w' b,
    try_except
      (unlink p ;;; logger INFO msg ;;; ret true)
      (fun e => logger ERROR ("Erro ao remover arquivo: " ++ str_exn e) ;;; ret false)
      w
    = (w', inr b)
    /\ (b = false -> fs w' = fs w)
    /\ (b = true <-> exists n, lookup_path (fs w) p = Some n /\ is_dir n = false)
    /\ (b = true -> fs w' = filter (fun e => negb (path_eqb (fst e) p)) (fs w)).
Proof.
  unfold try_except, bind.
  destruct (unlink_cases p w) as [(n & L & D & U)|[N (e & U)]]; rewrite U.
  - eexists _, true. split; [reflexivity|]. cbn [fs].
    split; [discriminate|]. split; [|reflexivity].
    split; [intros _; exists n; auto | reflexivity].
  - eexists _, false. split; [reflexivity|]. cbn [fs]. split; [reflexivity|].
    split; [|discriminate]. split; [discriminate|].
    intros (n & L & D). rewrite (N n L) in D. discriminate.
Qed.

(** X3.  [delete_most_recent_file] never raises and returns a
    boolean.  It returns [True] exactly when the path it works on is a
    regular file of the file system; that entry is then removed and
    every other entry is kept.  When it returns [False] the file
    system is as before. *)
Theorem delete_removes_exactly_the_target
    (self : ExcelFileHandler) (file_path : option Path) (w : World) :
  exists w' b,
    delete_most_recent_file self file_path w = (w', inr b)
    /\ (b = false -> fs w' = fs w)
    /\ (b = true <->
        exists p n, resolves_to self file_path w p
                    /\ lookup_path (fs w) p = Some n /\ is_dir n = false)
    /\ (forall p, b = true -> resolves_to self file_path w p ->
          fs w' = filter (fun e => negb (path_eqb (fst e) p)) (fs w)
          /\ lookup_path (fs w') p = None
          /\ forall q, q <> p -> lookup_path (fs w') q = lookup_path (fs w) q).
Proof.
  unfold delete_most_recent_file. rewrite try_except_bind.
  destruct file_path as [q|].
  - unfold ret at 1.
    destruct (removal_outcome ("Arquivo removido com sucesso: " ++ str_path q) q w)
      as (w' & b & R & Hf & Ht & Hfs).
    exists w', b. split; [exact R|]. split; [exact Hf|]. split.
    + rewrite Ht. split.
      * intros (n & X & Y). exists q, n. unfold resolves_to. auto.
      * intros (p & n & E & X & Y). unfold resolves_to in E. subst p. exists n. auto.
    + intros p Hb E. unfold resolves_to in E. subst p. rewrite (Hfs Hb). split; [reflexivity|].
      split; [apply lookup_path_removed | intros q' N; apply lookup_path_kept; exact N].
  - destruct (find_cases self w) as [(p & n & F & _)|(w1 & e & F & Fs)]; rewrite F.
    + destruct (removal_outcome ("Arquivo removido com sucesso: " ++ "None") p w)
        as (w' & b & R & Hf & Ht & Hfs).
      exists w', b. split; [exact R|]. split; [exact Hf|]. split.
      * rewrite Ht. split.
        -- intros (n' & X & Y). exists p, n'. unfold resolves_to. auto.
        -- intros (p' & n' & P & X & Y). unfold resolves_to in P. rewrite F in P.
           injection P as <-. exists n'. auto.
      * intros p' Hb P. unfold resolves_to in P. rewrite F in P. injection P as <-.
        rewrite (Hfs Hb). split; [reflexivity|].
        split; [apply lookup_path_removed | intros q' N; apply lookup_path_kept; exact N].
    + eexists _, false. split; [reflexivity|]. cbn [fs]. split; [intros _; exact Fs|].
      split; [|discriminate]. split; [discriminate|].
      intros (p & n & P & _). unfold resolves_to in P. rewrite F in P. discriminate.
Qed.

Lemma delete_true_removed (self : ExcelFileHandler) (file_path : option Path)
    (w w' : World) (p : Path) :
  delete_most_recent_file self file_path w = (w', inr true) ->
  resolves_to self file_path w p ->
  lookup_path (fs w') p = None.
Proof.
  unfold delete_most_recent_file, resolves_to. rewrite try_except_bind.
  intros H R.
  assert (X : exists msg,
             try_except
               (unlink p ;;; logger INFO msg ;;; ret true)
               (fun e => logger ERROR ("Erro ao remover arquivo: " ++ str_exn e)
                         ;;; ret false) w
             = (w', inr true)).
  { destruct file_path as [q|].
    - subst q. eexists. exact H.
    - rewrite R in H. eexists. exact H. }
  destruct X as (msg & X).
  destruct (removal_outcome msg p w) as (w1 & b & E & _ & _ & Hfs).
  rewrite E in X. injection X as <- ->.
  rewrite (Hfs eq_refl). apply lookup_path_removed.
Qed.

(** X4.  A file that [delete_most_recent_file] removed is never
    selected again: after a deletion that returned [True], no search,
    with whatever directory and prefix, returns the deleted path. *)
Theorem deleted_file_is_not_found_again
    (self self' : ExcelFileHandler) (file_path : option Path)
    (w w1 w2 : World) (p : Path) :
  delete_most_recent_file self file_path w = (w1, inr true) ->
  resolves_to self file_path w p ->
  _find_most_recent_file self' w1 <> (w2, inr p).
Proof.
  intros D R F.
  pose proof (delete_true_removed self file_path w w1 p D R) as L.
  destruct (find_cases self' w1) as [(q & n & E & I)|(w3 & e & E & _)];
    rewrite E in F; [|discriminate].
  injection F as _ <-. congruence.
Qed.

Lemma fold_mkdir_raised (now : Z) (l : list Path) (e : exn) :
  fold_left (mkdir_one now) l (inl e) = inl e.
Proof. induction l as [|q l IH]; [reflexivity | exact IH]. Qed.

Lemma mkdir_one_step (now : Z) (f : list (Path * node)) (q : Path) :
  mkdir_one now (inr f) q
  = match lookup_path f q with
    | None => inr (f ++ [(q, mkNode true now)])%list
    | Some n =>
        if is_dir n then inr f
        else inl (Exn NotADirectoryError ("Not a directory: " ++ str_path q))
    end.
Proof. reflexivity. Qed.

Lemma mkdir_fold_inv (now : Z) (l : list Path) (f f' : list (Path * node)) :
  fold_left (mkdir_one now) l (inr f) = inr f' ->
  exists g,
    f' = (f ++ g)%list
    /\ (forall e, In e g -> In (fst e) l /\ is_dir (snd e) = true)
    /\ (forall q, In q l -> exists n, lookup_path f' q = Some n /\ is_dir n = true).
Proof.
  revert f. induction l as [|q l IH]; intros f H.
  - simpl in H. injection H as <-. exists []. rewrite app_nil_r.
    split; [reflexivity|]. split; intros ? [].
  - cbn [fold_left] in H. rewrite mkdir_one_step in H.
    destruct (lookup_path f q) as [n|] eqn:L.
    + destruct (is_dir n) eqn:D; [|rewrite fold_mkdir_raised in H; discriminate].
      destruct (IH f H) as (g & -> & G1 & G2).
      exists g. split; [reflexivity|]. split.
      * intros e I. destruct (G1 e I). split; [right|]; assumption.
      * intros q' [<-|I]; [|apply G2; exact I].
        exists n. rewrite lookup_path_app, L. auto.
    + destruct (IH _ H) as (g & -> & G1 & G2).
      exists ((q, mkNode true now) :: g).
      split; [rewrite <- app_assoc; reflexivity|]. split.
      * intros e [<-|I]; [simpl; auto|].
        destruct (G1 e I). split; [right|]; assumption.
      * intros q' [<-|I]; [|apply G2; exact I].
        exists (mkNode true now). split; [|reflexivity].
        rewrite !lookup_path_app, L. unfold lookup_path at 1. cbn [find fst].
        replace (path_eqb q q) with true
          by (symmetry; apply path_eqb_eq; reflexivity).
        reflexivity.
Qed.

Lemma init_existing (dir : option Path) (pfx : string) (w : World) :
  exists_ (fs w) (match dir with Some d => d | None => user_downloads_dir end) = true ->
  __init__ dir pfx w
  = (w, inr (mkHandler (match dir with Some d => d | None => user_downloads_dir end)
               pfx)).
Proof.
  intros E. unfold __init__, bind, get_fs. rewrite E. reflexivity.
Qed.

(** X5.  A construction that returns only adds directories: the file
    system afterwards is the one before followed by new entries, each
    a directory that is the search directory or one of its ancestors;
    the search directory exists; and constructing again with the same
    arguments changes nothing and logs nothing. *)
Theorem init_only_adds_directories
    (dir : option Path) (pfx : string) (w w1 : World) (h : ExcelFileHandler) :
  __init__ dir pfx w = (w1, inr h) ->
  let d := match dir with Some d => d | None => user_downloads_dir end in
  h = mkHandler d pfx
  /\ (exists g,
         fs w1 = (fs w ++ g)%list
         /\ forall e, In e g ->
                      In (fst e) (ancestors_and_self [] d) /\ is_dir (snd e) = true)
  /\ exists_ (fs w1) d = true
  /\ __init__ dir pfx w1 = (w1, inr h).
Proof.
  intros H d.
  destruct (exists_ (fs w) d) eqn:E.
  - rewrite (init_existing dir pfx w E) in H. injection H as <- <-.
    split; [reflexivity|]. split.
    + exists []. rewrite app_nil_r. split; [reflexivity | intros ? []].
    + split; [exact E | apply init_existing; exact E].
  - unfold __init__, bind, get_fs in H. fold d in H. rewrite E in H.
    unfold logger at 1, mkdir, bind, get_fs in H. cbn [fs log] in H.
    unfold mkdir_parents in H.
    destruct (fold_left (mkdir_one mkdir_time) (ancestors_and_self [] d)
                (inr (fs w))) as [e|f'] eqn:F;
      [unfold raise in H; discriminate|].
    unfold set_fs, logger, ret in H. cbn [fs log] in H.
    injection H as <- <-. cbn [fs].
    destruct (mkdir_fold_inv _ _ _ _ F) as (g & -> & G1 & G2).
    assert (Hd : d <> []) by (intros X; rewrite X in E; discriminate).
    assert (Ex : exists_ (fs w ++ g) d = true).
    { pose proof (ancestors_and_self_last [] d Hd) as I. simpl in I.
      destruct (G2 d I) as (n & L & _). unfold exists_.
      destruct d; [congruence|]. rewrite L. reflexivity. }
    split; [reflexivity|]. split; [exists g; split; [reflexivity | exact G1]|].
    split; [exact Ex|].
    unfold __init__, bind, get_fs. fold d. cbn [fs]. rewrite Ex. reflexivity.
Qed.

Lemma mkdir_fold_blocked (now : Z) (l : list Path) (f : list (Path * node))
    (q : Path) (n : node) :
  In q l -> lookup_path f q = Some n -> is_dir n = false ->
  exists e, fold_left (mkdir_one now) l (inr f) = inl e
            /\ exn_cls e = NotADirectoryError.
Proof.
  revert f. induction l as [|q0 l IH]; intros f I L D; [destruct I|].
  cbn [fold_left]. rewrite mkdir_one_step.
  destruct (lookup_path f q0) as [n0|] eqn:L0.
  - destruct (is_dir n0) eqn:D0.
    + destruct I as [->|I]; [congruence|]. apply (IH f I L D).
    + rewrite fold_mkdir_raised. eexists. split; reflexivity.
  - destruct I as [->|I]; [congruence|].
    apply (IH _ I); [|exact D]. rewrite lookup_path_app, L. reflexivity.
Qed.

(** X6.  The constructor can raise: when the search directory does
    not exist and something on the way to it is a regular file,
    [mkdir] fails, and [__init__] raises [NotADirectoryError] after
    logging the warning, leaving the file system as it was. *)
Theorem init_raises_when_an_ancestor_is_a_file
    (dir : option Path) (pfx : string) (w : World) (q : Path) (n : node) :
  let d := match dir with Some d => d | None => user_downloads_dir end in
  exists_ (fs w) d = false ->
  In q (ancestors_and_self [] d) ->
  lookup_path (fs w) q = Some n ->
  is_dir n = false ->
  exists e,
    __init__ dir pfx w
    = (mkWorld (fs w)
         (log w ++ [(WARNING, ("Diretório não encontrado: " ++ str_path d)%string)]),
       inl e)
    /\ exn_cls e = NotADirectoryError.
Proof.
  intros d E I L D.
  destruct (mkdir_fold_blocked mkdir_time _ (fs w) q n I L D) as (e & F & C).
  exists e. split; [|exact C].
  unfold __init__, bind, get_fs. fold d. rewrite E.
  unfold logger at 1, mkdir, bind, get_fs. cbn [fs log].
  unfold mkdir_parents. rewrite F. reflexivity.
Qed.

(** X7.  With no path given and nothing in the directory that matches,
    [process_most_recent_file] returns the failure result whose
    message names the prefix and the directory, and
    [delete_most_recent_file] returns [False]; each logs the error of
    the search and its own, and the file system is untouched. *)
Theorem nothing_to_process_or_delete (self : ExcelFileHandler) (w : World) :
  glob (fs w) (directory self) (prefix self ++ "*") = inr [] ->
  process_most_recent_file self None w
  = (mkWorld (fs w)
       (log w
        ++ [(ERROR, ("Nenhum arquivo encontrado com o prefixo: "
                     ++ prefix self)%string);
            (ERROR, ("Erro ao processar arquivo mais recente: "
                     ++ not_found_message self)%string)]),
     inr (mkResult false
            ("Erro ao processar arquivo mais recente: " ++ not_found_message self)
            None))
  /\ delete_most_recent_file self None w
     = (mkWorld (fs w)
          (log w
           ++ [(ERROR, ("Nenhum arquivo encontrado com o prefixo: "
                        ++ prefix self)%string);
               (ERROR, ("Erro ao remover arquivo: "
                        ++ not_found_message self)%string)]),
        inr false).
Proof.
  intros G.
  assert (F : _find_most_recent_file self w
              = (mkWorld (fs w)
                   (log w ++ [(ERROR, ("Nenhum arquivo encontrado com o prefixo: "
                                       ++ prefix self)%string)]),
                 inl (Exn FileNotFoundError (not_found_message self)))).
  { rewrite find_by_listed. unfold listed. rewrite G. reflexivity. }
  split.
  - unfold process_most_recent_file. rewrite try_except_bind, F.
    unfold bind, logger, ret. cbn [fs log str_exn exn_msg].
    rewrite <- app_assoc. reflexivity.
  - unfold delete_most_recent_file. rewrite try_except_bind, F.
    unfold bind, logger, ret. cbn [fs log str_exn exn_msg].
    rewrite <- app_assoc. reflexivity.
Qed.

(* ------------------------------------------------------------------ *)
(** ** Further properties: what a successful extraction tells *)
(* ------------------------------------------------------------------ *)

Lemma check_pair_all :
  forallb (fun m => forallb (check_pair m) (seq 0 10)) (seq 0 10) = true.
Proof. vm_compute. reflexivity. Qed.

Lemma is_digit_offset (c : ascii) :
  is_digit c = true -> exists n, (n < 10)%nat /\ c = ascii_of_nat (48 + n).
Proof.
  unfold is_digit. intros H. apply andb_prop in H. destruct H as [L U].
  apply Nat.leb_le in L. apply Nat.leb_le in U.
  exists (nat_of_ascii c - 48)%nat. split; [lia|].
  replace (48 + (nat_of_ascii c - 48))%nat with (nat_of_ascii c) by lia.
  symmetry. apply ascii_nat_embedding.
Qed.

Lemma read_two_digits (a b : ascii) :
  is_digit a = true -> is_digit b = true ->
  digit_char (two a b / 10) = a /\ digit_char (two a b) = b
  /\ (two a b < 100)%nat.
Proof.
  intros Ha Hb.
  destruct (is_digit_offset a Ha) as (m & Lm & ->).
  destruct (is_digit_offset b Hb) as (n & Ln & ->).
  pose proof check_pair_all as A. rewrite forallb_forall in A.
  pose proof (A m ltac:(apply in_seq; lia)) as B. rewrite forallb_forall in B.
  pose proof (B n ltac:(apply in_seq; lia)) as C. unfold check_pair in C.
  apply andb_prop in C. destruct C as [C C3].
  apply andb_prop in C. destruct C as [C1 C2].
  apply Ascii.eqb_eq in C1. apply Ascii.eqb_eq in C2. apply Nat.ltb_lt in C3.
  auto.
Qed.

Lemma re_search_some (l tok : list ascii) :
  re_search l = Some tok ->
  exists pre rest,
    l = (pre ++ rest)%list
    /\ match_token rest = Some tok
    /\ forall k, (k < length pre)%nat -> match_token (skipn k l) = None.
Proof.
  induction l as [|c l IH]; intros H.
  - simpl in H. discriminate.
  - rewrite re_search_cons in H.
    destruct (match_token (c :: l)) as [t|] eqn:E.
    + exists [], (c :: l). injection H as <-.
      split; [reflexivity|]. split; [exact E|]. intros k Hk. simpl in Hk. lia.
    + destruct (IH H) as (pre & rest & -> & Mt & First).
      exists (c :: pre), rest. split; [reflexivity|]. split; [exact Mt|].
      intros [|k] Hk; [exact E|]. apply First. simpl in Hk. lia.
Qed.

(** A token found by [match_token] that [strptime] accepts is the
    [%d%m%y_%H%M] text of the time stamp that [strptime] returns. *)
Lemma token_of_stamp (rest tok : list ascii) (t : datetime) :
  match_token rest = Some tok ->
  strptime tok = inr t ->
  valid_stamp t /\ second t = 0%nat
  /\ tok = list_ascii_of_string (DATETIME_FORMAT t)
  /\ exists post, rest = (tok ++ post)%list.
Proof.
  intros Mt St. unfold match_token in Mt.
  destruct rest as [|d1 [|d2 [|d3 [|d4 [|d5 [|d6 [|u [|h1 [|h2 [|m1 [|m2 post]]]]]]]]]]];
    try discriminate.
  destruct (forallb is_digit [d1; d2; d3; d4; d5; d6; h1; h2; m1; m2]
            && Ascii.eqb u "_") eqn:C; [|discriminate].
  injection Mt as <-.
  apply andb_prop in C. destruct C as [Dg U]. apply Ascii.eqb_eq in U. subst u.
  cbn [forallb] in Dg.
  repeat (apply andb_prop in Dg; let X := fresh "D" in destruct Dg as [X Dg]).
  destruct (read_two_digits d1 d2) as (a1 & a2 & a3); [assumption..|].
  destruct (read_two_digits d3 d4) as (b1 & b2 & b3); [assumption..|].
  destruct (read_two_digits d5 d6) as (c1 & c2 & c3); [assumption..|].
  destruct (read_two_digits h1 h2) as (e1 & e2 & e3); [assumption..|].
  destruct (read_two_digits m1 m2) as (f1 & f2 & f3); [assumption..|].
  cbv beta iota zeta delta [strptime] in St.
  set (d := two d1 d2) in *. set (m := two d3 d4) in *.
  set (yy := two d5 d6) in *. set (h := two h1 h2) in *.
  set (n := two m1 m2) in *.
  set (y := (if yy <=? 68 then 2000 + yy else 1900 + yy)%nat) in *.
  assert (Y : (y mod 100 = yy /\ 1969 <= y <= 2068)%nat).
  { subst y. destruct (Nat.leb_spec yy 68) as [Le|Gt].
    - split; [|lia].
      replace (2000 + yy)%nat with (yy + 20 * 100)%nat by lia.
      rewrite Nat.Div0.mod_add. apply Nat.mod_small. lia.
    - split; [|lia].
      replace (1900 + yy)%nat with (yy + 19 * 100)%nat by lia.
      rewrite Nat.Div0.mod_add. apply Nat.mod_small. lia. }
  destruct Y as [Ym Yr]. clearbody y.
  destruct ((1 <=? d) && (d <=? 31) && (1 <=? m) && (m <=? 12)
            && (h <=? 23) && (n <=? 59))%nat eqn:R; [|discriminate].
  destruct (d <=? days_in_month y m)%nat eqn:Dm; [|discriminate].
  injection St as <-.
  repeat (apply andb_prop in R; let X := fresh "R" in destruct R as [R X]).
  rewrite ?Nat.leb_le in *.
  split; [|split; [reflexivity|split]].
  - unfold valid_stamp. cbn [year month day hour minute]. lia.
  - rewrite token_chars. cbn [year month day hour minute]. rewrite Ym.
    rewrite a1, a2, b1, b2, c1, c2, e1, e2, f1, f2. reflexivity.
  - exists post. reflexivity.
Qed.

(** X8.  Whenever [_extract_datetime_from_filename] returns, it logged
    nothing, and the pair it returns shows a calendar time stamp of
    the years 1969 to 2068 whose [%d%m%y_%H%M] text is the first token
    of the stem; the second string is the first one followed by a
    blank and [HH:MM]. *)
Theorem extract_returns_a_stamp_of_the_stem
    (p : Path) (w w' : World) (r : string * string) :
  _extract_datetime_from_filename p w = (w', inr r) ->
  w' = w
  /\ exists (t : datetime) (pre post : list ascii),
      valid_stamp t
      /\ list_ascii_of_string (stem p)
         = (pre ++ list_ascii_of_string (DATETIME_FORMAT t) ++ post)%list
      /\ (forall k, (k < length pre)%nat ->
                    match_token (skipn k (list_ascii_of_string (stem p))) = None)
      /\ r = (DISPLAY_DATE_FORMAT t, DISPLAY_DATETIME_FORMAT t)
      /\ snd r = fst r ++ " " ++ pad2 (hour t) ++ ":" ++ pad2 (minute t).
Proof.
  intros H.
  destruct (extract_body p) as [e|r0] eqn:X.
  - rewrite (extract_raises p w e X) in H. discriminate.
  - rewrite (extract_ok p w r0 X) in H. injection H as <- <-.
    split; [reflexivity|].
    unfold extract_body in X.
    destruct (re_search (list_ascii_of_string (stem p))) as [tok|] eqn:S;
      [|discriminate].
    destruct (strptime tok) as [e|t] eqn:St; [discriminate|].
    injection X as <-.
    destruct (re_search_some _ _ S) as (pre & rest & E & Mt & First).
    destruct (token_of_stamp rest tok t Mt St) as (V & _ & Tk & post & ->).
    exists t, pre, post. rewrite <- Tk.
    split; [exact V|]. split; [exact E|]. split; [exact First|].
    split; reflexivity.
Qed.

(* ------------------------------------------------------------------ *)
(** ** Further properties: the shape of the normalised table *)
(* ------------------------------------------------------------------ *)

Lemma has_column_in (df : DataFrame) (c : string) :
  has_column df c = true <-> In c (labels df).
Proof.
  unfold has_column. rewrite existsb_exists. split.
  - intros (x & I & E). apply String.eqb_eq in E. subst x. exact I.
  - intros I. exists c. split; [exact I | apply String.eqb_refl].
Qed.

Lemma insert_inv (loc : nat) (column value : string) (df df' : DataFrame) :
  insert loc column value df = inr df' ->
  has_column df column = false
  /\ df' = mkDataFrame (nrows df)
             (firstn loc (columns df)
              ++ [(column, ObjectArray (repeat (PyStr value) (nrows df)))]
              ++ skipn loc (columns df))%list.
Proof.
  unfold insert. destruct (has_column df column); [discriminate|].
  intros H. injection H as <-. split; reflexivity.
Qed.

Lemma insert_refused (loc : nat) (column value : string) (df : DataFrame) :
  has_column df column = true ->
  insert loc column value df
  = inl (Exn ValueError ("cannot insert " ++ column ++ ", already exists")).
Proof. unfold insert. intros ->. reflexivity. Qed.

Lemma get_columns_insert_self (loc : nat) (column value : string)
    (df df' : DataFrame) :
  insert loc column value df = inr df' ->
  get_columns df' column = [ObjectArray (repeat (PyStr value) (nrows df))].
Proof.
  intros H. apply insert_inv in H. destruct H as [A ->].
  pose proof (get_columns_absent df column A) as G.
  unfold get_columns in *. cbn [columns].
  rewrite <- (firstn_skipn loc (columns df)), filter_app, map_app in G.
  apply app_eq_nil in G. destruct G as [G1 G2].
  rewrite !filter_app, !map_app, G1, G2. cbn [filter fst].
  rewrite String.eqb_refl. reflexivity.
Qed.

Lemma process_date_columns_fs (cols : list string) (df df' : DataFrame)
    (w w' : World) :
  process_date_columns cols df w = (w', inr df') -> fs w' = fs w.
Proof.
  revert df w. induction cols as [|c cols IH]; intros df w H.
  - simpl in H. unfold ret in H. injection H as <- <-. reflexivity.
  - simpl in H. unfold bind in H.
    destruct (process_date_column df c w) as [w1 [e|df1]] eqn:E.
    + destruct (process_date_column_returns df c w) as (? & ? & X). congruence.
    + rewrite (IH df1 w1 H).
      unfold process_date_column in E. destruct (has_column df c).
      * destruct (convert_date_column df c) as [d [x|]];
          unfold bind, logger, ret in E; injection E as <- _; reflexivity.
      * unfold ret in E. injection E as <- _. reflexivity.
Qed.

(** X9.  In a successful run over a table with distinct labels the
    labels of the returned table are [dt_carga], [dthr_carga] and then
    the labels of the sheet, renamed, in their order: no step adds,
    drops or moves another column; the file system is untouched. *)
Theorem normalized_table_shape
    (raw : DataFrame) (p : Path) (w w' : World) (df' : DataFrame) :
  NoDup (labels (rename COLUMN_MAPPING raw)) ->
  _process_dataframe raw p w = (w', inr df') ->
  labels df'
  = "dt_carga" :: "dthr_carga"
    :: map (rename_label COLUMN_MAPPING) (labels raw)
  /\ fs w' = fs w.
Proof.
  intros _ Hrun. apply process_dataframe_steps in Hrun.
  destruct Hrun as (pair & df1 & df2 & df3 & df4 & _ & I0 & I1 & D & I & ->).
  apply insert_inv in I0. destruct I0 as [_ ->].
  apply insert_inv in I1. destruct I1 as [_ ->].
  split; [|exact (process_date_columns_fs _ _ _ _ _ D)].
  rewrite labels_normalize_text, labels_cleanup.
  rewrite (process_id_columns_labels _ _ _ I).
  rewrite (process_date_columns_labels _ _ _ _ _ D).
  unfold labels, rename. cbn [columns nrows firstn skipn app map fst].
  rewrite !map_map. reflexivity.
Qed.

Lemma extract_body_display (p : Path) (r : string * string) :
  extract_body p = inr r ->
  exists t, r = (DISPLAY_DATE_FORMAT t, DISPLAY_DATETIME_FORMAT t).
Proof.
  unfold extract_body.
  destruct (re_search (list_ascii_of_string (stem p))); [|discriminate].
  destruct (strptime l) as [e|t]; [discriminate|].
  intros H. injection H as <-. exists t. reflexivity.
Qed.

Lemma display_not_sentinel (t : datetime) :
  is_sentinel (DISPLAY_DATE_FORMAT t) = false
  /\ is_sentinel (DISPLAY_DATETIME_FORMAT t) = false.
Proof.
  split.
  - destruct (is_sentinel (DISPLAY_DATE_FORMAT t)) eqn:E; [|reflexivity].
    apply sentinel_short in E. simpl in E. lia.
  - destruct (is_sentinel (DISPLAY_DATETIME_FORMAT t)) eqn:E; [|reflexivity].
    apply sentinel_short in E. simpl in E. lia.
Qed.

Lemma final_constant_text (s : string) (n : nat) :
  is_sentinel s = false ->
  normalize_text_array (cleanup_array (ObjectArray (repeat (PyStr s) n)))
  = ObjectArray (repeat (PyStr s) n).
Proof.
  intros S. unfold normalize_text_array, cleanup_array. cbn [is_object].
  unfold astype_str, replace_scalar. cbn [cells_of]. rewrite !map_map. f_equal.
  induction n as [|n IH]; [reflexivity|].
  cbn [repeat map cleanup_cell]. rewrite S. cbn [str_cell].
  rewrite (not_sentinel_not_None _ S), IH. reflexivity.
Qed.

(** X10.  In a successful run over a table with distinct labels the
    two leading columns hold, in every row, the two strings that
    [_extract_datetime_from_filename] gives for the path: the table
    records the time stamp of its file in each row. *)
Theorem load_columns_repeat_the_stamp
    (raw : DataFrame) (p : Path) (w w' : World) (df' : DataFrame) :
  NoDup (labels (rename COLUMN_MAPPING raw)) ->
  _process_dataframe raw p w = (w', inr df') ->
  exists dt_carga dthr_carga,
    _extract_datetime_from_filename p w = (w, inr (dt_carga, dthr_carga))
    /\ get_columns df' "dt_carga"
       = [ObjectArray (repeat (PyStr dt_carga) (nrows raw))]
    /\ get_columns df' "dthr_carga"
       = [ObjectArray (repeat (PyStr dthr_carga) (nrows raw))].
Proof.
  intros _ Hrun. apply process_dataframe_steps in Hrun.
  destruct Hrun as (pair & df1 & df2 & df3 & df4 & X & I0 & I1 & D & I & ->).
  destruct (extract_body_display p pair X) as (t & ->).
  destruct (display_not_sentinel t) as [S1 S2].
  exists (DISPLAY_DATE_FORMAT t), (DISPLAY_DATETIME_FORMAT t).
  split; [apply extract_ok; exact X|].
  cbn [fst snd] in *.
  assert (N1 : nrows df1 = nrows raw).
  { apply insert_inv in I0. destruct I0 as [_ ->]. reflexivity. }
  split.
  - rewrite get_columns_normalize_text, get_columns_cleanup.
    rewrite (process_id_columns_other id_cols df3 df4 "dt_carga" I)
      by (simpl; intros [Y|[Y|[Y|[]]]]; discriminate).
    rewrite (process_date_columns_other _ _ _ _ _ "dt_carga" D)
      by (simpl; intros [Y|[Y|[Y|[]]]]; discriminate).
    rewrite (get_columns_insert _ _ _ _ _ "dt_carga" I1) by discriminate.
    rewrite (get_columns_insert_self _ _ _ _ _ I0). cbn [map nrows rename].
    rewrite (final_constant_text _ _ S1). reflexivity.
  - rewrite get_columns_normalize_text, get_columns_cleanup.
    rewrite (process_id_columns_other id_cols df3 df4 "dthr_carga" I)
      by (simpl; intros [Y|[Y|[Y|[]]]]; discriminate).
    rewrite (process_date_columns_other _ _ _ _ _ "dthr_carga" D)
      by (simpl; intros [Y|[Y|[Y|[]]]]; discriminate).
    rewrite (get_columns_insert_self _ _ _ _ _ I1). cbn [map]. rewrite N1.
    rewrite (final_constant_text _ _ S2). reflexivity.
Qed.

(* ------------------------------------------------------------------ *)
(** ** Further properties: what aborts a load *)
(* ------------------------------------------------------------------ *)

Lemma load_when_processing_raises (p : Path) (w w1 w2 : World)
    (raw : DataFrame) (e : exn) :
  read_excel p w = (w1, inr raw) ->
  _process_dataframe raw p w1 = (w2, inl e) ->
  _load_to_dataframe p w
  = (w2, inr (mkResult false ("Erro ao processar arquivo: " ++ str_exn e) None)).
Proof.
  intros R P. unfold _load_to_dataframe. rewrite try_except_bind, R.
  rewrite try_except_bind, P. reflexivity.
Qed.

(** X11.  A sheet that already has a column called [dt_carga] or
    [dthr_carga] (after renaming) cannot be loaded: [df.insert]
    refuses the label, and [_load_to_dataframe] returns the failure
    result with the message of that [ValueError]. *)
Theorem reserved_label_aborts_the_load
    (p : Path) (w w1 : World) (raw : DataFrame) (pair : string * string)
    (lbl : string) :
  read_excel p w = (w1, inr raw) ->
  extract_body p = inr pair ->
  In lbl ["dt_carga"; "dthr_carga"] ->
  has_column (rename COLUMN_MAPPING raw) lbl = true ->
  exists c,
    In c ["dt_carga"; "dthr_carga"]
    /\ _process_dataframe raw p w1
       = (w1, inl (Exn ValueError ("cannot insert " ++ c ++ ", already exists")))
    /\ _load_to_dataframe p w
       = (w1, inr (mkResult false
                     ("Erro ao processar arquivo: "
                      ++ "cannot insert " ++ c ++ ", already exists") None)).
Proof.
  intros R X L H.
  assert (P : exists c,
             In c ["dt_carga"; "dthr_carga"]
             /\ _process_dataframe raw p w1
                = (w1, inl (Exn ValueError
                              ("cannot insert " ++ c ++ ", already exists")))).
  { unfold _process_dataframe, bind. rewrite (extract_ok p w1 pair X). unfold lift.
    destruct (has_column (rename COLUMN_MAPPING raw) "dt_carga") eqn:H0.
    - exists "dt_carga". split; [left; reflexivity|].
      rewrite (insert_refused _ _ _ _ H0). reflexivity.
    - destruct L as [<-|[<-|[]]]; [congruence|].
      destruct (insert 0 "dt_carga" (fst pair) (rename COLUMN_MAPPING raw))
        as [e|df1] eqn:I0.
      + unfold insert in I0. rewrite H0 in I0. discriminate.
      + exists "dthr_carga". split; [right; left; reflexivity|].
        assert (H1 : has_column df1 "dthr_carga" = true).
        { apply has_column_in. apply (labels_insert _ _ _ _ _ _ I0).
          apply has_column_in. exact H. }
        rewrite (insert_refused _ _ _ _ H1). reflexivity. }
  destruct P as (c & Ic & P). exists c. split; [exact Ic|]. split; [exact P|].
  apply (load_when_processing_raises p w w1 w1 raw _ R P).
Qed.

(** X12.  A sheet is not loaded when its file name carries no usable
    time stamp, even though it was read: the error of the extraction
    is logged and [_load_to_dataframe] returns the failure result with
    its message. *)
Theorem unreadable_name_aborts_the_load
    (p : Path) (w w1 : World) (raw : DataFrame) (e : exn) :
  read_excel p w = (w1, inr raw) ->
  extract_body p = inl e ->
  _load_to_dataframe p w
  = (mkWorld (fs w1) (log w1 ++ [(ERROR, "Erro na extração: " ++ str_exn e)]),
     inr (mkResult false ("Erro ao processar arquivo: " ++ str_exn e) None)).
Proof.
  intros R X.
  apply (load_when_processing_raises p w w1 _ raw e R).
  unfold _process_dataframe, bind. rewrite (extract_raises p w1 e X). reflexivity.
Qed.

Lemma unsafe_float_raises (l : list (option Q)) :
  forallb safe_float l = false ->
  normalize_id (Float64Array l)
  = inl (Exn TypeError "cannot safely cast non-equivalent float64 to int64").
Proof.
  intros H. unfold normalize_id. cbn [fillna0 astype_Int64].
  assert (S : forallb safe_float
                (map (fun o => match o with
                               | Some q => Some q
                               | None => Some (0 # 1)
                               end) l) = false).
  { induction l as [|[q|] l IH]; [discriminate| |].
    - cbn [map forallb] in *. destruct (safe_float (Some q)); [|reflexivity].
      cbn [andb] in *. apply IH. exact H.
    - cbn [map forallb] in *.
      replace (safe_float None) with true in H by reflexivity.
      replace (safe_float (Some (0 # 1))) with true by reflexivity.
      cbn [andb] in *. apply IH. exact H. }
  rewrite S. reflexivity.
Qed.

(** X13.  The identifier loop is not fail-soft: when the coercion of
    an identifier column raises, as it does for a float column with a
    value that is no integer, [_process_dataframe] raises and
    [_load_to_dataframe] returns a failure result without a table. *)
Theorem bad_identifier_aborts_the_load
    (p : Path) (w w1 : World) (raw : DataFrame) (col : string) (a : array)
    (e0 : exn) :
  NoDup (labels (rename COLUMN_MAPPING raw)) ->
  In col id_cols ->
  In (col, a) (columns (rename COLUMN_MAPPING raw)) ->
  normalize_id a = inl e0 ->
  read_excel p w = (w1, inr raw) ->
  (exists w2 e, _process_dataframe raw p w1 = (w2, inl e))
  /\ (exists w2 msg, _load_to_dataframe p w = (w2, inr (mkResult false msg None)))
  /\ (forall l, forallb safe_float l = false ->
                exists e, normalize_id (Float64Array l) = inl e).
Proof.
  intros ND Hid Hin Hn R.
  assert (P : exists w2 e, _process_dataframe raw p w1 = (w2, inl e)).
  { destruct (_process_dataframe raw p w1) as [w2 [e|df']] eqn:Hrun;
      [exists w2, e; reflexivity|].
    exfalso. apply process_dataframe_steps in Hrun.
    destruct Hrun as (pair & df1 & df2 & df3 & df4 & _ & I0 & I1 & D & I & _).
    assert (G0 : get_columns (rename COLUMN_MAPPING raw) col = [a]).
    { pose proof (get_columns_unique (columns (rename COLUMN_MAPPING raw))
                    (nrows (rename COLUMN_MAPPING raw)) col a ND Hin) as G.
      destruct (rename COLUMN_MAPPING raw). exact G. }
    assert (Ncol : col <> "dt_carga" /\ col <> "dthr_carga"
                   /\ ~ In col DATE_COLUMNS).
    { simpl in Hid. destruct Hid as [<-|[<-|[<-|[]]]];
        (split; [discriminate|split; [discriminate|]]);
        simpl; intros [Y|[Y|[Y|[]]]]; discriminate. }
    destruct Ncol as (N0 & N1 & Nd).
    assert (G3 : get_columns df3 col = [a]).
    { rewrite (process_date_columns_other _ _ _ _ _ col D Nd).
      rewrite (get_columns_insert _ _ _ _ _ col I1 N1).
      rewrite (get_columns_insert _ _ _ _ _ col I0 N0). exact G0. }
    assert (NDid : NoDup id_cols) by solve_nodup.
    pose proof (process_id_columns_self id_cols df3 df4 col NDid Hid I) as T.
    rewrite G3 in T. cbn [traverse] in T. rewrite Hn in T. discriminate. }
  split; [exact P|]. split.
  - destruct P as (w2 & e & P). exists w2. eexists.
    apply (load_when_processing_raises p w w1 w2 raw e R P).
  - intros l H. eexists. apply unsafe_float_raises. exact H.
Qed.

(* ------------------------------------------------------------------ *)
(** ** Further properties: columns the steps leave alone *)
(* ------------------------------------------------------------------ *)

Lemma no_missing_integers (l : list Z) : existsb isna (map PyInt l) = false.
Proof. induction l as [|z l IH]; [reflexivity | exact IH]. Qed.

Lemma no_missing_booleans (l : list bool) : existsb isna (map PyBool l) = false.
Proof. induction l as [|b l IH]; [reflexivity | exact IH]. Qed.

(** X14.  In a successful run over a table with distinct labels, a
    column that is neither a date column nor an identifier column
    goes through the cleanup pass and the text step only; an [int64]
    or [bool] column among them is returned exactly as it was read. *)
Theorem other_columns_pass_through
    (raw : DataFrame) (p : Path) (w w' : World) (df' : DataFrame)
    (lbl : string) (a : array) :
  NoDup (labels (rename COLUMN_MAPPING raw)) ->
  In (lbl, a) (columns (rename COLUMN_MAPPING raw)) ->
  ~ In lbl DATE_COLUMNS ->
  ~ In lbl id_cols ->
  _process_dataframe raw p w = (w', inr df') ->
  get_columns df' lbl = [normalize_text_array (cleanup_array a)]
  /\ (forall l, a = Int64Array l -> get_columns df' lbl = [a])
  /\ (forall l, a = BoolArray l -> get_columns df' lbl = [a]).
Proof.
  intros ND Hin Nd Ni Hrun.
  apply process_dataframe_steps in Hrun.
  destruct Hrun as (pair & df1 & df2 & df3 & df4 & _ & I0 & I1 & D & I & ->).
  assert (G0 : get_columns (rename COLUMN_MAPPING raw) lbl = [a]).
  { pose proof (get_columns_unique (columns (rename COLUMN_MAPPING raw))
                  (nrows (rename COLUMN_MAPPING raw)) lbl a ND Hin) as G.
    destruct (rename COLUMN_MAPPING raw). exact G. }
  assert (N0 : lbl <> "dt_carga").
  { intros ->. destruct (insert_inv _ _ _ _ _ I0) as [A _].
    rewrite (has_column_get _ _ _ _ G0) in A. discriminate. }
  assert (G1 : get_columns df1 lbl = [a]).
  { rewrite (get_columns_insert _ _ _ _ _ lbl I0 N0). exact G0. }
  assert (N1 : lbl <> "dthr_carga").
  { intros ->. destruct (insert_inv _ _ _ _ _ I1) as [A _].
    rewrite (has_column_get _ _ _ _ G1) in A. discriminate. }
  assert (G : get_columns (normalize_text (cleanup df4)) lbl
              = [normalize_text_array (cleanup_array a)]).
  { rewrite get_columns_normalize_text, get_columns_cleanup.
    rewrite (process_id_columns_other id_cols df3 df4 lbl I Ni).
    rewrite (process_date_columns_other _ _ _ _ _ lbl D Nd).
    rewrite (get_columns_insert _ _ _ _ _ lbl I1 N1), G1. reflexivity. }
  split; [exact G|]. split; intros l ->; rewrite G.
  - unfold cleanup_array. cbn [cells_of]. rewrite no_missing_integers, andb_false_r.
    reflexivity.
  - unfold cleanup_array. cbn [cells_of]. rewrite no_missing_booleans, andb_false_r.
    reflexivity.
Qed.

Lemma normalize_text_array_idem (a : array) :
  normalize_text_array (normalize_text_array a) = normalize_text_array a.
Proof.
  destruct a as [l|l|l|l|l|l]; try reflexivity.
  unfold normalize_text_array. cbn [is_object].
  rewrite replace_None_astype_str. cbn [is_object].
  rewrite replace_None_astype_str, map_map. f_equal. apply map_ext. intros c.
  destruct (String.eqb (str_cell c) "None") eqn:E; [reflexivity|].
  cbn [str_cell]. rewrite E. reflexivity.
Qed.

(** X15.  The text step is idempotent: on every table, applying
    [df[text_cols] = df[text_cols].astype(str).replace("None", None)]
    a second time changes nothing. *)
Theorem normalize_text_idempotent (df : DataFrame) :
  normalize_text (normalize_text df) = normalize_text df.
Proof.
  unfold normalize_text. cbn [nrows columns]. rewrite map_map. f_equal.
  apply map_ext. intros c. cbn [fst snd]. now rewrite normalize_text_array_idem.
Qed.

(* ------------------------------------------------------------------ *)
(** ** Further properties: the mapping of the labels *)
(* ------------------------------------------------------------------ *)

Lemma mapping_values_are_not_keys :
  forallb (fun kv => String.eqb (rename_label COLUMN_MAPPING (snd kv)) (snd kv))
    COLUMN_MAPPING = true.
Proof. vm_compute. reflexivity. Qed.

Lemma rename_label_value (l : string) :
  In (rename_label COLUMN_MAPPING l) (map snd COLUMN_MAPPING)
  \/ rename_label COLUMN_MAPPING l = l.
Proof.
  unfold rename_label.
  destruct (find (fun kv => String.eqb (fst kv) l) COLUMN_MAPPING) as [kv|] eqn:F;
    [|right; reflexivity].
  left. apply find_some in F. destruct F as [I _]. apply in_map. exact I.
Qed.

Lemma rename_label_idem (l : string) :
  rename_label COLUMN_MAPPING (rename_label COLUMN_MAPPING l)
  = rename_label COLUMN_MAPPING l.
Proof.
  unfold rename_label at 2 3.
  destruct (find (fun kv => String.eqb (fst kv) l) COLUMN_MAPPING) as [kv|] eqn:F.
  - apply find_some in F. destruct F as [I _].
    pose proof mapping_values_are_not_keys as A. rewrite forallb_forall in A.
    apply String.eqb_eq. apply (A kv I).
  - unfold rename_label. rewrite F. reflexivity.
Qed.

(** X16.  Renaming is idempotent: no canonical name is itself a
    source name of [COLUMN_MAPPING], so renaming a renamed table
    changes nothing. *)
Theorem rename_idempotent (df : DataFrame) :
  rename COLUMN_MAPPING (rename COLUMN_MAPPING df) = rename COLUMN_MAPPING df.
Proof.
  unfold rename. cbn [nrows columns]. rewrite map_map. f_equal.
  apply map_ext. intros c. cbn [fst snd]. now rewrite rename_label_idem.
Qed.

Lemma mapping_values_distinct : NoDup (map snd COLUMN_MAPPING).
Proof. vm_compute. solve_nodup. Qed.

Lemma same_value_same_key (mapping : list (string * string)) (k1 k2 v : string) :
  NoDup (map snd mapping) ->
  In (k1, v) mapping -> In (k2, v) mapping -> k1 = k2.
Proof.
  induction mapping as [|kv mapping IH]; intros ND I1 I2; [destruct I1|].
  inversion ND as [|? ? Nin ND']; subst.
  destruct I1 as [->|I1], I2 as [E|I2].
  - congruence.
  - exfalso. apply Nin. cbn [snd].
    change v with (snd (k2, v)). apply in_map. exact I2.
  - exfalso. apply Nin. rewrite E. cbn [snd].
    change v with (snd (k1, v)). apply in_map. exact I1.
  - apply IH; assumption.
Qed.

Lemma rename_label_injective (l1 l2 : string) :
  ~ In l1 (map snd COLUMN_MAPPING) ->
  ~ In l2 (map snd COLUMN_MAPPING) ->
  rename_label COLUMN_MAPPING l1 = rename_label COLUMN_MAPPING l2 ->
  l1 = l2.
Proof.
  intros N1 N2 E.
  pose proof (rename_label_value l1) as V1.
  pose proof (rename_label_value l2) as V2.
  unfold rename_label in *.
  destruct (find (fun kv => String.eqb (fst kv) l1) COLUMN_MAPPING)
    as [[k1 v1]|] eqn:F1;
    destruct (find (fun kv => String.eqb (fst kv) l2) COLUMN_MAPPING)
      as [[k2 v2]|] eqn:F2; cbn [fst snd] in *.
  - apply find_some in F1. apply find_some in F2.
    destruct F1 as [I1 E1], F2 as [I2 E2]. cbn [fst] in *.
    apply String.eqb_eq in E1. apply String.eqb_eq in E2. subst k1 k2 v2.
    apply (same_value_same_key COLUMN_MAPPING l1 l2 v1
             mapping_values_distinct I1 I2).
  - subst l2. destruct V1 as [V1|V1]; [contradiction|].
    apply find_some in F1. destruct F1 as [I1 _]. exfalso. apply N2.
    change v1 with (snd (k1, v1)). apply in_map. exact I1.
  - subst l1. destruct V2 as [V2|V2]; [contradiction|].
    apply find_some in F2. destruct F2 as [I2 _]. exfalso. apply N1.
    change v2 with (snd (k2, v2)). apply in_map. exact I2.
  - exact E.
Qed.

(** X17.  Renaming keeps labels distinct when the sheet has no label
    that is already a canonical name: two source names never share
    their canonical name, so labels can only collide with a canonical
    name that the sheet brings itself. *)
Theorem rename_keeps_labels_distinct (df : DataFrame) :
  NoDup (labels df) ->
  (forall l, In l (labels df) -> ~ In l (map snd COLUMN_MAPPING)) ->
  NoDup (labels (rename COLUMN_MAPPING df)).
Proof.
  unfold labels, rename. cbn [columns]. rewrite map_map.
  change (fun x : string * array => fst (rename_label COLUMN_MAPPING (fst x), snd x))
    with (fun x : string * array => rename_label COLUMN_MAPPING (fst x)).
  rewrite <- (map_map fst (rename_label COLUMN_MAPPING)).
  induction (map fst (columns df)) as [|l ls IH]; intros ND H; [constructor|].
  inversion ND as [|? ? Nin ND']; subst. cbn [map]. constructor.
  - intros I. apply in_map_iff in I. destruct I as (l' & E & I').
    apply Nin. 
    rewrite (rename_label_injective l l'); [exact I'| | |congruence].
    + apply H. left. reflexivity.
    + apply H. right. exact I'.
  - apply IH; [exact ND'|]. intros l' I'. apply H. right. exact I'.
Qed.

(* ------------------------------------------------------------------ *)
(** ** Further properties: the operations composed *)
(* ------------------------------------------------------------------ *)

Lemma load_inert_under_try (p : Path) (h : exn -> M FileProcessingResult)
    (w : World) :
  try_except (_load_to_dataframe p) h w = _load_to_dataframe p w.
Proof.
  unfold try_except at 1.
  destruct (load_returns p w) as (w' & r & E & _). rewrite E. reflexivity.
Qed.

(** X18.  With a path given, [process_most_recent_file] is
    [_load_to_dataframe] on that path after one log line: the
    directory is not searched, so its content does not matter.  With
    no path given and a search that returns [p], it is the same as
    with [p] given. *)
Theorem process_is_load_on_the_resolved_path
    (self : ExcelFileHandler) (p : Path) (w : World) :
  process_most_recent_file self (Some p) w
  = _load_to_dataframe p
      (mkWorld (fs w) (log w ++ [(INFO, "🎯 Alvo de processamento: " ++ name p)]))
  /\ (_find_most_recent_file self w = (w, inr p) ->
      process_most_recent_file self None w
      = process_most_recent_file self (Some p) w).
Proof.
  assert (E : forall q : Path,
             try_except
               (logger INFO ("🎯 Alvo de processamento: " ++ name q) ;;;
                _load_to_dataframe q)
               (fun e =>
                  logger ERROR ("Erro ao processar arquivo mais recente: "
                                ++ str_exn e) ;;;
                  ret (mkResult false
                         ("Erro ao processar arquivo mais recente: " ++ str_exn e)
                         None)) w
             = _load_to_dataframe q
                 (mkWorld (fs w)
                    (log w ++ [(INFO, "🎯 Alvo de processamento: " ++ name q)]))).
  { intros q. rewrite try_except_bind. unfold logger at 1.
    apply load_inert_under_try. }
  split.
  - unfold process_most_recent_file. rewrite try_except_bind. unfold ret at 1.
    apply E.
  - intros F. unfold process_most_recent_file.
    rewrite !try_except_bind, F. unfold ret at 2. reflexivity.
Qed.

(** X19.  After a deletion whose path was searched, the success line
    of the log reads [None] where the path is meant: the message
    formats the argument, not the path that was found. *)
Theorem searched_deletion_logs_none
    (self : ExcelFileHandler) (w : World) (p : Path) (n : node) :
  _find_most_recent_file self w = (w, inr p) ->
  lookup_path (fs w) p = Some n ->
  is_dir n = false ->
  delete_most_recent_file self None w
  = (mkWorld (filter (fun e => negb (path_eqb (fst e) p)) (fs w))
       (log w ++ [(INFO, "Arquivo removido com sucesso: None")]),
     inr true).
Proof.
  intros F L D. unfold delete_most_recent_file. rewrite try_except_bind, F.
  unfold try_except, bind.
  destruct (unlink_cases p w) as [(n' & _ & _ & U)|[N _]].
  - rewrite U. reflexivity.
  - rewrite (N n L) in D. discriminate.
Qed.

Section Renormalising.

Hypothesis float_str_not_sentinel : forall q, is_sentinel (float_str q) = false.

Lemma clean_cells_are_fixed (cells : list cell) :
  Forall is_clean cells ->
  cleanup_array (ObjectArray cells) = ObjectArray cells
  /\ normalize_text_array (ObjectArray cells) = ObjectArray cells.
Proof.
  intros F. unfold normalize_text_array. cbn [cleanup_array is_object].
  rewrite replace_None_astype_str.
  split; f_equal; rewrite <- (map_id cells) at 2; apply map_ext_in;
    intros c I; rewrite Forall_forall in F;
    destruct (F c I) as [->|(s & -> & S)]; try reflexivity.
  - cbn [cleanup_cell]. rewrite S. reflexivity.
  - cbn [str_cell]. rewrite (not_sentinel_not_None _ S). reflexivity.
Qed.

Lemma renormalise_array (a : array) :
  normalize_text_array (cleanup_array (normalize_text_array (cleanup_array a)))
  = normalize_text_array (cleanup_array a).
Proof using float_str_not_sentinel.
  destruct (cleanup_array_cases a) as [(l & ->)|[E O]].
  - destruct (normalize_cleaned_object float_str_not_sentinel l)
      as [_ (cells & -> & F)].
    destruct (clean_cells_are_fixed cells F) as [-> ->]. reflexivity.
  - rewrite E. unfold normalize_text_array at 2. rewrite O, E. reflexivity.
Qed.

(** X20.  Given that the text of a float is none of the four literals
    of the cleanup pass: the cleanup pass followed by the text step,
    applied to a table that already went through both, changes
    nothing. *)
Theorem cleanup_and_text_steps_idempotent (df : DataFrame) :
  normalize_text (cleanup (normalize_text (cleanup df)))
  = normalize_text (cleanup df).
Proof using float_str_not_sentinel.
  unfold normalize_text, cleanup. cbn [nrows columns]. rewrite !map_map.
  f_equal. apply map_ext. intros c. cbn [fst snd].
  now rewrite renormalise_array.
Qed.

End Renormalising.

End Handler.

(* ------------------------------------------------------------------ *)
(** ** Runs on concrete inputs *)
(* ------------------------------------------------------------------ *)

Lemma has_dot_not_sentinel (a b : string) : is_sentinel (a ++ "." ++ b) = false.
Proof.
  destruct (is_sentinel (a ++ "." ++ b)) eqn:E; [|reflexivity].
  assert (D : existsb (Ascii.eqb ".") (list_ascii_of_string (a ++ "." ++ b)) = true).
  { rewrite list_ascii_app, existsb_app. simpl. apply orb_true_r. }
  apply is_sentinel_cases in E.
  destruct E as [E|[E|[E|E]]]; rewrite E in D; discriminate.
Qed.

Lemma float_str_short_not_sentinel (q : Q) : is_sentinel (float_str_short q) = false.
Proof.
  unfold float_str_short.
  set (n := Qnum q * 10 / Z.pos (Qden q)).
  destruct (n <? 0).
  - replace ("-" ++ string_of_Z (Z.abs n / 10) ++ "." ++ string_of_Z (Z.abs n mod 10))
      with (("-" ++ string_of_Z (Z.abs n / 10)) ++ "." ++ string_of_Z (Z.abs n mod 10))
      by reflexivity.
    apply has_dot_not_sentinel.
  - apply (has_dot_not_sentinel (string_of_Z (Z.abs n / 10))).
Qed.

Example extract_example :
  extract_body ["downloads"; "CONSULTA_TLP_PCP_CS_040126_1212.xlsx"]
  = inr ("2026-01-04", "2026-01-04 12:12").
Proof. vm_compute. reflexivity. Qed.

Example extract_no_token :
  extract_body ["no_timestamp_here.xlsx"]
  = inl (Exn ValueError "Padrão de data não encontrado em: no_timestamp_here").
Proof. vm_compute. reflexivity. Qed.

(** The token is read in the stem only: one that sits in the suffix of
    the name is not seen, and one that is no calendar date is refused
    by [strptime]. *)
Lemma extract_fails_with_token_in_name :
  name ["report.040126_1212"]
  = "report." ++ DATETIME_FORMAT (mkDatetime 2026 1 4 12 12 0)
  /\ extract_body ["report.040126_1212"]
     = inl (Exn ValueError "Padrão de data não encontrado em: report")
  /\ match_token (list_ascii_of_string "310226_1212.xlsx")
     = Some (list_ascii_of_string "310226_1212")
  /\ exists m, extract_body ["CS_310226_1212.xlsx"] = inl (Exn ValueError m).
Proof.
  split; [vm_compute; reflexivity|]. split; [vm_compute; reflexivity|].
  split; [vm_compute; reflexivity|]. eexists. vm_compute. reflexivity.
Qed.

Lemma extract_load_timestamp_of_stem_witness :
  _extract_datetime_from_filename example_path (mkWorld [] [])
  = (mkWorld [] [], inr ("2026-01-04", "2026-01-04 12:12")).
Proof.
  apply (proj1 (extract_load_timestamp_of_stem example_path (mkWorld [] []))
           "CONSULTA_TLP_PCP_CS_" EmptyString (mkDatetime 2026 1 4 12 12 0)).
  - unfold valid_stamp. simpl. lia.
  - vm_compute. reflexivity.
  - intros k Hk.
    do 20 (destruct k as [|k]; [vm_compute; reflexivity|]).
    simpl in Hk. lia.
Defined.

Example find_most_recent_example :
  _find_most_recent_file no_bracket no_beyond (mkHandler ["downloads"] PREFIX)
    downloads_world
  = (downloads_world,
     inr ["downloads"; "CONSULTA_TLP_PCP_CS_040126_1212.xlsx"]).
Proof. vm_compute. reflexivity. Qed.

Lemma find_most_recent_is_latest_witness :
  exists before latest after,
    prefix_matches (mkHandler ["downloads"] PREFIX) downloads_world
    = (before ++ latest :: after)%list
    /\ _find_most_recent_file no_bracket no_beyond (mkHandler ["downloads"] PREFIX)
         downloads_world
       = (downloads_world, inr latest)
    /\ (forall x, In x before -> mtime downloads_world x < mtime downloads_world latest)
    /\ (forall x, In x after -> mtime downloads_world x <= mtime downloads_world latest).
Proof.
  apply (find_most_recent_is_latest no_bracket no_beyond
           (mkHandler ["downloads"] PREFIX) downloads_world).
  - reflexivity.
  - vm_compute. discriminate.
Defined.

(** The search follows the glob pattern [prefix*], not the names that
    start with the prefix.  With a separator in the prefix it goes
    into a subdirectory, and with a wildcard in the prefix it accepts
    names that do not start with the prefix: in both runs no entry of
    the directory has a name that starts with the prefix, and a path
    is returned. *)
Lemma search_follows_the_pattern_not_the_prefix :
  prefix_matches (mkHandler ["downloads"] "sub/CONSULTA") nested_world = []
  /\ _find_most_recent_file no_bracket no_beyond
       (mkHandler ["downloads"] "sub/CONSULTA") nested_world
     = (nested_world,
        inr ["downloads"; "sub"; "CONSULTA_TLP_PCP_CS_040126_1212.xlsx"])
  /\ prefix_matches (mkHandler ["downloads"] "CONS?LTA") downloads_world = []
  /\ _find_most_recent_file no_bracket no_beyond
       (mkHandler ["downloads"] "CONS?LTA") downloads_world
     = (downloads_world,
        inr ["downloads"; "CONSULTA_TLP_PCP_CS_040126_1212.xlsx"]).
Proof. repeat split; vm_compute; reflexivity. Qed.




Lemma date_columns_normalized_witness :
  get_columns date_example_normalized "data_criacao"
  = [ObjectArray (map iso_cell [Some (mkDatetime 2024 1 1 0 0 0); None; None])]
  /\ _process_dataframe to_datetime_iso float_str_short astype_Int64_refuse
       holds_NA_extension date_example example_path (mkWorld [] [])
     = (mkWorld [] [], inr date_example_normalized).
Proof.
  split.
  - apply (proj1 (proj2 (date_columns_normalized to_datetime_iso float_str_short
                           astype_Int64_refuse holds_NA_extension))
             date_example example_path (mkWorld [] []) (mkWorld [] [])
             date_example_normalized "data_criacao"
             (ObjectArray [PyStr "2024-01-01"; PyStr "not a date"; NaN])).
    + vm_compute. solve_nodup.
    + simpl. auto.
    + vm_compute. left. reflexivity.
    + vm_compute. reflexivity.
    + vm_compute. reflexivity.
  - apply (proj2 (proj2 (date_columns_normalized to_datetime_iso float_str_short
                           astype_Int64_refuse holds_NA_extension))).
    vm_compute. reflexivity.
Defined.

(** Text that parses, with two different UTC offsets: the run
    succeeds, and the cells of the date column come out as the text of
    [datetime] objects with their offsets, not in the canonical
    form. *)
Lemma parsed_dates_with_mixed_offsets_are_not_canonical :
  parse_iso "2020-10-25 02:00 +0200"
  = Some (mkDatetime 2020 10 25 2 0 0, Some 120)
  /\ parse_iso "2020-10-25 04:00 +0100"
     = Some (mkDatetime 2020 10 25 4 0 0, Some 60)
  /\ exists w' df',
      _process_dataframe to_datetime_iso float_str_short astype_Int64_refuse
        holds_NA_extension mixed_offsets example_path (mkWorld [] [])
      = (w', inr df')
      /\ get_columns df' "data_criacao"
         = [ObjectArray [PyStr "2020-10-25 02:00:00+02:00";
                         PyStr "2020-10-25 04:00:00+01:00"]]
      /\ get_columns df' "data_criacao"
         <> [ObjectArray (map iso_cell [Some (mkDatetime 2020 10 25 2 0 0);
                                        Some (mkDatetime 2020 10 25 4 0 0)])].
Proof.
  split; [vm_compute; reflexivity|]. split; [vm_compute; reflexivity|].
  eexists _, _. split; [vm_compute; reflexivity|].
  split; [vm_compute; reflexivity|]. vm_compute. discriminate.
Qed.

Lemma date_column_failure_is_contained_witness :
  exists df',
    process_date_column to_datetime_iso bool_dates "data_criacao" (mkWorld [] [])
    = (mkWorld []
         [date_warning "data_criacao"
            (Exn TypeError "<class 'bool'> is not convertible to datetime")],
       inr df')
    /\ df' = bool_dates.
Proof.
  destruct (date_column_failure_is_contained to_datetime_iso bool_dates
              "data_criacao" (mkWorld [] [])
              (Exn TypeError "<class 'bool'> is not convertible to datetime"))
    as (df' & R & _ & _ & U & _).
  - reflexivity.
  - reflexivity.
  - exists df'. split; [exact R|]. apply U.
    intros a a1 G. vm_compute in G. injection G as <-. vm_compute. discriminate.
Defined.

(** Text with two different UTC offsets: [pd.to_datetime] returns an
    object array of [datetime] objects, which the first assignment of
    the [try] block stores; the [.dt] accessor then raises.  The
    exception is caught and logged, and the column stays as the first
    assignment left it, not as it was. *)
Lemma date_column_modified_when_strftime_raises :
  exists df',
    has_column mixed_offsets "data_criacao" = true
    /\ snd (convert_date_column to_datetime_iso mixed_offsets "data_criacao")
       = Some (Exn AttributeError
                 "Can only use .dt accessor with datetimelike values")
    /\ snd (process_date_column to_datetime_iso mixed_offsets "data_criacao"
              (mkWorld [] []))
       = inr df'
    /\ get_columns df' "data_criacao"
       = [ObjectArray [PyDatetime (mkDatetime 2020 10 25 2 0 0) (Some 120);
                       PyDatetime (mkDatetime 2020 10 25 4 0 0) (Some 60)]]
    /\ get_columns df' "data_criacao" <> get_columns mixed_offsets "data_criacao".
Proof.
  eexists. split; [reflexivity|]. split; [reflexivity|].
  split; [vm_compute; reflexivity|]. split; [reflexivity|].
  vm_compute. discriminate.
Qed.

Lemma text_columns_hold_no_sentinel_witness :
  Forall is_clean [PyNone; PyStr "12"; PyNone].
Proof.
  apply (proj2 (text_columns_hold_no_sentinel to_datetime_iso float_str_short
                  astype_Int64_refuse holds_NA_extension
                  float_str_short_not_sentinel)
           text_example example_path (mkWorld [] []) (mkWorld [] [])
           text_example_normalized "bairro").
  - vm_compute. solve_nodup.
  - vm_compute. reflexivity.
  - simpl. auto 10.
Defined.

Lemma rename_is_partial_witness : In "Foo" (labels rename_example_normalized).
Proof.
  apply (proj1 (proj2 (proj2 (rename_is_partial to_datetime_iso float_str_short
                                astype_Int64_refuse holds_NA_extension)))
           rename_example example_path (mkWorld [] []) (mkWorld [] [])).
  - vm_compute. solve_nodup.
  - intros v H. simpl in H.
    repeat (destruct H as [H|H]; [discriminate|]). exact H.
  - simpl. auto.
  - vm_compute. reflexivity.
Defined.

(* ------------------------------------------------------------------ *)
(** ** Runs on concrete inputs: the further properties *)
(* ------------------------------------------------------------------ *)


Lemma find_most_recent_unique_newest_witness :
  _find_most_recent_file no_bracket no_beyond (mkHandler ["downloads"] PREFIX)
    exports_world
  = (exports_world, inr ["downloads"; "CONSULTA_TLP_PCP_CS_050126_0800.xlsx"]).
Proof.
  apply (find_most_recent_unique_newest no_bracket no_beyond
           (mkHandler ["downloads"] PREFIX) exports_world
           [(["downloads"; "CONSULTA_TLP_PCP_CS_050126_0800.xlsx"], 400);
            (["downloads"; "CONSULTA_TLP_PCP_CS_010126_0900.xlsx"], 100)]
           (["downloads"; "CONSULTA_TLP_PCP_CS_050126_0800.xlsx"], 400)).
  - vm_compute. reflexivity.
  - left. reflexivity.
  - intros x [<-|[<-|[]]].
    + left. reflexivity.
    + right. simpl. lia.
Defined.

Lemma deleted_file_is_not_found_again_witness :
  _find_most_recent_file no_bracket no_beyond (mkHandler ["downloads"] PREFIX)
    exports_world_after_delete
  <> (exports_world_after_delete,
      inr ["downloads"; "CONSULTA_TLP_PCP_CS_050126_0800.xlsx"]).
Proof.
  apply (deleted_file_is_not_found_again no_bracket no_beyond
           (mkHandler ["downloads"] PREFIX) (mkHandler ["downloads"] PREFIX)
           None exports_world).
  - vm_compute. reflexivity.
  - vm_compute. reflexivity.
Defined.

Lemma init_only_adds_directories_witness :
  mkHandler ["home"; "user"; "Downloads"] PREFIX
  = mkHandler ["home"; "user"; "Downloads"] PREFIX
  /\ (exists g,
         fs home_world_after_init = (fs home_world ++ g)%list
         /\ forall e, In e g ->
              In (fst e) (ancestors_and_self [] ["home"; "user"; "Downloads"])
              /\ is_dir (snd e) = true)
  /\ exists_ (fs home_world_after_init) ["home"; "user"; "Downloads"] = true
  /\ __init__ ["home"; "user"; "Downloads"] 7 None PREFIX home_world_after_init
     = (home_world_after_init,
        inr (mkHandler ["home"; "user"; "Downloads"] PREFIX)).
Proof.
  apply (init_only_adds_directories ["home"; "user"; "Downloads"] 7 None PREFIX
           home_world home_world_after_init
           (mkHandler ["home"; "user"; "Downloads"] PREFIX)).
  vm_compute. reflexivity.
Defined.

Lemma init_raises_when_an_ancestor_is_a_file_witness :
  exists e,
    __init__ ["home"; "user"; "Downloads"] 7 None PREFIX blocked_world
    = (mkWorld (fs blocked_world)
         (log blocked_world
          ++ [(WARNING, "Diretório não encontrado: "
                        ++ str_path ["home"; "user"; "Downloads"])]),
       inl e)
    /\ exn_cls e = NotADirectoryError.
Proof.
  apply (init_raises_when_an_ancestor_is_a_file ["home"; "user"; "Downloads"] 7
           None PREFIX blocked_world ["home"] (mkNode false 0)).
  - reflexivity.
  - simpl. auto.
  - reflexivity.
  - reflexivity.
Defined.

Lemma nothing_to_process_or_delete_witness :
  snd (process_most_recent_file no_bracket no_beyond
         (read_excel_from []) to_datetime_iso float_str_short astype_Int64_refuse
         holds_NA_extension (mkHandler ["home"] PREFIX) None home_world)
  = inr (mkResult false
           ("Erro ao processar arquivo mais recente: "
            ++ not_found_message (mkHandler ["home"] PREFIX)) None)
  /\ snd (delete_most_recent_file no_bracket no_beyond (mkHandler ["home"] PREFIX)
            None home_world)
     = inr false.
Proof.
  destruct (nothing_to_process_or_delete no_bracket no_beyond (read_excel_from [])
              to_datetime_iso float_str_short astype_Int64_refuse
              holds_NA_extension (mkHandler ["home"] PREFIX) home_world)
    as [P D].
  - vm_compute. reflexivity.
  - rewrite P, D. split; reflexivity.
Defined.

Lemma extract_returns_a_stamp_of_the_stem_witness :
  mkWorld [] [] = mkWorld [] []
  /\ exists (t : datetime) (pre post : list ascii),
      valid_stamp t
      /\ list_ascii_of_string (stem example_path)
         = (pre ++ list_ascii_of_string (DATETIME_FORMAT t) ++ post)%list
      /\ (forall k, (k < length pre)%nat ->
            match_token (skipn k (list_ascii_of_string (stem example_path))) = None)
      /\ ("2026-01-04", "2026-01-04 12:12")
         = (DISPLAY_DATE_FORMAT t, DISPLAY_DATETIME_FORMAT t)
      /\ "2026-01-04 12:12" = "2026-01-04" ++ " " ++ pad2 (hour t) ++ ":"
                              ++ pad2 (minute t).
Proof.
  apply (extract_returns_a_stamp_of_the_stem example_path (mkWorld [] [])
           (mkWorld [] []) ("2026-01-04", "2026-01-04 12:12")).
  vm_compute. reflexivity.
Defined.

Lemma normalized_table_shape_witness :
  labels counts_example_normalized
  = "dt_carga" :: "dthr_carga"
    :: map (rename_label COLUMN_MAPPING) (labels counts_example)
  /\ fs (mkWorld [] []) = fs (mkWorld [] []).
Proof.
  apply (normalized_table_shape to_datetime_iso float_str_short
           astype_Int64_refuse holds_NA_extension
           counts_example example_path (mkWorld [] []) (mkWorld [] [])).
  - vm_compute. solve_nodup.
  - vm_compute. reflexivity.
Defined.

Lemma load_columns_repeat_the_stamp_witness :
  exists dt_carga dthr_carga,
    _extract_datetime_from_filename example_path (mkWorld [] [])
    = (mkWorld [] [], inr (dt_carga, dthr_carga))
    /\ get_columns counts_example_normalized "dt_carga"
       = [ObjectArray (repeat (PyStr dt_carga) (nrows counts_example))]
    /\ get_columns counts_example_normalized "dthr_carga"
       = [ObjectArray (repeat (PyStr dthr_carga) (nrows counts_example))].
Proof.
  apply (load_columns_repeat_the_stamp to_datetime_iso float_str_short
           astype_Int64_refuse holds_NA_extension
           counts_example example_path (mkWorld [] []) (mkWorld [] [])).
  - vm_compute. solve_nodup.
  - vm_compute. reflexivity.
Defined.

Lemma reserved_label_aborts_the_load_witness :
  exists c,
    In c ["dt_carga"; "dthr_carga"]
    /\ _process_dataframe to_datetime_iso float_str_short astype_Int64_refuse
         holds_NA_extension reserved_example example_path (mkWorld [] [])
       = (mkWorld [] [],
          inl (Exn ValueError ("cannot insert " ++ c ++ ", already exists")))
    /\ _load_to_dataframe (read_excel_from [(example_path, reserved_example)])
         to_datetime_iso float_str_short astype_Int64_refuse holds_NA_extension
         example_path (mkWorld [] [])
       = (mkWorld [] [],
          inr (mkResult false
                 ("Erro ao processar arquivo: "
                  ++ "cannot insert " ++ c ++ ", already exists") None)).
Proof.
  apply (reserved_label_aborts_the_load
           (read_excel_from [(example_path, reserved_example)])
           to_datetime_iso float_str_short astype_Int64_refuse holds_NA_extension
           example_path (mkWorld [] []) (mkWorld [] []) reserved_example
           ("2026-01-04", "2026-01-04 12:12") "dt_carga").
  - vm_compute. reflexivity.
  - vm_compute. reflexivity.
  - simpl. auto.
  - vm_compute. reflexivity.
Defined.

Lemma unreadable_name_aborts_the_load_witness :
  _load_to_dataframe (read_excel_from [(["no_timestamp_here.xlsx"], id_example)])
    to_datetime_iso float_str_short astype_Int64_refuse holds_NA_extension
    ["no_timestamp_here.xlsx"] (mkWorld [] [])
  = (mkWorld []
       [(ERROR, "Erro na extração: "
                ++ "Padrão de data não encontrado em: no_timestamp_here")],
     inr (mkResult false
            ("Erro ao processar arquivo: "
             ++ "Padrão de data não encontrado em: no_timestamp_here") None)).
Proof.
  apply (unreadable_name_aborts_the_load
           (read_excel_from [(["no_timestamp_here.xlsx"], id_example)])
           to_datetime_iso float_str_short astype_Int64_refuse holds_NA_extension
           ["no_timestamp_here.xlsx"] (mkWorld [] []) (mkWorld [] []) id_example
           (Exn ValueError "Padrão de data não encontrado em: no_timestamp_here")).
  - vm_compute. reflexivity.
  - vm_compute. reflexivity.
Defined.

Lemma bad_identifier_aborts_the_load_witness :
  (exists w2 e,
      _process_dataframe to_datetime_iso float_str_short astype_Int64_refuse
        holds_NA_extension fraction_example example_path (mkWorld [] [])
      = (w2, inl e))
  /\ (exists w2 msg,
         _load_to_dataframe (read_excel_from [(example_path, fraction_example)])
           to_datetime_iso float_str_short astype_Int64_refuse holds_NA_extension
           example_path (mkWorld [] [])
         = (w2, inr (mkResult false msg None)))
  /\ (forall l, forallb safe_float l = false ->
                exists e, normalize_id float_str_short astype_Int64_refuse (Float64Array l)
                          = inl e).
Proof.
  apply (bad_identifier_aborts_the_load
           (read_excel_from [(example_path, fraction_example)])
           to_datetime_iso float_str_short astype_Int64_refuse holds_NA_extension
           example_path (mkWorld [] []) (mkWorld [] []) fraction_example "raiz"
           (Float64Array [Some (3 # 2)])
           (Exn TypeError "cannot safely cast non-equivalent float64 to int64")).
  - vm_compute. solve_nodup.
  - simpl. auto.
  - vm_compute. left. reflexivity.
  - vm_compute. reflexivity.
  - vm_compute. reflexivity.
Defined.

Lemma other_columns_pass_through_witness :
  get_columns counts_example_normalized "Qtd" = [Int64Array [3; 0]].
Proof.
  destruct (other_columns_pass_through to_datetime_iso float_str_short
              astype_Int64_refuse holds_NA_extension
              counts_example example_path (mkWorld [] []) (mkWorld [] [])
              counts_example_normalized "Qtd" (Int64Array [3; 0]))
    as (_ & K & _).
  - vm_compute. solve_nodup.
  - vm_compute. right. left. reflexivity.
  - simpl. intros [H|[H|[H|[]]]]; discriminate.
  - simpl. intros [H|[H|[H|[]]]]; discriminate.
  - vm_compute. reflexivity.
  - apply (K [3; 0]). reflexivity.
Defined.

Lemma rename_keeps_labels_distinct_witness :
  NoDup (labels (rename COLUMN_MAPPING counts_example)).
Proof.
  apply (rename_keeps_labels_distinct counts_example).
  - vm_compute. solve_nodup.
  - intros l I. vm_compute in I. destruct I as [<-|[<-|[<-|[]]]];
      intros H; vm_compute in H;
      repeat (destruct H as [H|H]; [discriminate|]); exact H.
Defined.

Lemma process_is_load_on_the_resolved_path_witness :
  process_most_recent_file no_bracket no_beyond
    (read_excel_from [(["downloads"; "CONSULTA_TLP_PCP_CS_050126_0800.xlsx"],
                       counts_example)])
    to_datetime_iso float_str_short astype_Int64_refuse holds_NA_extension
    (mkHandler ["downloads"] PREFIX) None exports_world
  = process_most_recent_file no_bracket no_beyond
      (read_excel_from [(["downloads"; "CONSULTA_TLP_PCP_CS_050126_0800.xlsx"],
                         counts_example)])
      to_datetime_iso float_str_short astype_Int64_refuse holds_NA_extension
      (mkHandler ["downloads"] PREFIX)
      (Some ["downloads"; "CONSULTA_TLP_PCP_CS_050126_0800.xlsx"]) exports_world.
Proof.
  apply (proj2 (process_is_load_on_the_resolved_path no_bracket no_beyond
                  (read_excel_from
                     [(["downloads"; "CONSULTA_TLP_PCP_CS_050126_0800.xlsx"],
                       counts_example)])
                  to_datetime_iso float_str_short astype_Int64_refuse
                  holds_NA_extension (mkHandler ["downloads"] PREFIX)
                  ["downloads"; "CONSULTA_TLP_PCP_CS_050126_0800.xlsx"]
                  exports_world)).
  vm_compute. reflexivity.
Defined.

Lemma searched_deletion_logs_none_witness :
  delete_most_recent_file no_bracket no_beyond (mkHandler ["downloads"] PREFIX) None
    exports_world
  = (mkWorld
       (filter (fun e => negb (path_eqb (fst e)
                                 ["downloads"; "CONSULTA_TLP_PCP_CS_050126_0800.xlsx"]))
          (fs exports_world))
       (log exports_world ++ [(INFO, "Arquivo removido com sucesso: None")]),
     inr true).
Proof.
  apply (searched_deletion_logs_none no_bracket no_beyond
           (mkHandler ["downloads"] PREFIX) exports_world
           ["downloads"; "CONSULTA_TLP_PCP_CS_050126_0800.xlsx"]
           (mkNode false 400)).
  - vm_compute. reflexivity.
  - vm_compute. reflexivity.
  - reflexivity.
Defined.

Lemma cleanup_and_text_steps_idempotent_witness :
  normalize_text float_str_short
    (cleanup holds_NA_extension
       (normalize_text float_str_short (cleanup holds_NA_extension text_example)))
  = normalize_text float_str_short (cleanup holds_NA_extension text_example).
Proof.
  apply (cleanup_and_text_steps_idempotent float_str_short holds_NA_extension
           float_str_short_not_sentinel text_example).
Defined.
